(** * Sale-deed processor: the batch pipeline engine

    A shallow embedding of the scheduling and lifecycle core of the
    sale-deed processor (backend/app):

    - [utils/file_handler.py]            -> [Module FileHandler]
    - [services/pdf_processor_v2.py]     -> [Module PDFProcessorV2]
    - [workers/pipeline_processor_v2.py] -> [Module PipelineBatchProcessor]
    - [workers/vision_batch_processor.py]-> [Module VisionBatchProcessor]

    Python code that can raise, reads the shared [is_running] flag, touches
    the file system or the database is written in a small free monad
    ([Py.Prog]): one node per observable action.  The same program text is
    then run either sequentially (with a stop request arriving after a
    chosen number of actions) or action by action by the thread scheduler of
    the pipeline. *)

From Stdlib Require Import ZArith Lia String Ascii DecimalString.
From stdpp Require Import base option list gmap strings.

Local Open Scope string_scope.
Local Open Scope Z_scope.

(* ===================================================================== *)
(** * Part I: the embedding                                               *)
(* ===================================================================== *)

(** ** Python strings and [pathlib] names *)

Module PyStr.

(** [s.endswith(suffix)] *)
Definition endswith (s suffix : string) : bool :=
  (String.length suffix <=? String.length s)%nat &&
  String.eqb
    (String.substring (String.length s - String.length suffix)
                      (String.length suffix) s)
    suffix.

(** [s[:-n]] for [n > 0] *)
Definition drop_last (n : nat) (s : string) : string :=
  String.substring 0 (String.length s - n) s.

(** [s.rfind(c)] for a one-character needle: the index of the last
    occurrence, if any. *)
Fixpoint rfind_char (c : ascii) (s : string) : option nat :=
  match s with
  | EmptyString => None
  | String a rest =>
      match rfind_char c rest with
      | Some i => Some (S i)
      | None => if Ascii.eqb a c then Some 0%nat else None
      end
  end.

(** [PurePath.stem]: the final component without its last suffix.
    pathlib: [i = name.rfind('.')]; the suffix is cut when
    [0 < i < len(name) - 1]. *)
Definition stem (name : string) : string :=
  match rfind_char "."%char name with
  | Some i =>
      if (0 <? i)%nat && (i <? String.length name - 1)%nat
      then String.substring 0 i name
      else name
  | None => name
  end.

(** [s.split(sep)] for a non-empty separator: left-to-right,
    non-overlapping.  [skip] counts the separator characters still to be
    dropped; [cur] is the current piece, reversed. *)
Fixpoint split_go (sep : string) (skip : nat) (cur : string) (s : string)
  : list string :=
  match s with
  | EmptyString => [String.rev cur]
  | String c rest =>
      match skip with
      | S n => split_go sep n cur rest
      | O =>
          if String.prefix sep s
          then String.rev cur :: split_go sep (String.length sep - 1) "" rest
          else split_go sep 0 (String c cur) rest
      end
  end.

Definition split (s sep : string) : list string := split_go sep 0 "" s.

(** [s.replace(old, new)] for a non-empty [old]. *)
Fixpoint replace_go (old new : string) (skip : nat) (s : string) : string :=
  match s with
  | EmptyString => EmptyString
  | String c rest =>
      match skip with
      | S n => replace_go old new n rest
      | O =>
          if String.prefix old s
          then new +:+ replace_go old new (String.length old - 1) rest
          else String c (replace_go old new 0 rest)
      end
  end.

Definition replace (s old new : string) : string := replace_go old new 0 s.

End PyStr.

(** A path is its parent directory and its final component:
    [directory / name] is the pair. *)
Abbreviation Path := (string * string)%type.

Definition path_name (p : Path) : string := snd p.
Definition path_stem (p : Path) : string := PyStr.stem (snd p).
Definition path_join (dir name : string) : Path := (dir, name).

(** ** Python floats

    Fees are Python floats.  Their arithmetic is not modelled; the
    operations the code applies to them are the methods of this class. *)

Class PyFloat (F : Type) := {
  (** [bool(x)]: a float is truthy unless it is zero *)
  float_truthy : F -> bool;
  (** [x > 0] *)
  float_gt_zero : F -> bool;
  (** [x == int(x)] *)
  float_is_integral : F -> bool;
  (** [str(int(x))] *)
  float_str_int : F -> string;
  (** [f"{x:.2f}"] *)
  float_fmt_2f : F -> string;
  (** [ValidationService.calculate_guidance_value]: [round(float(x) * 100, 2)] *)
  calculate_guidance_value : F -> F
}.

(** A numeric value found in a dictionary: a float, or some other object
    given by its [str()]. *)
Inductive PyNum (F : Type) : Type :=
| NumFloat (x : F)
| NumOther (repr : string).
Arguments NumFloat {F} x.
Arguments NumOther {F} repr.

(** ** Settings (app/config.py) *)

Module settings.
Definition NEWLY_UPLOADED_DIR : string := "data/newly_uploaded".
Definition PROCESSED_DIR : string := "data/processed".
Definition FAILED_DIR : string := "data/failed".
Definition LEFT_OVER_REG_FEE_DIR : string := "data/left_over_reg_fee".
Definition VISION_FAILED_DIR : string := "data/vision_failed".
Definition MAX_OCR_WORKERS : nat := 5.
Definition MAX_LLM_WORKERS : nat := 5.
Definition STAGE2_QUEUE_SIZE : nat := 2.
Definition ENABLE_OCR_REG_FEE_EXTRACTION : bool := false.
End settings.

(** ** Exceptions, outcomes and programs *)

Module Py.

(** The two exception classes the engine distinguishes.
    [ProcessingStoppedException] (app/exceptions.py) subclasses
    [Exception]; every other error is an [Exception] with its [str()]. *)
Inductive exn : Type :=
| ProcessingStoppedException (message : string)
| Exception (message : string).

(** [str(e)] *)
Definition str (e : exn) : string :=
  match e with
  | ProcessingStoppedException message => message
  | Exception message => message
  end.

Inductive outcome (A : Type) : Type :=
| Return (a : A)
| Raise (e : exn).
Arguments Return {A} a.
Arguments Raise {A} e.

(** A program over an action signature [E]: it returns, raises, or
    performs one action and continues with the answer. *)
Inductive Prog (E : Type -> Type) (R : Type) : Type :=
| Ret (r : R)
| Throw (e : exn)
| Act (X : Type) (a : E X) (k : X -> Prog E R).
Arguments Ret {E R} r.
Arguments Throw {E R} e.
Arguments Act {E R X} a k.

Fixpoint bind {E A B} (p : Prog E A) (f : A -> Prog E B) : Prog E B :=
  match p with
  | Ret r => f r
  | Throw e => Throw e
  | Act a k => Act a (fun x => bind (k x) f)
  end.

(** [try: p  except ... as e: handler e].  The handler receives every
    exception; Python's clause order is the handler's case analysis. *)
Fixpoint try_except {E R} (p : Prog E R) (handler : exn -> Prog E R)
  : Prog E R :=
  match p with
  | Ret r => Ret r
  | Throw e => handler e
  | Act a k => Act a (fun x => try_except (k x) handler)
  end.

(** [try: p  finally: cleanup] *)
Fixpoint try_finally {E R} (p : Prog E R) (cleanup : Prog E unit)
  : Prog E R :=
  match p with
  | Ret r => bind cleanup (fun _ => Ret r)
  | Throw e => bind cleanup (fun _ => Throw e)
  | Act a k => Act a (fun x => try_finally (k x) cleanup)
  end.

(** A call to a collaborator whose result is already an outcome. *)
Definition call {E A} (o : outcome A) : Prog E A :=
  match o with
  | Return a => Ret a
  | Raise e => Throw e
  end.

(** One action, for its answer. *)
Definition ask {E A} (a : E A) : Prog E A := Act a Ret.

(** One action, raising when it answers with an exception. *)
Definition perform {E A} (a : E (outcome A)) : Prog E A :=
  Act a call.

(** Running a program in another signature. *)
Fixpoint translate {E E' : Type -> Type} {R}
  (inj : forall X, E X -> E' X) (p : Prog E R) : Prog E' R :=
  match p with
  | Ret r => Ret r
  | Throw e => Throw e
  | Act a k => Act (inj _ a) (fun x => translate inj (k x))
  end.

(** A function body with a mutable local [S] (the [result] dictionary of
    a stage function).  An exception leaves the body together with the
    local as it stands at the [raise], which is what the [except] clauses
    of the function then see. *)
Definition Body (E : Type -> Type) (S R : Type) : Type :=
  S -> Prog E (S * outcome R).

Definition body_ret {E S R} (r : R) : Body E S R :=
  fun s => Ret (s, Return r).

Definition body_raise {E S R} (e : exn) : Body E S R :=
  fun s => Ret (s, Raise e).

Definition body_bind {E S A B} (m : Body E S A) (f : A -> Body E S B)
  : Body E S B :=
  fun s =>
    bind (m s) (fun so =>
      match snd so with
      | Return a => f a (fst so)
      | Raise e => Ret (fst so, Raise e)
      end).

(** A statement that does not touch the local. *)
Definition lift {E S R} (p : Prog E R) : Body E S R :=
  fun s =>
    try_except (bind p (fun r => Ret (s, Return r)))
               (fun e => Ret (s, Raise e)).

(** An assignment to the local. *)
Definition modify {E S} (f : S -> S) : Body E S unit :=
  fun s => Ret (f s, Return tt).

End Py.

Export Py.

Declare Scope prog_scope.
Delimit Scope prog_scope with prog.
Notation "x <- p ;; q" := (bind p (fun x => q))
  (at level 20, p at level 99, q at level 200, only parsing) : prog_scope.
Notation "p ;; q" := (bind p (fun _ => q))
  (at level 100, q at level 200, only parsing, right associativity)
  : prog_scope.
Local Open Scope prog_scope.

Declare Scope body_scope.
Delimit Scope body_scope with body.
Notation "x <- p ;; q" := (body_bind p (fun x => q))
  (at level 20, p at level 99, q at level 200, only parsing) : body_scope.
Notation "p ;; q" := (body_bind p (fun _ => q))
  (at level 100, q at level 200, only parsing, right associativity)
  : body_scope.

(** ** Persistent records (app/models.py)

    The v2 model classes are not part of the sources at hand; the columns
    are those assigned by [PDFProcessorV2._save_to_database] and
    [VisionBatchProcessor._process_single_image], with the keys of the v1
    models: [document_id] is the primary key of [DocumentDetail], the child
    tables carry an auto-incremented [id]. *)

Module Models.

Definition Time := nat.

Record DocumentDetail := {
  document_id : string;
  transaction_date : option string;
  registration_office : option string;
  created_at : Time;
  updated_at : Time
}.

Record PropertyDetail := {
  prop_id : nat;
  prop_document_id : string;
  schedule_b_area : option string;
  schedule_c_property_name : option string;
  schedule_c_property_address : option string;
  schedule_c_property_area : option string;
  paid_in_cash_mode : option string;
  prop_pincode : option string;
  prop_state : option string;
  sale_consideration : option string;
  stamp_duty_fee : option string;
  registration_fee : option string;
  new_ocr_reg_fee : option string;
  guidance_value : option string
}.

(** The ten columns buyers and sellers share. *)
Record Party := {
  name : option string;
  gender : option string;
  aadhaar_number : option string;
  pan_card_number : option string;
  address : option string;
  pincode : option string;
  state : option string;
  phone_number : option string;
  secondary_phone_number : option string;
  email : option string
}.

Record BuyerDetail := {
  buyer_id : nat;
  buyer_document_id : string;
  buyer_party : Party
}.

Record SellerDetail := {
  seller_id : nat;
  seller_document_id : string;
  seller_party : Party;
  property_share : option string
}.

(** The four tables, rows in insertion order, and the sequences behind
    the auto-incremented keys. *)
Record DB := {
  document_details : list DocumentDetail;
  property_details : list PropertyDetail;
  buyer_details : list BuyerDetail;
  seller_details : list SellerDetail;
  property_seq : nat;
  buyer_seq : nat;
  seller_seq : nat
}.

Definition empty_db : DB :=
  {| document_details := []; property_details := []; buyer_details := [];
     seller_details := []; property_seq := 1; buyer_seq := 1; seller_seq := 1 |}.

(** [query.filter(pred).first()] *)
Definition first {A} (pred : A -> bool) (rows : list A) : option A :=
  List.find pred rows.

(** Assigning to the attributes of the object [first()] returned: the
    first matching row is rewritten in place. *)
Fixpoint update_first {A} (pred : A -> bool) (f : A -> A) (rows : list A)
  : list A :=
  match rows with
  | [] => []
  | r :: rest => if pred r then f r :: rest else r :: update_first pred f rest
  end.

(** [query.filter(pred).delete()] *)
Definition delete_where {A} (pred : A -> bool) (rows : list A) : list A :=
  List.filter (fun r => negb (pred r)) rows.

End Models.

Export Models.

(** ** The machine a stage function runs on *)

(** What the code shares with its environment: the orchestrator's
    [is_running] flag, the files on disk and the database. *)
Record Machine := {
  is_running : bool;
  fs : gset Path;
  db : DB
}.

Definition set_is_running (b : bool) (m : Machine) : Machine :=
  {| is_running := b; fs := fs m; db := db m |}.
Definition set_fs (f : gset Path) (m : Machine) : Machine :=
  {| is_running := is_running m; fs := f; db := db m |}.
Definition set_db (d : DB) (m : Machine) : Machine :=
  {| is_running := is_running m; fs := fs m; db := d |}.

(** What the environment decides: which file-system and database calls
    fail (and with which message), and what the table detector finds.
    [None] means the call succeeds. *)
Record World := {
  mkdir_fault : string -> option string;
  move_fault : Path -> Path -> option string;
  remove_fault : Path -> option string;
  save_fault : Path -> option string;
  commit_fault : DB -> option string;
  db_context_fault : string -> option string;
  yolo_detect : Path -> outcome bool
}.

(** The actions of a stage function. *)
Inductive procE : Type -> Type :=
(** read [batch_processor.is_running] *)
| IsRunning : procE bool
(** [path.exists()] *)
| PathExists (p : Path) : procE bool
(** [directory.mkdir(parents=True, exist_ok=True)] *)
| Mkdir (d : string) : procE (outcome unit)
(** [shutil.move(str(src), str(dst))] *)
| ShutilMove (src dst : Path) : procE (outcome unit)
(** [os.remove(path)], [path.unlink()] *)
| OsRemove (p : Path) : procE (outcome unit)
(** [image.save(path)] *)
| ImageSave (p : Path) : procE (outcome unit)
(** [yolo_detector.detect_and_crop(image, output)]: writes [output] when a
    table is found *)
| YoloDetectAndCrop (image output : Path) : procE (outcome bool)
(** [get_db_context().__enter__()] for the item [label] *)
| DbContext (label : string) : procE (outcome unit)
(** [db.query(PropertyDetail).filter(document_id == id).first()] *)
| DbQueryProperty (id : string) : procE (option PropertyDetail)
(** the session's pending changes followed by [db.commit()]; a failed
    commit is rolled back *)
| DbCommit (txn : DB -> DB) : procE (outcome unit).

(** The calls as programs. *)
Definition batch_processor_is_running : Prog procE bool := ask IsRunning.
Definition path_exists (p : Path) : Prog procE bool := ask (PathExists p).
Definition mkdir (d : string) : Prog procE unit := perform (Mkdir d).
Definition shutil_move (src dst : Path) : Prog procE unit :=
  perform (ShutilMove src dst).
Definition os_remove (p : Path) : Prog procE unit := perform (OsRemove p).
Definition image_save (p : Path) : Prog procE unit := perform (ImageSave p).
Definition detect_and_crop (image output : Path) : Prog procE bool :=
  perform (YoloDetectAndCrop image output).
(** Modelled from the spec: [get_db_context] of app/database.py, which is
    not among the sources.  The storage collaborator is specified only at
    its interface: opening a session may fail, and what the block did is
    persisted when the block is left. *)
Definition get_db_context (label : string) : Prog procE unit :=
  perform (DbContext label).
Definition db_query_property (id : string)
  : Prog procE (option PropertyDetail) := ask (DbQueryProperty id).
Definition db_commit (txn : DB -> DB) : Prog procE unit :=
  perform (DbCommit txn).

Definition fault (o : option string) : outcome unit :=
  match o with
  | Some message => Raise (Exception message)
  | None => Return tt
  end.

Definition no_such_file : string := "[Errno 2] No such file or directory".

Definition do_action (w : World) {X} (a : procE X) (m : Machine)
  : Machine * X :=
  match a in procE X return Machine * X with
  | IsRunning => (m, is_running m)
  | PathExists p => (m, bool_decide (p ∈ fs m))
  | Mkdir d => (m, fault (mkdir_fault w d))
  | ShutilMove src dst =>
      if bool_decide (src ∈ fs m) then
        match move_fault w src dst with
        | Some message => (m, Raise (Exception message))
        | None => (set_fs ({[dst]} ∪ fs m ∖ {[src]}) m, Return tt)
        end
      else (m, Raise (Exception no_such_file))
  | OsRemove p =>
      if bool_decide (p ∈ fs m) then
        match remove_fault w p with
        | Some message => (m, Raise (Exception message))
        | None => (set_fs (fs m ∖ {[p]}) m, Return tt)
        end
      else (m, Raise (Exception no_such_file))
  | ImageSave p =>
      match save_fault w p with
      | Some message => (m, Raise (Exception message))
      | None => (set_fs ({[p]} ∪ fs m) m, Return tt)
      end
  | YoloDetectAndCrop image output =>
      match yolo_detect w image with
      | Return true => (set_fs ({[output]} ∪ fs m) m, Return true)
      | Return false => (m, Return false)
      | Raise e => (m, Raise e)
      end
  | DbContext label => (m, fault (db_context_fault w label))
  | DbQueryProperty id =>
      (m, first (fun p => String.eqb (prop_document_id p) id)
                (property_details (db m)))
  | DbCommit txn =>
      match commit_fault w (db m) with
      | Some message => (m, Raise (Exception message))
      | None => (set_db (txn (db m)) m, Return tt)
      end
  end.

(** [stop()]: the flag is cleared, and nothing in a run sets it again. *)
Definition request_stop (m : Machine) : Machine := set_is_running false m.

(** The operator's stop request, as a countdown: [Some n] lands after [n]
    more actions of the running program, [None] never. *)
Definition tick (stop_at : option nat) (m : Machine) : option nat * Machine :=
  match stop_at with
  | Some O => (None, request_stop m)
  | Some (S n) => (Some n, m)
  | None => (None, m)
  end.

(** A sequential run of one program: the countdown and the machine it
    ends with, and its outcome. *)
Fixpoint run (w : World) {R} (p : Prog procE R) (stop_at : option nat)
  (m : Machine) : option nat * Machine * outcome R :=
  match p with
  | Ret r => (stop_at, m, Return r)
  | Throw e => (stop_at, m, Raise e)
  | Act a k =>
      let '(stop_at', m0) := tick stop_at m in
      let '(m1, x) := do_action w a m0 in
      run w (k x) stop_at' m1
  end.

(** ** utils/file_handler.py *)

Module FileHandler.

(** [FileHandler.extract_document_id]: the stem of the file name, without
    a trailing [_ocred]. *)
Definition extract_document_id (pdf_filename : string) : string :=
  let filename := PyStr.stem pdf_filename in
  if PyStr.endswith filename "_ocred"
  then PyStr.drop_last 6 filename
  else filename.

(** [FileHandler.move_file(source, destination_dir, filename=None)].
    The whole body sits in [try ... except Exception: return None]. *)
Definition move_file (source : Path) (destination_dir : string)
  (filename : option string) : Prog procE (option Path) :=
  try_except
    (mkdir destination_dir;;
     let dest_filename :=
       match filename with
       | Some f => if String.eqb f "" then path_name source else f
       | None => path_name source
       end in
     let dest_path := path_join destination_dir dest_filename in
     shutil_move source dest_path;;
     Ret (Some dest_path))
    (fun e => Ret None).

End FileHandler.

(** ** Results exchanged between the stages *)

(** The three values of the ["status"] key: ["success"], ["failed"],
    ["stopped"]. *)
Inductive Status : Type := Success | Failed | Stopped.

#[global] Instance Status_eq_dec : EqDecision Status.
Proof. solve_decision. Defined.

(** [Stage1Result] (workers/pipeline_processor_v2.py) *)
Record Stage1Result (F : Type) := {
  pdf_path : Path;
  s1_document_id : string;
  s1_registration_fee : option F;
  s1_new_ocr_reg_fee : option F;
  ocr_text : string;
  s1_status : Status;
  s1_error : option string
}.
Arguments pdf_path {F} _.
Arguments s1_document_id {F} _.
Arguments s1_registration_fee {F} _.
Arguments s1_new_ocr_reg_fee {F} _.
Arguments ocr_text {F} _.
Arguments s1_status {F} _.
Arguments s1_error {F} _.

(** The per-item result dictionary.  The dictionaries the orchestrator
    builds itself lack some keys: an absent key is the outer [None]. *)
Record ResultDict (F : Type) := {
  res_document_id : string;
  res_status : Status;
  res_error : option string;
  res_registration_fee : option (option F);
  res_llm_extracted : bool;
  res_saved_to_db : bool;
  res_table_detected : option bool
}.
Arguments res_document_id {F} _.
Arguments res_status {F} _.
Arguments res_error {F} _.
Arguments res_registration_fee {F} _.
Arguments res_llm_extracted {F} _.
Arguments res_saved_to_db {F} _.
Arguments res_table_detected {F} _.

(** ** services/pdf_processor_v2.py *)

Module PDFProcessorV2.

Section Processor.
Context {F : Type} `{PyFloat F}.
(** What the language model hands back (a JSON dictionary). *)
Context {ExtractedData : Type}.

(** The ["document_details"], ["property_details"], ["buyer_details"] and
    ["seller_details"] of the cleaned dictionary
    ([ValidationService.validate_and_clean_data]). *)
Record DocumentData := {
  dd_transaction_date : option string;
  dd_registration_office : option string
}.

Record PropertyData := {
  pd_schedule_b_area : option string;
  pd_schedule_c_property_name : option string;
  pd_schedule_c_property_address : option string;
  pd_schedule_c_property_area : option string;
  pd_paid_in_cash_mode : option string;
  pd_pincode : option string;
  pd_state : option string;
  pd_sale_consideration : option string;
  pd_stamp_duty_fee : option string;
  pd_registration_fee : option (PyNum F);
  pd_guidance_value : option (PyNum F)
}.

Record CleanedData := {
  cd_document_details : DocumentData;
  cd_property_details : PropertyData;
  cd_buyer_details : list Party;
  cd_seller_details : list (Party * option string)
}.

(** The collaborators of the processor, by what they answer. *)
Record Services := {
  (** [reg_fee_extractor.extract(str(pdf_path))] *)
  extract : Path -> outcome (option F);
  (** [reg_fee_extractor.extract_from_ocr_text(text)] *)
  extract_from_ocr_text : string -> outcome (option F);
  (** [ocr_service.get_full_text(str(pdf_path), max_pages=25)]; an absent
      text is the empty string *)
  get_full_text : Path -> outcome string;
  (** [len(ocr_service.pdf_to_images(str(pdf_path)))] *)
  pdf_to_images : Path -> outcome nat;
  (** [llm_service.extract_structured_data(text)]; a falsy answer is
      [None] *)
  extract_structured_data : string -> outcome (option ExtractedData);
  (** [ValidationService.validate_and_clean_data(extracted_data)] *)
  validate_and_clean_data : ExtractedData -> outcome CleanedData;
  (** [datetime.utcnow()] *)
  utcnow : Time
}.

Record Processor := {
  (** [self.batch_processor] is set *)
  batch_processor : bool;
  services : Services;
  (** [settings.ENABLE_OCR_REG_FEE_EXTRACTION] *)
  ENABLE_OCR_REG_FEE_EXTRACTION : bool
}.

Variable self : Processor.

(** [if self.batch_processor and not self.batch_processor.is_running:
       raise ProcessingStoppedException(message)] *)
Definition stop_check (message : string) : Prog procE unit :=
  if batch_processor self then
    running <- batch_processor_is_running;;
    if negb running then Throw (ProcessingStoppedException message)
    else Ret tt
  else Ret tt.

(** [if registration_fee:] *)
Definition fee_truthy (fee : option F) : bool :=
  match fee with
  | Some x => float_truthy x
  | None => false
  end.

(** The two [except] clauses of [process_stage1_ocr]:
    [ProcessingStoppedException] first, then [Exception]. *)
Definition stage1_except (pdf_path : Path) (document_id : string) (e : exn)
  : Prog procE (Stage1Result F) :=
  match e with
  | ProcessingStoppedException message =>
      Ret {| pdf_path := pdf_path;
             s1_document_id := document_id;
             s1_registration_fee := None;
             s1_new_ocr_reg_fee := None;
             ocr_text := "";
             s1_status := Stopped;
             s1_error := Some message |}
  | Exception message =>
      Ret {| pdf_path := pdf_path;
             s1_document_id := document_id;
             s1_registration_fee := None;
             s1_new_ocr_reg_fee := None;
             ocr_text := "";
             s1_status := Failed;
             s1_error := Some message |}
  end.

(** [PDFProcessorV2.process_stage1_ocr(pdf_path, db)] *)
Definition process_stage1_ocr (pdf_path : Path)
  : Prog procE (Stage1Result F) :=
  let document_id := FileHandler.extract_document_id (path_name pdf_path) in
  try_except
    (stop_check "Stopped before Stage 1";;
     registration_fee <- call (extract (services self) pdf_path);;
     stop_check "Stopped before OCR";;
     full_ocr_text <- call (get_full_text (services self) pdf_path);;
     if String.eqb full_ocr_text "" ||
        (String.length full_ocr_text <? 100)%nat
     then Throw (Exception "OCR returned insufficient text")
     else
       stop_check "Stopped before OCR fee extraction";;
       new_ocr_reg_fee <-
         (if ENABLE_OCR_REG_FEE_EXTRACTION self
          then call (extract_from_ocr_text (services self) full_ocr_text)
          else Ret None);;
       Ret {| pdf_path := pdf_path;
              s1_document_id := document_id;
              s1_registration_fee := registration_fee;
              s1_new_ocr_reg_fee := new_ocr_reg_fee;
              ocr_text := full_ocr_text;
              s1_status := Success;
              s1_error := None |})
    (stage1_except pdf_path document_id).

(** *** [_save_to_database] *)

(** The fee columns are strings: a whole float prints as an integer, any
    other float with two decimals, anything else through [str()]. *)
Definition format_number (value : option (PyNum F)) : option string :=
  match value with
  | Some (NumFloat x) =>
      Some (if float_is_integral x then float_str_int x else float_fmt_2f x)
  | Some (NumOther repr) => Some repr
  | None => None
  end.

Definition is_document (id : string) (d : DocumentDetail) : bool :=
  String.eqb (document_id d) id.
Definition is_property_of (id : string) (p : PropertyDetail) : bool :=
  String.eqb (prop_document_id p) id.
Definition is_buyer_of (id : string) (b : BuyerDetail) : bool :=
  String.eqb (buyer_document_id b) id.
Definition is_seller_of (id : string) (s : SellerDetail) : bool :=
  String.eqb (seller_document_id s) id.

(** Create or update the document row. *)
Definition save_document (now : Time) (id : string) (doc_data : DocumentData)
  (docs : list DocumentDetail) : list DocumentDetail :=
  match first (is_document id) docs with
  | None =>
      (docs ++ [ {| document_id := id;
                    transaction_date := dd_transaction_date doc_data;
                    registration_office := dd_registration_office doc_data;
                    created_at := now;
                    updated_at := now |} ])%list
  | Some _ =>
      update_first (is_document id)
        (fun doc => {| document_id := document_id doc;
                       transaction_date := dd_transaction_date doc_data;
                       registration_office := dd_registration_office doc_data;
                       created_at := created_at doc;
                       updated_at := now |})
        docs
  end.

(** The assignments to the property row. *)
Definition fill_property (prop_data : PropertyData)
  (new_ocr_reg_fee : option F) (prop : PropertyDetail) : PropertyDetail :=
  {| prop_id := prop_id prop;
     prop_document_id := prop_document_id prop;
     schedule_b_area := pd_schedule_b_area prop_data;
     schedule_c_property_name := pd_schedule_c_property_name prop_data;
     schedule_c_property_address := pd_schedule_c_property_address prop_data;
     schedule_c_property_area := pd_schedule_c_property_area prop_data;
     paid_in_cash_mode := pd_paid_in_cash_mode prop_data;
     prop_pincode := pd_pincode prop_data;
     prop_state := pd_state prop_data;
     sale_consideration := pd_sale_consideration prop_data;
     stamp_duty_fee := pd_stamp_duty_fee prop_data;
     registration_fee := format_number (pd_registration_fee prop_data);
     new_ocr_reg_fee := format_number (NumFloat <$> new_ocr_reg_fee);
     guidance_value := format_number (pd_guidance_value prop_data) |}.

Definition blank_property (key : nat) (id : string) : PropertyDetail :=
  {| prop_id := key; prop_document_id := id;
     schedule_b_area := None; schedule_c_property_name := None;
     schedule_c_property_address := None; schedule_c_property_area := None;
     paid_in_cash_mode := None; prop_pincode := None; prop_state := None;
     sale_consideration := None; stamp_duty_fee := None;
     registration_fee := None; new_ocr_reg_fee := None;
     guidance_value := None |}.

(** [db.add(BuyerDetail(document_id=..., ...))] for each buyer, keys drawn
    from the sequence. *)
Fixpoint insert_buyers (id : string) (key : nat) (buyers : list Party)
  : list BuyerDetail :=
  match buyers with
  | [] => []
  | buyer_data :: rest =>
      {| buyer_id := key; buyer_document_id := id;
         buyer_party := buyer_data |} :: insert_buyers id (S key) rest
  end.

Fixpoint insert_sellers (id : string) (key : nat)
  (sellers : list (Party * option string)) : list SellerDetail :=
  match sellers with
  | [] => []
  | seller_data :: rest =>
      {| seller_id := key; seller_document_id := id;
         seller_party := fst seller_data;
         property_share := snd seller_data |}
      :: insert_sellers id (S key) rest
  end.

(** The session's work between [try:] and [db.commit()]. *)
Definition save_session (now : Time) (id : string) (data : CleanedData)
  (new_ocr_reg_fee : option F) (d : DB) : DB :=
  let docs := save_document now id (cd_document_details data)
                (document_details d) in
  let prop_data := cd_property_details data in
  let '(props, pseq) :=
    match first (is_property_of id) (property_details d) with
    | None =>
        ((property_details d ++
           [fill_property prop_data new_ocr_reg_fee
              (blank_property (property_seq d) id)])%list,
         S (property_seq d))
    | Some _ =>
        (update_first (is_property_of id)
           (fill_property prop_data new_ocr_reg_fee) (property_details d),
         property_seq d)
    end in
  let buyers := cd_buyer_details data in
  let sellers := cd_seller_details data in
  {| document_details := docs;
     property_details := props;
     buyer_details :=
       (delete_where (is_buyer_of id) (buyer_details d)
        ++ insert_buyers id (buyer_seq d) buyers)%list;
     seller_details :=
       (delete_where (is_seller_of id) (seller_details d)
        ++ insert_sellers id (seller_seq d) sellers)%list;
     property_seq := pseq;
     buyer_seq := (buyer_seq d + length buyers)%nat;
     seller_seq := (seller_seq d + length sellers)%nat |}.

(** [_save_to_database]: on any error [db.rollback()] and re-raise. *)
Definition _save_to_database (id : string) (data : CleanedData)
  (new_ocr_reg_fee : option F) : Prog procE unit :=
  try_except
    (db_commit
       (save_session (utcnow (services self)) id data new_ocr_reg_fee))
    (fun e => Throw e).


(** *** [_detect_and_save_table] *)

(** [str(n)] for a page number *)
Definition str_nat (n : nat) : string :=
  NilEmpty.string_of_uint (Nat.to_uint n).

Definition temp_image_path (id : string) (page_num : nat) : Path :=
  path_join settings.LEFT_OVER_REG_FEE_DIR
    ("temp_" +:+ id +:+ "_page_" +:+ str_nat page_num +:+ ".png").

Definition table_image_path (id : string) : Path :=
  path_join settings.LEFT_OVER_REG_FEE_DIR (id +:+ "_table.png").

(** The loop over the page images, [page_num] counting from 1. *)
Fixpoint detect_pages (id : string) (page_nums : list nat)
  : Prog procE bool :=
  match page_nums with
  | [] => Ret false
  | page_num :: rest =>
      let temp := temp_image_path id page_num in
      image_save temp;;
      cropped_table <- detect_and_crop temp (table_image_path id);;
      temp_exists <- path_exists temp;;
      (if temp_exists then os_remove temp else Ret tt);;
      if cropped_table then Ret true else detect_pages id rest
  end.

(** [_detect_and_save_table(pdf_path, document_id)]: any error is logged
    and answers [False]. *)
Definition _detect_and_save_table (pdf_path : Path) (id : string)
  : Prog procE bool :=
  try_except
    (images <- call (pdf_to_images (services self) pdf_path);;
     detect_pages id (seq 1 images))
    (fun e => Ret false).

(** *** [process_stage2_llm] *)

Definition with_status (v : Status) (r : ResultDict F) : ResultDict F :=
  {| res_document_id := res_document_id r; res_status := v;
     res_error := res_error r;
     res_registration_fee := res_registration_fee r;
     res_llm_extracted := res_llm_extracted r;
     res_saved_to_db := res_saved_to_db r;
     res_table_detected := res_table_detected r |}.

Definition with_error (v : option string) (r : ResultDict F) : ResultDict F :=
  {| res_document_id := res_document_id r; res_status := res_status r;
     res_error := v;
     res_registration_fee := res_registration_fee r;
     res_llm_extracted := res_llm_extracted r;
     res_saved_to_db := res_saved_to_db r;
     res_table_detected := res_table_detected r |}.

Definition with_llm_extracted (v : bool) (r : ResultDict F) : ResultDict F :=
  {| res_document_id := res_document_id r; res_status := res_status r;
     res_error := res_error r;
     res_registration_fee := res_registration_fee r;
     res_llm_extracted := v;
     res_saved_to_db := res_saved_to_db r;
     res_table_detected := res_table_detected r |}.

Definition with_saved_to_db (v : bool) (r : ResultDict F) : ResultDict F :=
  {| res_document_id := res_document_id r; res_status := res_status r;
     res_error := res_error r;
     res_registration_fee := res_registration_fee r;
     res_llm_extracted := res_llm_extracted r;
     res_saved_to_db := v;
     res_table_detected := res_table_detected r |}.

Definition with_table_detected (v : bool) (r : ResultDict F) : ResultDict F :=
  {| res_document_id := res_document_id r; res_status := res_status r;
     res_error := res_error r;
     res_registration_fee := res_registration_fee r;
     res_llm_extracted := res_llm_extracted r;
     res_saved_to_db := res_saved_to_db r;
     res_table_detected := Some v |}.

(** The fee found by pdfplumber goes into the cleaned dictionary, with
    the guidance value computed from it. *)
Definition with_registration_fee (registration_fee : option F)
  (cleaned_data : CleanedData) : CleanedData :=
  match registration_fee with
  | Some fee =>
      if float_truthy fee then
        let prop := cd_property_details cleaned_data in
        {| cd_document_details := cd_document_details cleaned_data;
           cd_property_details :=
             {| pd_schedule_b_area := pd_schedule_b_area prop;
                pd_schedule_c_property_name := pd_schedule_c_property_name prop;
                pd_schedule_c_property_address :=
                  pd_schedule_c_property_address prop;
                pd_schedule_c_property_area := pd_schedule_c_property_area prop;
                pd_paid_in_cash_mode := pd_paid_in_cash_mode prop;
                pd_pincode := pd_pincode prop;
                pd_state := pd_state prop;
                pd_sale_consideration := pd_sale_consideration prop;
                pd_stamp_duty_fee := pd_stamp_duty_fee prop;
                pd_registration_fee := Some (NumFloat fee);
                pd_guidance_value :=
                  Some (NumFloat (calculate_guidance_value fee)) |};
           cd_buyer_details := cd_buyer_details cleaned_data;
           cd_seller_details := cd_seller_details cleaned_data |}
      else cleaned_data
  | None => cleaned_data
  end.

(** The [try:] block of [process_stage2_llm]; the local is [result]. *)
Definition stage2_try (stage1_result : Stage1Result F)
  : Body procE (ResultDict F) unit :=
  let document_id := s1_document_id stage1_result in
  let pdf_path := pdf_path stage1_result in
  let registration_fee := s1_registration_fee stage1_result in
  let new_ocr_reg_fee := s1_new_ocr_reg_fee stage1_result in
  (lift (stop_check "Stopped before LLM");;
   extracted_data <-
     lift (call (extract_structured_data (services self)
                   (ocr_text stage1_result)));;
   match extracted_data with
   | None => body_raise (Exception "LLM failed to extract structured data")
   | Some extracted_data =>
       modify (with_llm_extracted true);;
       lift (stop_check "Stopped before validation");;
       cleaned_data <-
         lift (call (validate_and_clean_data (services self) extracted_data));;
       let cleaned_data := with_registration_fee registration_fee cleaned_data in
       lift (stop_check "Stopped before DB save");;
       lift (try_except
               (_save_to_database document_id cleaned_data new_ocr_reg_fee)
               (fun db_error =>
                  Throw (Exception ("Database save failed: " +:+ str db_error))));;
       modify (with_saved_to_db true);;
       lift (stop_check "Stopped before YOLO");;
       (if negb (fee_truthy registration_fee) then
          table_detected <- lift (_detect_and_save_table pdf_path document_id);;
          modify (with_table_detected table_detected)
        else body_ret tt);;
       modify (with_status Success);;
       lift (FileHandler.move_file pdf_path settings.PROCESSED_DIR None);;
       body_ret tt
   end)%body.

(** The two [except] clauses of [process_stage2_llm], on the [result] the
    [try:] block left behind. *)
Definition stage2_except (stage1_result : Stage1Result F)
  (result : ResultDict F) (e : exn) : Prog procE (ResultDict F) :=
  match e with
  | ProcessingStoppedException message =>
      Ret (with_error (Some message) (with_status Stopped result))
  | Exception message =>
      let result := with_status Failed (with_error (Some message) result) in
      still_there <- path_exists (pdf_path stage1_result);;
      (if still_there
       then FileHandler.move_file (pdf_path stage1_result)
              settings.FAILED_DIR None;; Ret tt
       else Ret tt);;
      Ret result
  end.

(** [PDFProcessorV2.process_stage2_llm(stage1_result, db)] *)
Definition process_stage2_llm (stage1_result : Stage1Result F)
  : Prog procE (ResultDict F) :=
  let result :=
    {| res_document_id := s1_document_id stage1_result;
       res_status := Failed;
       res_error := None;
       res_registration_fee := Some (s1_registration_fee stage1_result);
       res_llm_extracted := false;
       res_saved_to_db := false;
       res_table_detected := Some false |} in
  left <- stage2_try stage1_result result;;
  match snd left with
  | Return _ => Ret (fst left)
  | Raise e => stage2_except stage1_result (fst left) e
  end.

End Processor.

Arguments Services F ExtractedData : clear implicits.
Arguments Processor F ExtractedData : clear implicits.
Arguments CleanedData F : clear implicits.
Arguments PropertyData F : clear implicits.

End PDFProcessorV2.

(** ** workers/pipeline_processor_v2.py *)

Module PipelineBatchProcessor.

(** [self.stats] *)
Record Stats := {
  total : Z;
  processed : Z;
  successful : Z;
  failed : Z;
  stopped : Z;
  ocr_active : Z;
  llm_active : Z;
  in_queue : Z;
  current_file : option string
}.

(** The keyword arguments the stage wrappers pass to [update_stats]. *)
Inductive GaugeKwarg : Type :=
| kw_ocr_active (v : Z)
| kw_llm_active (v : Z)
| kw_in_queue (v : Z)
| kw_current_file (v : string).

Definition update_gauge (s : Stats) (kw : GaugeKwarg) : Stats :=
  match kw with
  | kw_ocr_active v =>
      {| total := total s; processed := processed s;
         successful := successful s; failed := failed s;
         stopped := stopped s; ocr_active := v;
         llm_active := llm_active s; in_queue := in_queue s;
         current_file := current_file s |}
  | kw_llm_active v =>
      {| total := total s; processed := processed s;
         successful := successful s; failed := failed s;
         stopped := stopped s; ocr_active := ocr_active s;
         llm_active := v; in_queue := in_queue s;
         current_file := current_file s |}
  | kw_in_queue v =>
      {| total := total s; processed := processed s;
         successful := successful s; failed := failed s;
         stopped := stopped s; ocr_active := ocr_active s;
         llm_active := llm_active s; in_queue := v;
         current_file := current_file s |}
  | kw_current_file v =>
      {| total := total s; processed := processed s;
         successful := successful s; failed := failed s;
         stopped := stopped s; ocr_active := ocr_active s;
         llm_active := llm_active s; in_queue := in_queue s;
         current_file := Some v |}
  end.

(** [update_stats] with keyword arguments: one dictionary update under
    the lock. *)
Definition update_stats (kwargs : list GaugeKwarg) (s : Stats) : Stats :=
  fold_left update_gauge kwargs s.

(** The actions of a stage wrapper: an unlocked read of a gauge, a locked
    update, or an action of the stage function it wraps. *)
Inductive workerE : Type -> Type :=
| ReadOcrActive : workerE Z
| ReadLlmActive : workerE Z
| ReadInQueue : workerE Z
| UpdateStats (kwargs : list GaugeKwarg) : workerE unit
| Stage (X : Type) (a : procE X) : workerE X.
Arguments Stage {X} a.

Definition stage {R} (p : Prog procE R) : Prog workerE R :=
  translate (@Stage) p.

(** Modelled from the spec: the context manager [get_db_context] of
    app/database.py, which is not among the sources.
    [with get_db_context() as db: body]: entering may raise, leaving
    commits what the session holds (which may raise as well). *)
Definition with_db_context {R} (label : string) (body : Prog procE R)
  : Prog procE R :=
  get_db_context label;;
  r <- body;;
  db_commit (fun d => d);;
  Ret r.

Section Pipeline.
Context {F : Type}.

(** [self.max_ocr_workers], [self.max_llm_workers], and the setting the
    bounded queue is built from. *)
Record Processor := {
  max_ocr_workers : nat;
  max_llm_workers : nat;
  STAGE2_QUEUE_SIZE : nat
}.

Variable self : Processor.
Variable w : World.
(** [stage1_processor.process_stage1_ocr] and
    [stage2_processor.process_stage2_llm] *)
Variable process_stage1_ocr : Path -> Prog procE (Stage1Result F).
Variable process_stage2_llm : Stage1Result F -> Prog procE (ResultDict F).

(** [_stage1_ocr(processor, pdf_path)] *)
Definition _stage1_ocr (pdf_path : Path) : Prog workerE (Stage1Result F) :=
  n <- ask ReadOcrActive;;
  ask (UpdateStats [kw_ocr_active (n + 1);
                    kw_current_file (path_name pdf_path)]);;
  try_finally
    (stage (with_db_context (path_name pdf_path)
              (process_stage1_ocr pdf_path)))
    (n <- ask ReadOcrActive;;
     ask (UpdateStats [kw_ocr_active (n - 1)])).

(** [_stage2_llm(processor, stage1_result)] *)
Definition _stage2_llm (stage1_result : Stage1Result F)
  : Prog workerE (ResultDict F) :=
  a <- ask ReadLlmActive;;
  q <- ask ReadInQueue;;
  ask (UpdateStats [kw_llm_active (a + 1); kw_in_queue (q - 1);
                    kw_current_file (s1_document_id stage1_result)]);;
  try_finally
    (stage (with_db_context (s1_document_id stage1_result)
              (process_stage2_llm stage1_result)))
    (a <- ask ReadLlmActive;;
     ask (UpdateStats [kw_llm_active (a - 1)])).

(** [_update_completion_stats(result, callback)].  Only the thread that
    runs [process_batch] calls it, and no other thread writes these four
    keys. *)
Definition _update_completion_stats (result : ResultDict F) (s : Stats)
  : Stats :=
  let processed' := processed s + 1 in
  let successful' :=
    successful s + (if decide (res_status result = Success) then 1 else 0) in
  let failed' :=
    failed s + (if decide (res_status result = Failed) then 1 else 0) in
  let stopped' :=
    stopped s + (if decide (res_status result = Stopped) then 1 else 0) in
  {| total := total s; processed := processed';
     successful := successful'; failed := failed'; stopped := stopped';
     ocr_active := ocr_active s; llm_active := llm_active s;
     in_queue := in_queue s; current_file := current_file s |}.

(** The dictionaries [process_batch] appends itself. *)
Definition stage1_failed_result (r : Stage1Result F) : ResultDict F :=
  {| res_document_id := s1_document_id r;
     res_status := s1_status r;
     res_error := s1_error r;
     res_registration_fee := Some (s1_registration_fee r);
     res_llm_extracted := false;
     res_saved_to_db := false;
     res_table_detected := None |}.

Definition stage1_exception_result (pdf_path : Path) (e : exn)
  : ResultDict F :=
  {| res_document_id := path_stem pdf_path;
     res_status := Failed;
     res_error := Some ("Stage 1 exception: " +:+ str e);
     res_registration_fee := None;
     res_llm_extracted := false;
     res_saved_to_db := false;
     res_table_detected := None |}.

Definition stage2_exception_result (r : Stage1Result F) (e : exn)
  : ResultDict F :=
  {| res_document_id := s1_document_id r;
     res_status := Failed;
     res_error := Some ("Stage 2 exception: " +:+ str e);
     res_registration_fee := Some (s1_registration_fee r);
     res_llm_extracted := false;
     res_saved_to_db := false;
     res_table_detected := None |}.

(** The dictionary [process_batch] returns. *)
Record Summary := {
  sum_total : Z;
  sum_processed : Z;
  sum_successful : Z;
  sum_failed : Z;
  sum_stopped : Z;
  sum_results : list (ResultDict F)
}.

(** Where the thread running [process_batch] stands. *)
Inductive MainPc : Type :=
(** in [for future in as_completed(stage1_futures)] *)
| Loop1
(** a Success was read, [self.stats["in_queue"]] evaluated to [n]; the
    locked update and [llm_executor.submit] come next *)
| Submit (stage1_result : Stage1Result F) (n : Z)
(** in [for future in as_completed(stage2_futures)] *)
| Loop2
(** leaving the [with] block: both executors are joined *)
| Leaving
| Returned (summary : Summary).

(** One run of [process_batch]. *)
Record State := {
  machine : Machine;
  stats : Stats;
  (** [stage2_queue = Queue(maxsize=settings.STAGE2_QUEUE_SIZE)] *)
  stage2_queue : list (Stage1Result F);
  (** the work queue and the busy threads of [ocr_executor] *)
  ocr_pending : list Path;
  ocr_running : list (Path * Prog workerE (Stage1Result F));
  (** finished stage-1 futures [as_completed] has not yielded yet *)
  stage1_done : list (Path * outcome (Stage1Result F));
  (** the work queue and the busy threads of [llm_executor] *)
  llm_pending : list (Stage1Result F);
  llm_running : list (Stage1Result F * Prog workerE (ResultDict F));
  (** finished stage-2 futures [as_completed] has not yielded yet *)
  stage2_done : list (Stage1Result F * outcome (ResultDict F));
  total_files : nat;
  stage1_completed : nat;
  results : list (ResultDict F);
  pc : MainPc
}.

(** The first lines of [process_batch], up to the end of the submission
    loop: the flag is raised, the statistics are reset, the bounded
    queue is created and every file is handed to [ocr_executor]. *)
Definition start (pdf_files : list Path) (m : Machine) : State :=
  {| machine := set_is_running true m;
     stats := {| total := Z.of_nat (length pdf_files); processed := 0;
                 successful := 0; failed := 0; stopped := 0;
                 ocr_active := 0; llm_active := 0; in_queue := 0;
                 current_file := None |};
     stage2_queue := [];
     ocr_pending := pdf_files;
     ocr_running := [];
     stage1_done := [];
     llm_pending := [];
     llm_running := [];
     stage2_done := [];
     total_files := length pdf_files;
     stage1_completed := 0;
     results := [];
     pc := Loop1 |}.

Definition set_machine (m : Machine) (s : State) : State :=
  {| machine := m; stats := stats s; stage2_queue := stage2_queue s;
     ocr_pending := ocr_pending s; ocr_running := ocr_running s;
     stage1_done := stage1_done s; llm_pending := llm_pending s;
     llm_running := llm_running s; stage2_done := stage2_done s;
     total_files := total_files s;
     stage1_completed := stage1_completed s; results := results s;
     pc := pc s |}.

Definition set_pc (c : MainPc) (s : State) : State :=
  {| machine := machine s; stats := stats s;
     stage2_queue := stage2_queue s;
     ocr_pending := ocr_pending s; ocr_running := ocr_running s;
     stage1_done := stage1_done s; llm_pending := llm_pending s;
     llm_running := llm_running s; stage2_done := stage2_done s;
     total_files := total_files s;
     stage1_completed := stage1_completed s; results := results s;
     pc := c |}.

(** [stop()]: [self.is_running = False] *)
Definition stop (s : State) : State :=
  set_machine (request_stop (machine s)) s.

(** *** The worker threads *)

Definition do_worker_action {X} (a : workerE X) (m : Machine) (st : Stats)
  : Machine * Stats * X :=
  match a in workerE X return Machine * Stats * X with
  | ReadOcrActive => (m, st, ocr_active st)
  | ReadLlmActive => (m, st, llm_active st)
  | ReadInQueue => (m, st, in_queue st)
  | UpdateStats kwargs => (m, update_stats kwargs st, tt)
  | Stage a => let '(m', x) := do_action w a m in (m', st, x)
  end.

(** An idle thread of [ocr_executor] takes the next work item and enters
    [_stage1_ocr]. *)
Definition ocr_start (s : State) : option State :=
  if (length (ocr_running s) <? max_ocr_workers self)%nat then
    match ocr_pending s with
    | pdf_path :: rest =>
        Some {| machine := machine s; stats := stats s;
                stage2_queue := stage2_queue s;
                ocr_pending := rest;
                ocr_running :=
                  (ocr_running s ++ [(pdf_path, _stage1_ocr pdf_path)])%list;
                stage1_done := stage1_done s;
                llm_pending := llm_pending s;
                llm_running := llm_running s;
                stage2_done := stage2_done s;
                total_files := total_files s;
                stage1_completed := stage1_completed s;
                results := results s; pc := pc s |}
    | [] => None
    end
  else None.

(** The [i]-th busy OCR thread performs its next action, or finishes and
    completes its future. *)
Definition ocr_step (i : nat) (s : State) : option State :=
  match ocr_running s !! i with
  | Some (pdf_path, Act a k) =>
      let '(m', st', x) := do_worker_action a (machine s) (stats s) in
      Some {| machine := m'; stats := st';
              stage2_queue := stage2_queue s;
              ocr_pending := ocr_pending s;
              ocr_running := <[i := (pdf_path, k x)]> (ocr_running s);
              stage1_done := stage1_done s;
              llm_pending := llm_pending s;
              llm_running := llm_running s;
              stage2_done := stage2_done s;
              total_files := total_files s;
              stage1_completed := stage1_completed s;
              results := results s; pc := pc s |}
  | Some (pdf_path, done) =>
      let o := match done with
               | Ret r => Return r
               | Throw e => Raise e
               | Act _ _ => Raise (Exception "")
               end in
      Some {| machine := machine s; stats := stats s;
              stage2_queue := stage2_queue s;
              ocr_pending := ocr_pending s;
              ocr_running := delete i (ocr_running s);
              stage1_done := (stage1_done s ++ [(pdf_path, o)])%list;
              llm_pending := llm_pending s;
              llm_running := llm_running s;
              stage2_done := stage2_done s;
              total_files := total_files s;
              stage1_completed := stage1_completed s;
              results := results s; pc := pc s |}
  | None => None
  end.

Definition llm_start (s : State) : option State :=
  if (length (llm_running s) <? max_llm_workers self)%nat then
    match llm_pending s with
    | stage1_result :: rest =>
        Some {| machine := machine s; stats := stats s;
                stage2_queue := stage2_queue s;
                ocr_pending := ocr_pending s;
                ocr_running := ocr_running s;
                stage1_done := stage1_done s;
                llm_pending := rest;
                llm_running :=
                  (llm_running s
                   ++ [(stage1_result, _stage2_llm stage1_result)])%list;
                stage2_done := stage2_done s;
                total_files := total_files s;
                stage1_completed := stage1_completed s;
                results := results s; pc := pc s |}
    | [] => None
    end
  else None.

Definition llm_step (i : nat) (s : State) : option State :=
  match llm_running s !! i with
  | Some (stage1_result, Act a k) =>
      let '(m', st', x) := do_worker_action a (machine s) (stats s) in
      Some {| machine := m'; stats := st';
              stage2_queue := stage2_queue s;
              ocr_pending := ocr_pending s;
              ocr_running := ocr_running s;
              stage1_done := stage1_done s;
              llm_pending := llm_pending s;
              llm_running := <[i := (stage1_result, k x)]> (llm_running s);
              stage2_done := stage2_done s;
              total_files := total_files s;
              stage1_completed := stage1_completed s;
              results := results s; pc := pc s |}
  | Some (stage1_result, done) =>
      let o := match done with
               | Ret r => Return r
               | Throw e => Raise e
               | Act _ _ => Raise (Exception "")
               end in
      Some {| machine := machine s; stats := stats s;
              stage2_queue := stage2_queue s;
              ocr_pending := ocr_pending s;
              ocr_running := ocr_running s;
              stage1_done := stage1_done s;
              llm_pending := llm_pending s;
              llm_running := delete i (llm_running s);
              stage2_done := (stage2_done s ++ [(stage1_result, o)])%list;
              total_files := total_files s;
              stage1_completed := stage1_completed s;
              results := results s; pc := pc s |}
  | None => None
  end.

(** *** The thread running [process_batch] *)

(** [results.append(result)] followed by
    [_update_completion_stats(results[-1], progress_callback)] *)
Definition record_result (result : ResultDict F) (s : State) : State :=
  {| machine := machine s;
     stats := _update_completion_stats result (stats s);
     stage2_queue := stage2_queue s;
     ocr_pending := ocr_pending s; ocr_running := ocr_running s;
     stage1_done := stage1_done s; llm_pending := llm_pending s;
     llm_running := llm_running s; stage2_done := stage2_done s;
     total_files := total_files s;
     stage1_completed := stage1_completed s;
     results := (results s ++ [result])%list;
     pc := pc s |}.

(** The body of the first loop for a future [as_completed] has yielded,
    after the [is_running] guard. *)
Definition stage1_body (pdf_path : Path) (o : outcome (Stage1Result F))
  (s : State) : State :=
  match o with
  | Return stage1_result =>
      let s :=
        {| machine := machine s; stats := stats s;
           stage2_queue := stage2_queue s;
           ocr_pending := ocr_pending s; ocr_running := ocr_running s;
           stage1_done := stage1_done s; llm_pending := llm_pending s;
           llm_running := llm_running s; stage2_done := stage2_done s;
           total_files := total_files s;
           stage1_completed := S (stage1_completed s);
           results := results s; pc := pc s |} in
      if decide (s1_status stage1_result = Success)
      then set_pc (Submit stage1_result (in_queue (stats s))) s
      else record_result (stage1_failed_result stage1_result) s
  | Raise e => record_result (stage1_exception_result pdf_path e) s
  end.

(** [self.update_stats(in_queue=n + 1)] and
    [llm_executor.submit(self._stage2_llm, stage2_processor, stage1_result)] *)
Definition submit_stage2 (stage1_result : Stage1Result F) (n : Z)
  (s : State) : State :=
  {| machine := machine s;
     stats := update_stats [kw_in_queue (n + 1)] (stats s);
     stage2_queue := stage2_queue s;
     ocr_pending := ocr_pending s; ocr_running := ocr_running s;
     stage1_done := stage1_done s;
     llm_pending := (llm_pending s ++ [stage1_result])%list;
     llm_running := llm_running s; stage2_done := stage2_done s;
     total_files := total_files s;
     stage1_completed := stage1_completed s; results := results s;
     pc := Loop1 |}.

(** The body of the second loop, after the guard. *)
Definition stage2_body (stage1_result : Stage1Result F)
  (o : outcome (ResultDict F)) (s : State) : State :=
  match o with
  | Return stage2_result => record_result stage2_result s
  | Raise e => record_result (stage2_exception_result stage1_result e) s
  end.

Definition drop_stage1_done (i : nat) (s : State) : State :=
  {| machine := machine s; stats := stats s;
     stage2_queue := stage2_queue s;
     ocr_pending := ocr_pending s; ocr_running := ocr_running s;
     stage1_done := delete i (stage1_done s);
     llm_pending := llm_pending s;
     llm_running := llm_running s; stage2_done := stage2_done s;
     total_files := total_files s;
     stage1_completed := stage1_completed s; results := results s;
     pc := pc s |}.

Definition drop_stage2_done (i : nat) (s : State) : State :=
  {| machine := machine s; stats := stats s;
     stage2_queue := stage2_queue s;
     ocr_pending := ocr_pending s; ocr_running := ocr_running s;
     stage1_done := stage1_done s;
     llm_pending := llm_pending s;
     llm_running := llm_running s;
     stage2_done := delete i (stage2_done s);
     total_files := total_files s;
     stage1_completed := stage1_completed s; results := results s;
     pc := pc s |}.

Definition summary_of (s : State) : Summary :=
  {| sum_total := Z.of_nat (total_files s);
     sum_processed := processed (stats s);
     sum_successful := successful (stats s);
     sum_failed := failed (stats s);
     sum_stopped := stopped (stats s);
     sum_results := results s |}.

Definition is_nil {A} (l : list A) : bool :=
  match l with [] => true | _ => false end.

(** One step of the thread running [process_batch].  [i] is the finished
    future [as_completed] yields.  [None]: the thread is blocked (no
    finished future to yield, or workers still to be joined).

    [ocr_executor.shutdown(wait=False)] and
    [llm_executor.shutdown(wait=False)] before the [break] leave the
    queued work items in place: the threads of a [ThreadPoolExecutor]
    keep taking them until the queue is empty, and nothing is submitted
    after the [break]. *)
Definition main_step (i : nat) (s : State) : option State :=
  match pc s with
  | Loop1 =>
      match stage1_done s !! i with
      | Some (pdf_path, o) =>
          if negb (is_running (machine s))
          then Some (set_pc Loop2 s)
          else Some (stage1_body pdf_path o (drop_stage1_done i s))
      | None =>
          if is_nil (ocr_pending s) && is_nil (ocr_running s)
             && is_nil (stage1_done s)
          then Some (set_pc Loop2 s)
          else None
      end
  | Submit stage1_result n => Some (submit_stage2 stage1_result n s)
  | Loop2 =>
      match stage2_done s !! i with
      | Some (stage1_result, o) =>
          if negb (is_running (machine s))
          then Some (set_pc Leaving s)
          else Some (stage2_body stage1_result o (drop_stage2_done i s))
      | None =>
          if is_nil (llm_pending s) && is_nil (llm_running s)
             && is_nil (stage2_done s)
          then Some (set_pc Leaving s)
          else None
      end
  | Leaving =>
      if is_nil (ocr_pending s) && is_nil (ocr_running s)
         && is_nil (llm_pending s) && is_nil (llm_running s)
      then
        let s := set_machine (set_is_running false (machine s)) s in
        Some (set_pc (Returned (summary_of s)) s)
      else None
  | Returned _ => None
  end.

(** *** The interleaving *)

Inductive Event : Type :=
(** the API thread calls [stop()] *)
| ev_stop
| ev_ocr_start
| ev_ocr_step (i : nat)
| ev_llm_start
| ev_llm_step (i : nat)
| ev_main (i : nat).

Definition step (s : State) (e : Event) : option State :=
  match e with
  | ev_stop => Some (stop s)
  | ev_ocr_start => ocr_start s
  | ev_ocr_step i => ocr_step i s
  | ev_llm_start => llm_start s
  | ev_llm_step i => llm_step i s
  | ev_main i => main_step i s
  end.

(** A schedule is the order in which the threads move. *)
Fixpoint exec (s : State) (schedule : list Event) : option State :=
  match schedule with
  | [] => Some s
  | e :: rest =>
      match step s e with
      | Some s' => exec s' rest
      | None => None
      end
  end.

(** [process_batch(pdf_files, stage1_processor, stage2_processor)] under
    a schedule. *)
Definition process_batch (pdf_files : list Path) (m : Machine)
  (schedule : list Event) : option State :=
  exec (start pdf_files m) schedule.

End Pipeline.

Arguments MainPc F : clear implicits.
Arguments State F : clear implicits.
Arguments Summary F : clear implicits.

End PipelineBatchProcessor.

(** ** workers/vision_batch_processor.py *)

Module VisionBatchProcessor.

(** [self.stats] *)
Record Stats := {
  total : Z;
  processed : Z;
  successful : Z;
  failed : Z;
  stopped : Z
}.

Section Vision.
Context {F : Type} `{PyFloat F}.

(** The result dictionary of [_process_single_image]. *)
Record Result := {
  res_image : string;
  res_document_id : option string;
  res_registration_fee : option F;
  res_success : bool;
  res_stopped : bool;
  res_error : option string
}.

Definition with_document_id (v : string) (r : Result) : Result :=
  {| res_image := res_image r; res_document_id := Some v;
     res_registration_fee := res_registration_fee r;
     res_success := res_success r; res_stopped := res_stopped r;
     res_error := res_error r |}.

Definition with_registration_fee (v : F) (r : Result) : Result :=
  {| res_image := res_image r; res_document_id := res_document_id r;
     res_registration_fee := Some v;
     res_success := res_success r; res_stopped := res_stopped r;
     res_error := res_error r |}.

Definition with_success (v : bool) (r : Result) : Result :=
  {| res_image := res_image r; res_document_id := res_document_id r;
     res_registration_fee := res_registration_fee r;
     res_success := v; res_stopped := res_stopped r;
     res_error := res_error r |}.

Definition with_stopped (v : bool) (r : Result) : Result :=
  {| res_image := res_image r; res_document_id := res_document_id r;
     res_registration_fee := res_registration_fee r;
     res_success := res_success r; res_stopped := v;
     res_error := res_error r |}.

Definition with_error (v : string) (r : Result) : Result :=
  {| res_image := res_image r; res_document_id := res_document_id r;
     res_registration_fee := res_registration_fee r;
     res_success := res_success r; res_stopped := res_stopped r;
     res_error := Some v |}.

(** [self.vision_service.extract_registration_fee(str(image_path))] *)
Variable extract_registration_fee : Path -> outcome (option F).

(** The document a correction image belongs to:
    [documentid_page_X.png], else [documentid_table.png]. *)
Definition derive_document_id (image_path : Path) : string :=
  let filename_parts := PyStr.split (path_stem image_path) "_page_" in
  if negb (length filename_parts =? 2)%nat
  then PyStr.replace (path_stem image_path) "_table" ""
  else default "" (head filename_parts).

(** [_move_to_failed(image_path, reason)]: the reason goes to the log; a
    failed move is logged and swallowed. *)
Definition _move_to_failed (image_path : Path) (reason : string)
  : Prog procE unit :=
  try_except
    (let failed_path :=
       path_join settings.VISION_FAILED_DIR (path_name image_path) in
     shutil_move image_path failed_path)
    (fun e => Ret tt).

(** A float as the fee columns store it. *)
Definition format_float (x : F) : string :=
  if float_is_integral x then float_str_int x else float_fmt_2f x.

Definition is_property_of (id : string) (p : PropertyDetail) : bool :=
  String.eqb (prop_document_id p) id.

(** The two assignments to the property row found by the query. *)
Definition set_fee (reg_fee : F) (prop : PropertyDetail) : PropertyDetail :=
  {| prop_id := prop_id prop;
     prop_document_id := prop_document_id prop;
     schedule_b_area := schedule_b_area prop;
     schedule_c_property_name := schedule_c_property_name prop;
     schedule_c_property_address := schedule_c_property_address prop;
     schedule_c_property_area := schedule_c_property_area prop;
     paid_in_cash_mode := paid_in_cash_mode prop;
     prop_pincode := prop_pincode prop;
     prop_state := prop_state prop;
     sale_consideration := sale_consideration prop;
     stamp_duty_fee := stamp_duty_fee prop;
     registration_fee := Some (format_float reg_fee);
     new_ocr_reg_fee := new_ocr_reg_fee prop;
     guidance_value :=
       Some (format_float (calculate_guidance_value reg_fee)) |}.

Definition update_fee (id : string) (reg_fee : F) (d : DB) : DB :=
  {| document_details := document_details d;
     property_details :=
       update_first (is_property_of id) (set_fee reg_fee)
         (property_details d);
     buyer_details := buyer_details d;
     seller_details := seller_details d;
     property_seq := property_seq d;
     buyer_seq := buyer_seq d;
     seller_seq := seller_seq d |}.

(** [if not self.is_running: raise ProcessingStoppedException(message)] *)
Definition stop_check (message : string) : Prog procE unit :=
  running <- batch_processor_is_running;;
  if negb running then Throw (ProcessingStoppedException message)
  else Ret tt.

(** [reg_fee and reg_fee > 0] *)
Definition positive_fee (reg_fee : option F) : option F :=
  match reg_fee with
  | Some x => if float_truthy x && float_gt_zero x then Some x else None
  | None => None
  end.

(** The [try:] block of [_process_single_image]; the local is [result].
    The block under [with get_db_context() as db:] hands the session's
    pending change to the commit on leaving (app/database.py is not part
    of the sources at hand). *)
Definition vision_try (image_path : Path) : Body procE Result unit :=
  (lift (stop_check "Vision processing stopped by user");;
   let document_id := derive_document_id image_path in
   modify (with_document_id document_id);;
   reg_fee <- lift (call (extract_registration_fee image_path));;
   match positive_fee reg_fee with
   | Some reg_fee =>
       modify (with_registration_fee reg_fee);;
       lift (stop_check "Vision processing stopped before DB update");;
       lift (get_db_context document_id);;
       prop <- lift (db_query_property document_id);;
       pending <-
         match prop with
         | Some _ =>
             modify (with_success true);;
             lift (try_except (os_remove image_path) (fun e => Ret tt));;
             body_ret (update_fee document_id reg_fee)
         | None =>
             let reason :=
               "Document " +:+ document_id +:+ " not found in database" in
             modify (with_error reason);;
             lift (_move_to_failed image_path reason);;
             body_ret (fun d : DB => d)
         end;;
       lift (db_commit pending)
   | None =>
       let reason := "Invalid or no registration fee extracted" in
       modify (with_error reason);;
       lift (_move_to_failed image_path reason)
   end)%body.

(** The two [except] clauses of [_process_single_image]. *)
Definition vision_except (image_path : Path) (result : Result) (e : exn)
  : Prog procE Result :=
  match e with
  | ProcessingStoppedException message =>
      Ret (with_error message (with_stopped true result))
  | Exception message =>
      _move_to_failed image_path message;;
      Ret (with_error message result)
  end.

(** [VisionBatchProcessor._process_single_image(image_path)] *)
Definition _process_single_image (image_path : Path) : Prog procE Result :=
  let result :=
    {| res_image := path_name image_path; res_document_id := None;
       res_registration_fee := None; res_success := false;
       res_stopped := false; res_error := None |} in
  left <- vision_try image_path result;;
  match snd left with
  | Return _ => Ret (fst left)
  | Raise e => vision_except image_path (fst left) e
  end.

(** The statistics update of [process_batch] for one collected result. *)
Definition count_result (result : Result) (s : Stats) : Stats :=
  {| total := total s;
     processed := processed s + 1;
     successful := successful s + (if res_success result then 1 else 0);
     failed :=
       failed s +
       (if negb (res_success result) && negb (res_stopped result)
        then 1 else 0);
     stopped := stopped s + (if res_stopped result then 1 else 0) |}.

End Vision.

Arguments Result F : clear implicits.

End VisionBatchProcessor.

(** ** services/validation_service.py

    The identifiers the language model extracts are cleaned with regular
    expressions.  The argument is a [str] or [None]; a Python [str] is a
    sequence of characters [C]; which characters [\s], [\d], [[A-Z]] and
    [[0-9]] match, and what [str.upper] does, is given by the parameters
    of the section. *)

Module ValidationService.

Section Chars.
Context {C : Type} `{EqDecision C}.

(** [\s] and [str.isspace] *)
Variable space : C -> bool.
(** [\d] *)
Variable digit : C -> bool.
(** [[A-Z]] and [[0-9]] *)
Variable is_AZ : C -> bool.
Variable is_09 : C -> bool.
Variables hyphen newline : C.
(** [str.upper] *)
Variable upper : list C -> list C.

(** [re.match(r'^body$', s)]: [$] matches at the end of the string, and
    also just before a newline that ends it. *)
Definition at_end (body : list C -> bool) (s : list C) : bool :=
  body s
  || match last s with
     | Some c => bool_decide (c = newline) && body (removelast s)
     | None => false
     end.

(** [\d{n}] *)
Definition digits (n : nat) (s : list C) : bool :=
  (length s =? n)%nat && forallb digit s.

(** [re.sub(r'[\s-]', '', s)] *)
Definition drop_separators (s : list C) : list C :=
  List.filter (fun c => negb (space c || bool_decide (c = hyphen))) s.

(** [re.sub(r'\s', '', s)] *)
Definition drop_spaces (s : list C) : list C :=
  List.filter (fun c => negb (space c)) s.

(** [ValidationService.clean_aadhaar]; [None] and the empty string are
    falsy. *)
Definition clean_aadhaar (aadhaar : option (list C)) : option (list C) :=
  match aadhaar with
  | None | Some [] => None
  | Some aadhaar =>
      let cleaned := drop_separators aadhaar in
      if at_end (digits 12) cleaned then Some cleaned else None
  end.

(** [ValidationService.validate_aadhaar] *)
Definition validate_aadhaar (aadhaar : option (list C)) : bool :=
  match aadhaar with
  | None | Some [] => false
  | Some aadhaar => at_end (digits 12) (drop_separators aadhaar)
  end.

(** [ValidationService.clean_pincode] *)
Definition clean_pincode (pincode : option (list C)) : option (list C) :=
  match pincode with
  | None | Some [] => None
  | Some pincode =>
      let cleaned := drop_spaces pincode in
      if at_end (digits 6) cleaned then Some cleaned else None
  end.

(** [ValidationService.validate_pincode] *)
Definition validate_pincode (pincode : option (list C)) : bool :=
  match pincode with
  | None | Some [] => false
  | Some pincode => at_end (digits 6) (drop_spaces pincode)
  end.

(** [s.lstrip()] and [s.strip()] *)
Fixpoint lstrip (s : list C) : list C :=
  match s with
  | c :: rest => if space c then lstrip rest else s
  | [] => []
  end.

Definition strip (s : list C) : list C :=
  List.rev (lstrip (List.rev (lstrip s))).

(** [[A-Z]{5}[0-9]{4}[A-Z]] *)
Definition pan_shape (s : list C) : bool :=
  (length s =? 10)%nat
  && forallb is_AZ (firstn 5 s)
  && forallb is_09 (firstn 4 (skipn 5 s))
  && forallb is_AZ (skipn 9 s).

(** [ValidationService.clean_pan] *)
Definition clean_pan (pan : option (list C)) : option (list C) :=
  match pan with
  | None | Some [] => None
  | Some pan =>
      let cleaned := strip (upper pan) in
      if at_end pan_shape cleaned then Some cleaned else None
  end.

(** [ValidationService.validate_pan] *)
Definition validate_pan (pan : option (list C)) : bool :=
  match pan with
  | None | Some [] => false
  | Some pan => at_end pan_shape (strip (upper pan))
  end.

End Chars.
End ValidationService.

(** ** Test data *)

Module Demo.

(** Whole-rupee fees as integers. *)
Definition str_Z (z : Z) : string := NilZero.string_of_int (Z.to_int z).

#[global] Instance Z_float : PyFloat Z := {|
  float_truthy x := negb (x =? 0);
  float_gt_zero x := 0 <? x;
  float_is_integral x := true;
  float_str_int x := str_Z x;
  float_fmt_2f x := str_Z x +:+ ".00";
  calculate_guidance_value x := x * 100
|}.

(** An environment in which no system call fails and the table detector
    finds nothing. *)
Definition calm : World :=
  {| mkdir_fault := fun _ => None;
     move_fault := fun _ _ => None;
     remove_fault := fun _ => None;
     save_fault := fun _ => None;
     commit_fault := fun _ => None;
     db_context_fault := fun _ => None;
     yolo_detect := fun _ => Return false |}.

Definition uploaded (name : string) : Path :=
  path_join settings.NEWLY_UPLOADED_DIR name.

Definition machine0 (files : list Path) : Machine :=
  {| is_running := true; fs := list_to_set files; db := empty_db |}.

Definition long_text : string :=
  "SALE DEED. This deed of absolute sale is executed on this day between the vendor and the purchaser of the schedule property.".

Definition no_party : Party :=
  {| name := None; gender := None; aadhaar_number := None;
     pan_card_number := None; address := None; pincode := None;
     state := None; phone_number := None; secondary_phone_number := None;
     email := None |}.

Definition party (n : string) : Party :=
  {| name := Some n; gender := None; aadhaar_number := None;
     pan_card_number := None; address := None; pincode := None;
     state := None; phone_number := None; secondary_phone_number := None;
     email := None |}.

Definition cleaned (office : string) (buyers : list Party)
  (sellers : list (Party * option string)) : PDFProcessorV2.CleanedData Z :=
  {| PDFProcessorV2.cd_document_details :=
       {| PDFProcessorV2.dd_transaction_date := None;
          PDFProcessorV2.dd_registration_office := Some office |};
     PDFProcessorV2.cd_property_details :=
       {| PDFProcessorV2.pd_schedule_b_area := None;
          PDFProcessorV2.pd_schedule_c_property_name := None;
          PDFProcessorV2.pd_schedule_c_property_address := None;
          PDFProcessorV2.pd_schedule_c_property_area := None;
          PDFProcessorV2.pd_paid_in_cash_mode := None;
          PDFProcessorV2.pd_pincode := None;
          PDFProcessorV2.pd_state := None;
          PDFProcessorV2.pd_sale_consideration := None;
          PDFProcessorV2.pd_stamp_duty_fee := None;
          PDFProcessorV2.pd_registration_fee := None;
          PDFProcessorV2.pd_guidance_value := None |};
     PDFProcessorV2.cd_buyer_details := buyers;
     PDFProcessorV2.cd_seller_details := sellers |}.

(** Collaborators that read [text] from every file, find the fee [fee]
    with pdfplumber, and extract one buyer and one seller. *)
Definition services (text : string) (fee : option Z)
  : PDFProcessorV2.Services Z unit :=
  {| PDFProcessorV2.extract := fun _ => Return fee;
     PDFProcessorV2.extract_from_ocr_text := fun _ => Return None;
     PDFProcessorV2.get_full_text := fun _ => Return text;
     PDFProcessorV2.pdf_to_images := fun _ => Return 1%nat;
     PDFProcessorV2.extract_structured_data := fun _ => Return (Some tt);
     PDFProcessorV2.validate_and_clean_data :=
       fun _ => Return (cleaned "Office" [party "B"] [(party "S", None)]);
     PDFProcessorV2.utcnow := 7%nat |}.

Definition processor (text : string) (fee : option Z)
  : PDFProcessorV2.Processor Z unit :=
  {| PDFProcessorV2.batch_processor := true;
     PDFProcessorV2.services := services text fee;
     PDFProcessorV2.ENABLE_OCR_REG_FEE_EXTRACTION :=
       settings.ENABLE_OCR_REG_FEE_EXTRACTION |}.

Definition pipeline (ocr llm : nat) : PipelineBatchProcessor.Processor :=
  {| PipelineBatchProcessor.max_ocr_workers := ocr;
     PipelineBatchProcessor.max_llm_workers := llm;
     PipelineBatchProcessor.STAGE2_QUEUE_SIZE := settings.STAGE2_QUEUE_SIZE |}.

End Demo.

(* ===================================================================== *)
(** * Part II: the properties                                             *)
(* ===================================================================== *)

(** ** Sequential runs: the equations of [run] *)

Section RunEquations.
Variable w : World.

Lemma run_bind {A B} (p : Prog procE A) (f : A -> Prog procE B) stop_at m :
  run w (bind p f) stop_at m =
  match run w p stop_at m with
  | (stop_at', m', Return a) => run w (f a) stop_at' m'
  | (stop_at', m', Raise e) => (stop_at', m', Raise e)
  end.
Proof.
  revert stop_at m.
  induction p as [r|e|X a k IH]; intros stop_at m; simpl; try reflexivity.
  destruct (tick stop_at m) as [stop_at' m0].
  destruct (do_action w a m0) as [m1 x].
  apply IH.
Qed.

Lemma run_try_except {R} (p : Prog procE R) handler stop_at m :
  run w (try_except p handler) stop_at m =
  match run w p stop_at m with
  | (stop_at', m', Return r) => (stop_at', m', Return r)
  | (stop_at', m', Raise e) => run w (handler e) stop_at' m'
  end.
Proof.
  revert stop_at m.
  induction p as [r|e|X a k IH]; intros stop_at m; simpl; try reflexivity.
  destruct (tick stop_at m) as [stop_at' m0].
  destruct (do_action w a m0) as [m1 x].
  apply IH.
Qed.

Lemma run_call {A} (o : outcome A) stop_at m :
  run w (call o) stop_at m = (stop_at, m, o).
Proof. destruct o; reflexivity. Qed.

Lemma run_lift {S R} (p : Prog procE R) (s : S) stop_at m :
  run w (lift p s) stop_at m =
  match run w p stop_at m with
  | (stop_at', m', o) => (stop_at', m', Return (s, o))
  end.
Proof.
  unfold lift. rewrite run_try_except, run_bind.
  destruct (run w p stop_at m) as [[stop_at' m'] [r|e]]; reflexivity.
Qed.

Lemma run_body_bind {S A B} (b : Body procE S A) (f : A -> Body procE S B)
  (s : S) stop_at m :
  run w (body_bind b f s) stop_at m =
  match run w (b s) stop_at m with
  | (stop_at', m', Return (s', Return a)) => run w (f a s') stop_at' m'
  | (stop_at', m', Return (s', Raise e)) =>
      (stop_at', m', Return (s', Raise e))
  | (stop_at', m', Raise e) => (stop_at', m', Raise e)
  end.
Proof.
  unfold body_bind. rewrite run_bind.
  destruct (run w (b s) stop_at m) as [[stop_at' m'] [[s' [a|e]]|e]];
    reflexivity.
Qed.

(** The flag, once cleared, stays cleared; files and rows are not touched
    by the passing of time. *)
Lemma tick_fs stop_at m : fs (snd (tick stop_at m)) = fs m.
Proof. destruct stop_at as [[|n]|]; reflexivity. Qed.

Lemma tick_db stop_at m : db (snd (tick stop_at m)) = db m.
Proof. destruct stop_at as [[|n]|]; reflexivity. Qed.

Lemma tick_stopped stop_at m :
  is_running m = false -> is_running (snd (tick stop_at m)) = false.
Proof. destruct stop_at as [[|n]|]; simpl; auto. Qed.

Lemma tick_none m : tick None m = (None, m).
Proof. reflexivity. Qed.

(** Reading the flag. *)
Lemma run_is_running stop_at m :
  run w batch_processor_is_running stop_at m =
  (fst (tick stop_at m), snd (tick stop_at m),
   Return (is_running (snd (tick stop_at m)))).
Proof.
  unfold batch_processor_is_running, ask. simpl.
  destruct (tick stop_at m); reflexivity.
Qed.

(** Asking whether a file exists. *)
Lemma run_path_exists p stop_at m :
  run w (path_exists p) stop_at m =
  (fst (tick stop_at m), snd (tick stop_at m),
   Return (bool_decide (p ∈ fs (snd (tick stop_at m))))).
Proof.
  unfold path_exists, ask. cbn. destruct (tick stop_at m); reflexivity.
Qed.

End RunEquations.

(** What a run leaves in place. *)
Definition same_files (m m' : Machine) : Prop := fs m' = fs m.
Definition same_rows (m m' : Machine) : Prop := db m' = db m.
Definition untouched (m m' : Machine) : Prop :=
  same_files m m' /\ same_rows m m'.

#[global] Instance untouched_refl : Reflexive untouched.
Proof. intros m; split; reflexivity. Qed.

#[global] Instance untouched_trans : Transitive untouched.
Proof.
  intros a b c [F1 D1] [F2 D2]; split; unfold same_files, same_rows in *;
    congruence.
Qed.

Lemma tick_untouched stop_at m : untouched m (snd (tick stop_at m)).
Proof. split; [apply tick_fs | apply tick_db]. Qed.

(** ** [FileHandler] *)

(** The path [move_file] moves to. *)
Definition dest_of (source : Path) (destination_dir : string)
  (filename : option string) : Path :=
  path_join destination_dir
    match filename with
    | Some f => if String.eqb f "" then path_name source else f
    | None => path_name source
    end.

Lemma run_move_file w source destination_dir filename stop_at m :
  exists stop_at' m' r,
    run w (FileHandler.move_file source destination_dir filename) stop_at m
    = (stop_at', m', Return r)
    /\ db m' = db m
    /\ (is_running m = false -> is_running m' = false)
    /\ match r with
       | Some dest_path =>
           dest_path = dest_of source destination_dir filename
           /\ source ∈ fs m
           /\ mkdir_fault w destination_dir = None
           /\ move_fault w source dest_path = None
           /\ fs m' = {[dest_path]} ∪ fs m ∖ {[source]}
       | None => fs m' = fs m
       end.
Proof.
  unfold FileHandler.move_file, mkdir, shutil_move, perform.
  cbn [bind try_except run].
  destruct (tick stop_at m) as [s0 m0] eqn:T0.
  assert (F0 : fs m0 = fs m)
    by (rewrite <- (tick_fs stop_at m), T0; reflexivity).
  assert (D0 : db m0 = db m)
    by (rewrite <- (tick_db stop_at m), T0; reflexivity).
  assert (R0 : is_running m = false -> is_running m0 = false)
    by (intros Hr; apply (tick_stopped stop_at) in Hr; rewrite T0 in Hr;
        exact Hr).
  cbn [do_action]. destruct (mkdir_fault w destination_dir) as [msg|] eqn:Mk;
    cbn.
  { eauto 10. }
  destruct (tick s0 m0) as [s1 m1] eqn:T1.
  assert (F1 : fs m1 = fs m)
    by (rewrite <- F0, <- (tick_fs s0 m0), T1; reflexivity).
  assert (D1 : db m1 = db m)
    by (rewrite <- D0, <- (tick_db s0 m0), T1; reflexivity).
  assert (R1 : is_running m = false -> is_running m1 = false)
    by (intros Hr; apply R0 in Hr; apply (tick_stopped s0) in Hr;
        rewrite T1 in Hr; exact Hr).
  fold (dest_of source destination_dir filename).
  case_bool_decide as Hin; [|cbn; eauto 10].
  destruct (move_fault w source _) as [msg|] eqn:Mv; cbn; [eauto 10|].
  do 3 eexists. split; [reflexivity|]. cbn.
  rewrite F1 in *. auto 10.
Qed.

(** [move_file] answers and leaves the rows alone, whatever the
    environment does. *)
Lemma move_file_returns w source destination_dir filename stop_at m :
  exists stop_at' m' r,
    run w (FileHandler.move_file source destination_dir filename) stop_at m
    = (stop_at', m', Return r).
Proof.
  destruct (run_move_file w source destination_dir filename stop_at m)
    as (s & m' & r & E & _). eauto.
Qed.

Example extract_document_id_ocred :
  FileHandler.extract_document_id "1234_2021_ocred.pdf" = "1234_2021".
Proof. reflexivity. Qed.

Example extract_document_id_plain :
  FileHandler.extract_document_id "deed.v2.pdf" = "deed.v2".
Proof. reflexivity. Qed.

(** ** Relocation does not decide anything *)

(** The environment with other answers to [mkdir] and [shutil.move]. *)
Definition with_relocation_faults (mk : string -> option string)
  (mv : Path -> Path -> option string) (w : World) : World :=
  {| mkdir_fault := mk; move_fault := mv;
     remove_fault := remove_fault w; save_fault := save_fault w;
     commit_fault := commit_fault w;
     db_context_fault := db_context_fault w;
     yolo_detect := yolo_detect w |}.

(** *** Programs that leave some actions out *)

Definition is_relocation {X} (a : procE X) : bool :=
  match a with
  | Mkdir _ => true
  | ShutilMove _ _ => true
  | _ => false
  end.

Definition touches_files {X} (a : procE X) : bool :=
  match a with
  | ShutilMove _ _ => true
  | OsRemove _ => true
  | ImageSave _ => true
  | YoloDetectAndCrop _ _ => true
  | _ => false
  end.

Definition touches_rows {X} (a : procE X) : bool :=
  match a with
  | DbCommit _ => true
  | _ => false
  end.

(** No action of the program is of the given kind. *)
Fixpoint free_of (kind : forall X, procE X -> bool) {R} (p : Prog procE R)
  : Prop :=
  match p with
  | Ret _ => True
  | Throw _ => True
  | Act a k => kind _ a = false /\ forall x, free_of kind (k x)
  end.

Lemma free_of_bind kind {A B} (p : Prog procE A) (f : A -> Prog procE B) :
  free_of kind p -> (forall a, free_of kind (f a)) ->
  free_of kind (bind p f).
Proof.
  induction p as [r|e|X a k IH]; cbn; intros Hp Hf; auto.
  destruct Hp as [Ha Hk]. split; auto.
Qed.

Lemma free_of_try_except kind {R} (p : Prog procE R) handler :
  free_of kind p -> (forall e, free_of kind (handler e)) ->
  free_of kind (try_except p handler).
Proof.
  induction p as [r|e|X a k IH]; cbn; intros Hp Hh; auto.
  destruct Hp as [Ha Hk]. split; auto.
Qed.

Lemma free_of_call kind {A} (o : outcome A) :
  free_of kind (call (E:=procE) o).
Proof. destruct o; exact I. Qed.

Lemma free_of_is_running (kind : forall X, procE X -> bool) :
  kind _ IsRunning = false -> free_of kind batch_processor_is_running.
Proof. intros Hk. split; [exact Hk|]. intros x. exact I. Qed.

Lemma free_of_path_exists (kind : forall X, procE X -> bool) p :
  kind _ (PathExists p) = false -> free_of kind (path_exists p).
Proof. intros Hk. split; [exact Hk|]. intros x. exact I. Qed.

Create HintDb free_of.
#[export] Hint Resolve free_of_bind free_of_try_except free_of_call
  free_of_is_running free_of_path_exists : free_of.

Section Frames.
Variable w : World.

(** Nothing a program does raises the flag again. *)
Lemma run_stays_stopped {R} (p : Prog procE R) stop_at m :
  is_running m = false -> is_running (snd (fst (run w p stop_at m))) = false.
Proof.
  revert stop_at m.
  induction p as [r|e|X a k IH]; intros stop_at m Hm; cbn; auto.
  pose proof (tick_stopped stop_at m Hm) as H0.
  destruct (tick stop_at m) as [s0 m0]. cbn [snd] in H0.
  assert (H1 : is_running (fst (do_action w a m0)) = false).
  { destruct a; cbn; auto;
      repeat match goal with
             | |- context [match ?x with _ => _ end] => destruct x
             end; cbn; auto. }
  destruct (do_action w a m0) as [m1 x]. apply IH, H1.
Qed.

Lemma run_same_files {R} (p : Prog procE R) stop_at m :
  free_of (@touches_files) p ->
  same_files m (snd (fst (run w p stop_at m))).
Proof.
  revert stop_at m.
  induction p as [r|e|X a k IH]; intros stop_at m Hp; cbn;
    try reflexivity.
  destruct Hp as [Ha Hk].
  pose proof (tick_fs stop_at m) as H0.
  destruct (tick stop_at m) as [s0 m0]. cbn [snd] in H0.
  assert (H1 : fs (fst (do_action w a m0)) = fs m0).
  { destruct a; try discriminate Ha; cbn; auto;
      repeat match goal with
             | |- context [match ?x with _ => _ end] => destruct x
             end; cbn; auto. }
  destruct (do_action w a m0) as [m1 x]. cbn [fst] in H1.
  unfold same_files in *. rewrite (IH x s0 m1 (Hk x)). congruence.
Qed.

Lemma run_same_rows {R} (p : Prog procE R) stop_at m :
  free_of (@touches_rows) p ->
  same_rows m (snd (fst (run w p stop_at m))).
Proof.
  revert stop_at m.
  induction p as [r|e|X a k IH]; intros stop_at m Hp; cbn;
    try reflexivity.
  destruct Hp as [Ha Hk].
  pose proof (tick_db stop_at m) as H0.
  destruct (tick stop_at m) as [s0 m0]. cbn [snd] in H0.
  assert (H1 : db (fst (do_action w a m0)) = db m0).
  { destruct a; try discriminate Ha; cbn; auto;
      repeat match goal with
             | |- context [match ?x with _ => _ end] => destruct x
             end; cbn; auto. }
  destruct (do_action w a m0) as [m1 x]. cbn [fst] in H1.
  unfold same_rows in *. rewrite (IH x s0 m1 (Hk x)). congruence.
Qed.

(** A program without [mkdir] and [shutil.move] runs the same whatever
    these two would answer. *)
Lemma run_relocation_free mk mv {R} (p : Prog procE R) stop_at m :
  free_of (@is_relocation) p ->
  run (with_relocation_faults mk mv w) p stop_at m = run w p stop_at m.
Proof.
  revert stop_at m.
  induction p as [r|e|X a k IH]; intros stop_at m Hp; try reflexivity.
  destruct Hp as [Ha Hk]. cbn [run].
  destruct (tick stop_at m) as [s0 m0].
  assert (E : do_action (with_relocation_faults mk mv w) a m0
              = do_action w a m0)
    by (destruct a; try discriminate Ha; reflexivity).
  rewrite E. destruct (do_action w a m0) as [m1 x]. apply IH, Hk.
Qed.

End Frames.

(** ** Stepping through a stage function *)

Lemma run_modify w {S} (f : S -> S) (s : S) stop_at m :
  run w (modify (E:=procE) f s) stop_at m = (stop_at, m, Return (f s, Return tt)).
Proof. reflexivity. Qed.

Lemma run_body_ret w {S R} (r : R) (s : S) stop_at m :
  run w (body_ret (E:=procE) r s) stop_at m = (stop_at, m, Return (s, Return r)).
Proof. reflexivity. Qed.

Lemma run_body_raise w {S R} (e : exn) (s : S) stop_at m :
  run w (body_raise (E:=procE) (R:=R) e s) stop_at m
  = (stop_at, m, Return (s, Raise e)).
Proof. reflexivity. Qed.

(** Rewrite the run of a compound statement at the head of the goal. *)
Ltac run_head :=
  match goal with
  | |- context [run ?w (bind ?p ?f) ?s ?m] => rewrite (run_bind w p f s m)
  | |- context [run ?w (try_except ?p ?h) ?s ?m] =>
      rewrite (run_try_except w p h s m)
  | |- context [run ?w (body_bind ?b ?f ?l) ?s ?m] =>
      rewrite (run_body_bind w b f l s m)
  | |- context [run ?w (lift ?p ?l) ?s ?m] => rewrite (run_lift w p l s m)
  | |- context [run ?w (modify ?f ?l) ?s ?m] => rewrite (run_modify w f l s m)
  | |- context [run ?w (body_ret ?r ?l) ?s ?m] =>
      rewrite (run_body_ret w r l s m)
  | |- context [run ?w (body_raise ?e ?l) ?s ?m] =>
      rewrite (run_body_raise w e l s m)
  | |- context [run ?w (Ret ?r) ?s ?m] =>
      change (run w (Ret r) s m) with (s, m, Return r)
  | |- context [run ?w (Throw ?e) ?s ?m] =>
      change (run w (Throw e) s m) with (s, m, @Raise _ e)
  end.

(** One step: rewrite the head, then case on a collaborator's answer. *)
Ltac run_call_step :=
  match goal with
  | |- context [run ?w (call ?o) ?s ?m] =>
      rewrite (run_call w o s m); destruct o as [?|?] eqn:?; cbn beta iota
  end.

Module PDFProcessorV2Facts.
Import PDFProcessorV2.

Section Facts.
Context {F : Type} `{PyFloat F} {ExtractedData : Type}.
Variable self : Processor F ExtractedData.
Variable w : World.

(** What a stop check can do: pass, or raise the stop exception having
    seen the flag cleared.  It touches nothing. *)
Inductive stop_check_spec (message : string) (m : Machine)
  : option nat * Machine * outcome unit -> Prop :=
| stop_check_passes stop_at' m' :
    untouched m m' ->
    (batch_processor self = true -> is_running m = true /\ is_running m' = true) ->
    (is_running m = false -> is_running m' = false) ->
    stop_check_spec message m (stop_at', m', Return tt)
| stop_check_raises stop_at' m' :
    untouched m m' ->
    batch_processor self = true ->
    is_running m' = false ->
    stop_check_spec message m
      (stop_at', m', Raise (ProcessingStoppedException message)).

Lemma run_stop_check message stop_at m :
  stop_check_spec message m (run w (stop_check self message) stop_at m).
Proof.
  unfold stop_check. destruct (batch_processor self) eqn:Hbp.
  - rewrite run_bind, run_is_running.
    pose proof (tick_untouched stop_at m) as U.
    pose proof (tick_stopped stop_at m) as St.
    destruct (is_running (snd (tick stop_at m))) eqn:Hr; cbn.
    + apply stop_check_passes; [exact U| |].
      * intros _. split; [|exact Hr].
        destruct (is_running m) eqn:Hm; [reflexivity|].
        exfalso. assert (true = false) by (apply St; reflexivity). congruence.
      * intros Hm. exfalso. assert (true = false) by (apply St; exact Hm).
        congruence.
    + apply stop_check_raises; auto.
  - cbn. apply stop_check_passes; [reflexivity| congruence | auto].
Qed.

Ltac stop_check_step s' m' U R K B :=
  match goal with
  | |- context [run w (stop_check self ?msg) ?s ?m] =>
      destruct (run_stop_check msg s m) as [s' m' U R K | s' m' U B R];
      cbn beta iota
  end.

(** Stage 1 always answers with a result, and touches neither the files
    nor the rows; entered with the flag cleared it stops at its first
    checkpoint. *)
Lemma stage1_spec pdf stop_at m :
  exists stop_at' m' r,
    run w (process_stage1_ocr self pdf) stop_at m = (stop_at', m', Return r)
    /\ untouched m m'
    /\ pdf_path r = pdf
    /\ (is_running m = false -> batch_processor self = true ->
        s1_status r = Stopped /\ s1_error r = Some "Stopped before Stage 1").
Proof.
  unfold process_stage1_ocr. cbv zeta.
  repeat run_head.
  stop_check_step s1 m1 U1 R1 K1 B1.
  2: { do 3 eexists. split; [reflexivity|]. cbn. auto. }
  assert (Early : forall r : Stage1Result F,
    is_running m = false -> batch_processor self = true ->
    s1_status r = Stopped /\ s1_error r = Some "Stopped before Stage 1").
  { intros r Hm Hb. destruct (R1 Hb) as [Hm' _]. congruence. }
  assert (Fin : forall (e : exn) sx mx, untouched m mx ->
    exists sy my (r : Stage1Result F),
      run w (stage1_except pdf
               (FileHandler.extract_document_id (path_name pdf)) e) sx mx
      = (sy, my, Return r)
      /\ untouched m my /\ pdf_path r = pdf
      /\ (is_running m = false -> batch_processor self = true ->
          s1_status r = Stopped
          /\ s1_error r = Some "Stopped before Stage 1")).
  { intros e sx mx U. destruct e; do 3 eexists;
      (split; [reflexivity|]);
      (split; [assumption|split; [reflexivity|exact (Early _)]]). }
  run_head. run_call_step; [|apply Fin; assumption].
  run_head. stop_check_step s2 m2 U2 R2 K2 B2;
    [|apply Fin; etransitivity; eassumption].
  run_head. run_call_step; [|apply Fin; etransitivity; eassumption].
  match goal with |- context [if ?b then _ else _] => destruct b end.
  { apply Fin; etransitivity; eassumption. }
  run_head. stop_check_step s3 m3 U3 R3 K3 B3;
    [|apply Fin; repeat (etransitivity; [eassumption|]); reflexivity].
  assert (U : untouched m m3)
    by (repeat (etransitivity; [eassumption|]); reflexivity).
  run_head.
  destruct (ENABLE_OCR_REG_FEE_EXTRACTION self).
  - run_call_step; [|apply Fin; assumption].
    do 3 eexists. split; [reflexivity|].
    split; [assumption|split; [reflexivity|exact (Early _)]].
  - do 3 eexists. split; [reflexivity|].
    split; [assumption|split; [reflexivity|exact (Early _)]].
Qed.

(** [_save_to_database] commits the session's work in one transaction, or
    leaves the rows as they were and raises. *)
Lemma run_save_to_database id data fee stop_at m :
  exists stop_at' m' o,
    run w (_save_to_database self id data fee) stop_at m = (stop_at', m', o)
    /\ same_files m m'
    /\ (is_running m = false -> is_running m' = false)
    /\ match commit_fault w (db m) with
       | None =>
           o = Return tt
           /\ db m' = save_session (utcnow (services self)) id data fee (db m)
       | Some message => o = Raise (Exception message) /\ db m' = db m
       end.
Proof.
  unfold _save_to_database, db_commit, perform. cbn [try_except run].
  pose proof (tick_untouched stop_at m) as [Uf Ud].
  pose proof (tick_stopped stop_at m) as St.
  destruct (tick stop_at m) as [s0 m0]. cbn [snd] in *.
  unfold same_files, same_rows in *.
  cbn [do_action]. rewrite Ud.
  destruct (commit_fault w (db m)) as [message|]; cbn.
  - do 3 eexists. split; [reflexivity|]. auto.
  - do 3 eexists. split; [reflexivity|]. cbn. auto.
Qed.

Lemma free_of_stop_check (kind : forall X, procE X -> bool) message :
  kind _ IsRunning = false -> free_of kind (stop_check self message).
Proof.
  intros Hk. unfold stop_check. destruct (batch_processor self); [|exact I].
  apply free_of_bind; [apply free_of_is_running, Hk|].
  intros []; exact I.
Qed.

Lemma save_to_database_no_relocation id data fee :
  free_of (@is_relocation) (_save_to_database self id data fee).
Proof.
  unfold _save_to_database, db_commit, perform. cbn.
  split; [reflexivity|]. intros [[]|e]; exact I.
Qed.

Lemma detect_pages_no_relocation id page_nums :
  free_of (@is_relocation) (detect_pages id page_nums).
Proof.
  induction page_nums as [|page_num rest IH]; [exact I|].
  cbn. split; [reflexivity|]. intros [[]|e]; cbn; [|exact I].
  split; [reflexivity|]. intros [cropped|e]; cbn; [|exact I].
  split; [reflexivity|]. intros [|]; cbn.
  - split; [reflexivity|]. intros [[]|e]; cbn; [|exact I].
    destruct cropped; [exact I|exact IH].
  - destruct cropped; [exact I|exact IH].
Qed.

Lemma detect_and_save_table_no_relocation pdf id :
  free_of (@is_relocation) (_detect_and_save_table self pdf id).
Proof.
  unfold _detect_and_save_table.
  apply free_of_try_except; [|intros e; exact I].
  apply free_of_bind; [apply free_of_call|].
  intros images. apply detect_pages_no_relocation.
Qed.

Lemma detect_pages_no_rows id page_nums :
  free_of (@touches_rows) (detect_pages id page_nums).
Proof.
  induction page_nums as [|page_num rest IH]; [exact I|].
  cbn. split; [reflexivity|]. intros [[]|e]; cbn; [|exact I].
  split; [reflexivity|]. intros [cropped|e]; cbn; [|exact I].
  split; [reflexivity|]. intros [|]; cbn.
  - split; [reflexivity|]. intros [[]|e]; cbn; [|exact I].
    destruct cropped; [exact I|exact IH].
  - destruct cropped; [exact I|exact IH].
Qed.

Lemma detect_and_save_table_no_rows pdf id :
  free_of (@touches_rows) (_detect_and_save_table self pdf id).
Proof.
  unfold _detect_and_save_table.
  apply free_of_try_except; [|intros e; exact I].
  apply free_of_bind; [apply free_of_call|].
  intros images. apply detect_pages_no_rows.
Qed.

(** The table detector never raises: any error answers [False]. *)
Lemma run_detect_and_save_table pdf id stop_at m :
  exists stop_at' m' found,
    run w (_detect_and_save_table self pdf id) stop_at m
    = (stop_at', m', Return found).
Proof.
  unfold _detect_and_save_table. rewrite run_try_except.
  match goal with
  | |- context [run w ?p stop_at m] =>
      destruct (run w p stop_at m) as [[s' m'] [found|e]]
  end; cbn; eauto.
Qed.

(** What [process_stage2_llm] guarantees about one call. *)
Definition stage2_post (stage1_result : Stage1Result F) (m : Machine)
  (x : option nat * Machine * outcome (ResultDict F)) : Prop :=
  exists r,
    snd x = Return r
    /\ res_document_id r = s1_document_id stage1_result
    /\ (res_status r = Stopped -> same_files m (snd (fst x)))
    /\ (is_running m = false -> batch_processor self = true ->
        res_status r = Stopped
        /\ res_error r = Some "Stopped before LLM"
        /\ untouched m (snd (fst x))).

Lemma stage2_spec stage1_result stop_at m :
  stage2_post stage1_result m
    (run w (process_stage2_llm self stage1_result) stop_at m).
Proof.
  unfold process_stage2_llm, stage2_try. cbv zeta.
  repeat run_head.
  stop_check_step s1 m1 U1 R1 K1 B1.
  2: { cbn. eexists. split; [reflexivity|]. cbn.
       destruct U1. repeat split; auto. }
  assert (Early : forall P : Prop,
    is_running m = false -> batch_processor self = true -> P).
  { intros P Hm Hb. destruct (R1 Hb) as [Hm' _]. congruence. }
  assert (Exit : forall local e sx mx,
    res_document_id local = s1_document_id stage1_result ->
    same_files m mx ->
    stage2_post stage1_result m
      (run w (stage2_except stage1_result local e) sx mx)).
  { intros local e sx mx Hid Hf. destruct e as [message|message].
    - cbn. eexists. split; [reflexivity|]. cbn. split; [exact Hid|].
      split; [auto|]. apply Early.
    - unfold stage2_except. cbv zeta. repeat run_head.
      rewrite run_path_exists.
      destruct (tick sx mx) as [sy my]. cbn [fst snd].
      destruct (bool_decide _); cbn beta iota.
      + repeat run_head.
        destruct (run_move_file w (pdf_path stage1_result)
                    settings.FAILED_DIR None sy my)
          as (sz & mz & r & E & _). rewrite E. cbn.
        eexists. split; [reflexivity|]. cbn. split; [exact Hid|].
        split; [discriminate|]. apply Early.
      + cbn. eexists. split; [reflexivity|]. cbn. split; [exact Hid|].
        split; [discriminate|]. apply Early. }
  destruct U1 as [F1 _].
  repeat run_head. run_call_step;
    [|cbn [fst snd]; cbn beta iota; apply Exit; [reflexivity|assumption]].
  match goal with
  | |- context [match ?x with Some _ => _ | None => _ end] =>
      destruct x as [extracted_data|]
  end.
  2: { repeat run_head. cbn [fst snd]. cbn beta iota.
       apply Exit; [reflexivity|assumption]. }
  repeat run_head. cbn beta iota. repeat run_head.
  stop_check_step s2 m2 U2 R2 K2 B2;
    [|cbn [fst snd]; cbn beta iota; apply Exit;
      [reflexivity|destruct U2; unfold same_files in *; congruence]].
  destruct U2 as [F2 _].
  repeat run_head. run_call_step;
    [|cbn [fst snd]; cbn beta iota; apply Exit;
      [reflexivity|unfold same_files in *; congruence]].
  repeat run_head.
  stop_check_step s3 m3 U3 R3 K3 B3;
    [|cbn [fst snd]; cbn beta iota; apply Exit;
      [reflexivity|destruct U3; unfold same_files in *; congruence]].
  destruct U3 as [F3 _].
  repeat run_head.
  match goal with
  | |- context [run w (_save_to_database self ?i ?d ?f) ?s ?m] =>
      destruct (run_save_to_database i d f s m)
        as (s4 & m4 & o4 & E4 & F4 & K4 & C4); rewrite E4
  end.
  assert (Hf4 : same_files m m4) by (unfold same_files in *; congruence).
  destruct (commit_fault w (db m3)) as [message|]; destruct C4 as [-> D4];
    cbn [fst snd]; cbn beta iota.
  { repeat run_head. cbn [fst snd]; cbn beta iota.
    apply Exit; [reflexivity|assumption]. }
  repeat run_head. cbn beta iota. repeat run_head.
  stop_check_step s5 m5 U5 R5 K5 B5;
    [|cbn [fst snd]; cbn beta iota; apply Exit;
      [reflexivity|destruct U5; unfold same_files in *; congruence]].
  repeat run_head.
  assert (Hid : forall local : ResultDict F,
    res_document_id (with_status Success local) = res_document_id local)
    by reflexivity.
  destruct (negb (fee_truthy (s1_registration_fee stage1_result))).
  - repeat run_head.
    match goal with
    | |- context [run w (_detect_and_save_table self ?p ?i) ?s ?m] =>
        destruct (run_detect_and_save_table p i s m)
          as (s6 & m6 & found & E6); rewrite E6
    end.
    repeat (repeat run_head; cbn beta iota).
    match goal with
    | |- context [run w (FileHandler.move_file ?a ?b ?c) ?s ?m] =>
        destruct (run_move_file w a b c s m) as (sz & mz & r & E & _);
        rewrite E
    end.
    cbn. eexists. split; [reflexivity|]. cbn. split; [reflexivity|].
    split; [discriminate|]. apply Early.
  - repeat (repeat run_head; cbn beta iota).
    match goal with
    | |- context [run w (FileHandler.move_file ?a ?b ?c) ?s ?m] =>
        destruct (run_move_file w a b c s m) as (sz & mz & r & E & _);
        rewrite E
    end.
    cbn. eexists. split; [reflexivity|]. cbn. split; [reflexivity|].
    split; [discriminate|]. apply Early.
Qed.

(** The result of [process_stage2_llm] does not depend on what [mkdir]
    and [shutil.move] answer. *)
Lemma stage2_relocation_blind mk mv stage1_result stop_at m :
  snd (run (with_relocation_faults mk mv w)
         (process_stage2_llm self stage1_result) stop_at m)
  = snd (run w (process_stage2_llm self stage1_result) stop_at m).
Proof.
  set (w' := with_relocation_faults mk mv w).
  assert (Sync : forall {R} (p : Prog procE R) s0 m0,
    free_of (@is_relocation) p -> run w' p s0 m0 = run w p s0 m0)
    by (intros; apply run_relocation_free; assumption).
  assert (Exit : forall local e sx mx,
    snd (run w' (stage2_except stage1_result local e) sx mx)
    = snd (run w (stage2_except stage1_result local e) sx mx)).
  { intros local e sx mx. destruct e as [message|message]; [reflexivity|].
    unfold stage2_except. cbv zeta. repeat run_head.
    rewrite !run_path_exists. destruct (tick sx mx) as [sy my].
    cbn [fst snd]. destruct (bool_decide _); cbn beta iota.
    - repeat run_head.
      destruct (run_move_file w' (pdf_path stage1_result)
                  settings.FAILED_DIR None sy my)
        as (sz' & mz' & r' & E' & _).
      destruct (run_move_file w (pdf_path stage1_result)
                  settings.FAILED_DIR None sy my)
        as (sz & mz & r & E & _).
      rewrite E, E'. reflexivity.
    - reflexivity. }
  assert (Hsc : forall message,
    free_of (@is_relocation) (stop_check self message))
    by (intros; apply free_of_stop_check; reflexivity).
  unfold process_stage2_llm, stage2_try. cbv zeta.
  repeat run_head.
  rewrite Sync by apply Hsc.
  match goal with
  | |- context [run w (stop_check self ?msg) ?s ?m] =>
      destruct (run w (stop_check self msg) s m) as [[s1 m1] [[]|e]]
  end; cbn [fst snd]; cbn beta iota; [|apply Exit].
  repeat run_head. rewrite !run_call.
  destruct (extract_structured_data _ _) as [[extracted_data|]|e];
    cbn [fst snd]; cbn beta iota;
    [|repeat run_head; cbn [fst snd]; cbn beta iota; apply Exit|apply Exit].
  repeat (repeat run_head; cbn beta iota).
  rewrite Sync by apply Hsc.
  match goal with
  | |- context [run w (stop_check self ?msg) ?s ?m] =>
      destruct (run w (stop_check self msg) s m) as [[s2 m2] [[]|e]]
  end; cbn [fst snd]; cbn beta iota; [|apply Exit].
  repeat run_head. rewrite !run_call.
  destruct (validate_and_clean_data _ _) as [cleaned_data|e];
    cbn [fst snd]; cbn beta iota; [|apply Exit].
  repeat run_head.
  rewrite Sync by apply Hsc.
  match goal with
  | |- context [run w (stop_check self ?msg) ?s ?m] =>
      destruct (run w (stop_check self msg) s m) as [[s3 m3] [[]|e]]
  end; cbn [fst snd]; cbn beta iota; [|apply Exit].
  repeat run_head.
  rewrite Sync by apply save_to_database_no_relocation.
  match goal with
  | |- context [run w (_save_to_database self ?i ?d ?f) ?s ?m] =>
      destruct (run w (_save_to_database self i d f) s m)
        as [[s4 m4] [[]|e]]
  end; cbn [fst snd]; cbn beta iota;
    [|repeat run_head; cbn [fst snd]; cbn beta iota; apply Exit].
  repeat (repeat run_head; cbn beta iota).
  rewrite Sync by apply Hsc.
  match goal with
  | |- context [run w (stop_check self ?msg) ?s ?m] =>
      destruct (run w (stop_check self msg) s m) as [[s5 m5] [[]|e]]
  end; cbn [fst snd]; cbn beta iota; [|apply Exit].
  repeat run_head.
  destruct (negb (fee_truthy (s1_registration_fee stage1_result))).
  - repeat run_head.
    rewrite Sync by apply detect_and_save_table_no_relocation.
    match goal with
    | |- context [run w (_detect_and_save_table self ?p ?i) ?s ?m] =>
        destruct (run_detect_and_save_table p i s m)
          as (s6 & m6 & found & E6); rewrite E6
    end.
    repeat (repeat run_head; cbn beta iota).
    match goal with
    | |- context [run w (FileHandler.move_file ?a ?b ?c) ?s ?m] =>
        destruct (run_move_file w a b c s m) as (sz & mz & r & E & _);
        destruct (run_move_file w' a b c s m) as (sz' & mz' & r' & E' & _);
        rewrite E, E'
    end.
    reflexivity.
  - repeat (repeat run_head; cbn beta iota).
    match goal with
    | |- context [run w (FileHandler.move_file ?a ?b ?c) ?s ?m] =>
        destruct (run_move_file w a b c s m) as (sz & mz & r & E & _);
        destruct (run_move_file w' a b c s m) as (sz' & mz' & r' & E' & _);
        rewrite E, E'
    end.
    reflexivity.
Qed.

End Facts.
End PDFProcessorV2Facts.


(** ** The pipeline: what every interleaving preserves *)

Module PipelineFacts.
Import PipelineBatchProcessor.

Section Facts.
Context {F : Type}.
Variable self : Processor.
Variable w : World.
Variable process_stage1_ocr : Path -> Prog procE (Stage1Result F).
Variable process_stage2_llm : Stage1Result F -> Prog procE (ResultDict F).

#[local] Abbreviation step := (step self w process_stage1_ocr process_stage2_llm).
#[local] Abbreviation exec := (exec self w process_stage1_ocr process_stage2_llm).
#[local] Abbreviation process_batch :=
  (process_batch self w process_stage1_ocr process_stage2_llm).

(** The four completion counters and [total]. *)
Definition counters (st : Stats) : Z * Z * Z * Z * Z :=
  (total st, processed st, successful st, failed st, stopped st).

Lemma update_stats_counters kwargs st :
  counters (update_stats kwargs st) = counters st.
Proof.
  revert st. induction kwargs as [|kw rest IH]; intros st; [reflexivity|].
  cbn. unfold update_stats in IH. rewrite IH. destruct kw; reflexivity.
Qed.

(** No action of a worker writes a completion counter or the flag. *)
Lemma do_action_is_running {X} (a : procE X) m :
  is_running (fst (do_action w a m)) = is_running m.
Proof.
  destruct a; cbn; auto;
    repeat match goal with
           | |- context [match ?x with _ => _ end] => destruct x
           end; reflexivity.
Qed.

Lemma do_worker_action_frame {X} (a : workerE X) m st m' st' x :
  do_worker_action w a m st = (m', st', x) ->
  counters st' = counters st /\ is_running m' = is_running m.
Proof.
  destruct a; cbn; intros E; try (injection E as <- <- <-; auto; fail).
  - injection E as <- <- <-. split; [apply update_stats_counters|auto].
  - pose proof (do_action_is_running a m) as Hr.
    destruct (do_action w a m) as [m1 x1]. injection E as <- <- <-.
    auto.
Qed.

(** Items the run still owes a result: queued, running, finished but not
    yet collected, or in the hands of the collecting thread. *)
Definition in_hand (c : MainPc F) : nat :=
  match c with
  | Submit _ _ => 1
  | _ => 0
  end.

Definition outstanding (s : State F) : nat :=
  length (ocr_pending s) + length (ocr_running s) + length (stage1_done s)
  + length (llm_pending s) + length (llm_running s)
  + length (stage2_done s) + in_hand (pc s).

Definition counters_ok (s : State F) : Prop :=
  successful (stats s) + failed (stats s) + stopped (stats s)
  = processed (stats s)
  /\ processed (stats s) + Z.of_nat (outstanding s) = total (stats s)
  /\ total (stats s) = Z.of_nat (total_files s)
  /\ Z.of_nat (length (results s)) = processed (stats s).

Lemma counters_ok_start pdf_files m : counters_ok (start pdf_files m).
Proof. unfold counters_ok, outstanding. cbn. lia. Qed.

Lemma update_completion_counters (result : ResultDict F) st :
  let st' := _update_completion_stats result st in
  total st' = total st
  /\ processed st' = processed st + 1
  /\ successful st' + failed st' + stopped st'
     = successful st + failed st + stopped st + 1.
Proof.
  unfold _update_completion_stats. cbn.
  repeat case_decide; try congruence; try lia.
  destruct (res_status result); congruence.
Qed.

Ltac count_up :=
  unfold counters_ok, outstanding in *; cbn in *;
  repeat match goal with
         | E : _ = _ :: _ |- _ => rewrite E in *
         | E : pc _ = _ |- _ => rewrite E in *
         | E : ?l !! ?i = Some _ |- _ =>
             let L := fresh "L" in
             assert (L : (i < length l)%nat)
               by (eapply lookup_lt_Some; exact E);
             clear E
         end;
  cbn in *; rewrite ?length_app, ?length_insert; cbn in *;
  rewrite ?length_delete by (apply lookup_lt_is_Some; assumption);
  cbn in *; repeat split; lia.

Lemma step_counters_ok s e s' :
  counters_ok s -> step s e = Some s' -> counters_ok s'.
Proof.
  intros (A & B & C & D) Hstep.
  destruct e as [| |i| |i|i]; cbn in Hstep.
  - injection Hstep as <-. repeat split; assumption.
  - unfold ocr_start in Hstep. repeat case_match; simplify_eq. count_up.
  - unfold ocr_step in Hstep.
    destruct (ocr_running s !! i) as [[pdf prog]|] eqn:Hi; [|discriminate].
    assert (Hlt : (i < length (ocr_running s))%nat)
      by (eapply lookup_lt_Some; exact Hi).
    destruct prog as [r|e|X a k].
    + injection Hstep as <-. unfold counters_ok, outstanding in *. cbn.
      rewrite length_app, length_delete by eauto. cbn.
      repeat split; lia.
    + injection Hstep as <-. unfold counters_ok, outstanding in *. cbn.
      rewrite length_app, length_delete by eauto. cbn.
      repeat split; lia.
    + destruct (do_worker_action w a (machine s) (stats s))
        as [[m' st'] x] eqn:Ha.
      injection Hstep as <-.
      apply do_worker_action_frame in Ha as [Hc _].
      unfold counters in Hc. injection Hc as H1 H2 H3 H4 H5.
      unfold counters_ok, outstanding in *. cbn.
      rewrite length_insert. repeat split; lia.
  - unfold llm_start in Hstep. repeat case_match; simplify_eq. count_up.
  - unfold llm_step in Hstep.
    destruct (llm_running s !! i) as [[r1 prog]|] eqn:Hi; [|discriminate].
    assert (Hlt : (i < length (llm_running s))%nat)
      by (eapply lookup_lt_Some; exact Hi).
    destruct prog as [r|e|X a k].
    + injection Hstep as <-. unfold counters_ok, outstanding in *. cbn.
      rewrite length_app, length_delete by eauto. cbn.
      repeat split; lia.
    + injection Hstep as <-. unfold counters_ok, outstanding in *. cbn.
      rewrite length_app, length_delete by eauto. cbn.
      repeat split; lia.
    + destruct (do_worker_action w a (machine s) (stats s))
        as [[m' st'] x] eqn:Ha.
      injection Hstep as <-.
      apply do_worker_action_frame in Ha as [Hc _].
      unfold counters in Hc. injection Hc as H1 H2 H3 H4 H5.
      unfold counters_ok, outstanding in *. cbn.
      rewrite length_insert. repeat split; lia.
  - unfold main_step, stage1_body, stage2_body, submit_stage2,
      record_result, drop_stage1_done, drop_stage2_done, set_pc,
      set_machine in Hstep.
    repeat case_match; simplify_eq;
      try match goal with
          | |- context [_update_completion_stats ?r ?st] =>
              pose proof (update_completion_counters r st) as (U1 & U2 & U3);
              remember (_update_completion_stats r st) as st' eqn:E;
              clear E
          end;
      count_up.
Qed.

Lemma exec_counters_ok s schedule s' :
  counters_ok s -> exec s schedule = Some s' -> counters_ok s'.
Proof.
  revert s. induction schedule as [|e rest IH]; intros s Hs Hx; cbn in Hx.
  - injection Hx as <-. exact Hs.
  - destruct (step s e) as [s1|] eqn:E; [|discriminate].
    eapply IH; [|exact Hx]. eapply step_counters_ok; eassumption.
Qed.

(** *** Only a Success reaches stage 2 *)

Definition passed (r : Stage1Result F) : Prop := s1_status r = Success.

Definition only_success (s : State F) : Prop :=
  Forall passed (llm_pending s)
  /\ Forall (fun x => passed (fst x)) (llm_running s)
  /\ Forall (fun x => passed (fst x)) (stage2_done s)
  /\ match pc s with
     | Submit r _ => passed r
     | _ => True
     end.

Ltac step_cases H :=
  unfold PipelineBatchProcessor.step, stop, ocr_start, ocr_step, llm_start,
    llm_step, main_step, stage1_body, stage2_body, submit_stage2,
    record_result, drop_stage1_done, drop_stage2_done, set_pc, set_machine
    in H;
  repeat case_match; simplify_eq.

Ltac use_shapes :=
  repeat match goal with
         | E : _ = _ :: _ |- _ => rewrite E in *
         | E : _ = [] |- _ => rewrite E in *
         | E : pc _ = _ |- _ => rewrite E in *
         end.

Lemma step_only_success s e s' :
  only_success s -> step s e = Some s' -> only_success s'.
Proof.
  intros (A & B & C & D) Hstep. unfold only_success.
  step_cases Hstep; cbn in *; use_shapes;
    repeat match goal with
           | H : Forall _ (_ :: _) |- _ => apply Forall_cons in H as [? ?]
           end;
    repeat split;
    repeat first
      [ assumption
      | apply Forall_app; split
      | apply Forall_cons; split
      | apply Forall_nil
      | apply Forall_delete
      | apply Forall_insert ];
    try exact I;
    try match goal with
        | E : ?l !! ?i = Some (?r, _), H : Forall _ ?l |- passed _ =>
            exact (Forall_lookup_1 _ _ _ _ H E)
        end;
    try (simplify_eq; assumption).
Qed.

Lemma only_success_start pdf_files m : only_success (start pdf_files m).
Proof. repeat split; constructor. Qed.

(** *** The bounded queue is never used *)

Lemma step_stage2_queue s e s' :
  step s e = Some s' -> stage2_queue s' = stage2_queue s.
Proof. intros Hstep. step_cases Hstep; reflexivity. Qed.

(** *** A generic induction over schedules *)

Lemma exec_invariant (P : State F -> Prop) :
  (forall s e s', P s -> step s e = Some s' -> P s') ->
  forall schedule s s', P s -> exec s schedule = Some s' -> P s'.
Proof.
  intros Hstep schedule.
  induction schedule as [|e rest IH]; intros s s' Hs Hx; cbn in Hx.
  - injection Hx as <-. exact Hs.
  - destruct (step s e) as [s1|] eqn:E; [|discriminate].
    eapply IH; [|exact Hx]. eapply Hstep; eassumption.
Qed.

(** *** What the returned summary is *)

Definition summary_exact (s : State F) : Prop :=
  match pc s with
  | Returned summary =>
      summary = summary_of s
      /\ ocr_pending s = [] /\ ocr_running s = []
      /\ llm_pending s = [] /\ llm_running s = []
  | _ => True
  end.

Lemma is_nil_true {A} (l : list A) : is_nil l = true -> l = [].
Proof. destruct l; [reflexivity|discriminate]. Qed.

Ltac use_nil :=
  repeat match goal with
         | H : _ && _ = true |- _ => apply andb_prop in H as [? ?]
         | H : is_nil _ = true |- _ => apply is_nil_true in H
         end.

Lemma step_summary_exact s e s' :
  summary_exact s -> step s e = Some s' -> summary_exact s'.
Proof.
  unfold summary_exact. intros Hs Hstep.
  step_cases Hstep; cbn in *; use_nil; destruct_and?; use_shapes;
    cbn in *; simplify_eq; try exact I; try discriminate;
    repeat split; try assumption; try reflexivity.
Qed.

(** *** Runs nobody stops *)

(** Until it returns, an unstopped run sees its flag set; and once a
    collecting loop has run out of futures, nothing is left behind it. *)
Definition steady (s : State F) : Prop :=
  match pc s with
  | Loop1 | Submit _ _ => is_running (machine s) = true
  | Loop2 =>
      is_running (machine s) = true
      /\ ocr_pending s = [] /\ ocr_running s = [] /\ stage1_done s = []
  | Leaving =>
      is_running (machine s) = true
      /\ ocr_pending s = [] /\ ocr_running s = [] /\ stage1_done s = []
      /\ llm_pending s = [] /\ llm_running s = [] /\ stage2_done s = []
  | Returned _ =>
      ocr_pending s = [] /\ ocr_running s = [] /\ stage1_done s = []
      /\ llm_pending s = [] /\ llm_running s = [] /\ stage2_done s = []
  end.

Lemma step_steady s e s' :
  e <> ev_stop -> steady s -> step s e = Some s' -> steady s'.
Proof.
  unfold steady. intros He Hs Hstep.
  destruct e as [| |i| |i|i]; [congruence|..];
    step_cases Hstep; cbn in *;
    repeat match goal with
           | E : do_worker_action _ _ _ _ = _ |- _ =>
               apply do_worker_action_frame in E as [_ E]
           end;
    use_nil; destruct_and?; use_shapes; cbn in *; simplify_eq;
    try discriminate; try congruence;
    try match goal with
        | Hr : is_running ?m = true, Hn : negb (is_running ?m) = true |- _ =>
            rewrite Hr in Hn; discriminate
        end;
    repeat split; try assumption; try reflexivity; try congruence.
Qed.

Lemma steady_start pdf_files m : steady (start pdf_files m).
Proof. reflexivity. Qed.

Definition unstopped (schedule : list Event) : Prop :=
  Forall (fun e => e <> ev_stop) schedule.

Lemma exec_steady schedule s s' :
  unstopped schedule -> steady s -> exec s schedule = Some s' -> steady s'.
Proof.
  revert s. induction schedule as [|e rest IH]; intros s Hn Hs Hx; cbn in Hx.
  - injection Hx as <-. exact Hs.
  - apply Forall_cons in Hn as [He Hn].
    destruct (step s e) as [s1|] eqn:E; [|discriminate].
    eapply IH; [exact Hn| |exact Hx]. eapply step_steady; eassumption.
Qed.

(** Everything the run owes has been collected when an unstopped run
    returns. *)
Lemma steady_returned s summary :
  steady s -> pc s = Returned summary -> outstanding s = 0%nat.
Proof.
  unfold steady, outstanding. intros Hs Hpc. rewrite Hpc in *.
  destruct Hs as (-> & -> & -> & -> & -> & ->). reflexivity.
Qed.

(** *** The collecting loops, one future at a time *)

Lemma main_step_stage1 (s : State F) i pdf_path o :
  pc s = Loop1 -> is_running (machine s) = true ->
  stage1_done s !! i = Some (pdf_path, o) ->
  main_step i s = Some (stage1_body pdf_path o (drop_stage1_done i s)).
Proof.
  intros Hpc Hr Hi. unfold main_step. rewrite Hpc, Hi, Hr. reflexivity.
Qed.

Lemma main_step_stage2 (s : State F) i stage1_result o :
  pc s = Loop2 -> is_running (machine s) = true ->
  stage2_done s !! i = Some (stage1_result, o) ->
  main_step i s = Some (stage2_body stage1_result o (drop_stage2_done i s)).
Proof.
  intros Hpc Hr Hi. unfold main_step. rewrite Hpc, Hi, Hr. reflexivity.
Qed.

(** Once the flag is down the collecting thread records nothing more. *)
Lemma main_step_stopped (s : State F) i s' :
  is_running (machine s) = false -> main_step i s = Some s' ->
  results s' = results s /\ counters (stats s') = counters (stats s).
Proof.
  intros Hr Hstep. unfold main_step in Hstep.
  destruct (pc s) eqn:Hpc; rewrite ?Hr in Hstep; cbn in Hstep;
    repeat case_match; simplify_eq; cbn; auto.
Qed.

(** The queue allocated at the start of [process_batch] stays empty. *)
Lemma stage2_queue_unused pdf_files m schedule s :
  process_batch pdf_files m schedule = Some s -> stage2_queue s = [].
Proof.
  unfold process_batch, PipelineBatchProcessor.process_batch.
  apply (exec_invariant (fun s => stage2_queue s = [])); [|reflexivity].
  intros s0 e s1 E Hstep. rewrite (step_stage2_queue _ _ _ Hstep). exact E.
Qed.

End Facts.
End PipelineFacts.

(** ** What the collecting loops take over a whole run *)

Module CollectingFacts.
Import PipelineBatchProcessor PipelineFacts.

Section Lists.
Context {A : Type}.

Lemma elem_of_delete_or (l : list A) (i : nat) (x y : A) :
  l !! i = Some y -> x ∈ l -> x = y \/ x ∈ delete i l.
Proof.
  intros Hi [j Hj]%list_elem_of_lookup_1.
  destruct (decide (j = i)) as [->|Hne]; [left; congruence|right].
  destruct (decide (j < i)%nat) as [Hlt|Hge].
  - apply (list_elem_of_lookup_2 _ j). rewrite list_lookup_delete_lt by exact Hlt.
    exact Hj.
  - apply (list_elem_of_lookup_2 _ (pred j)).
    rewrite list_lookup_delete_ge by lia.
    replace (S (pred j)) with j by lia. exact Hj.
Qed.

End Lists.

Section Facts.
Context {F : Type}.
Variable self : Processor.
Variable w : World.
Variable process_stage1_ocr : Path -> Prog procE (Stage1Result F).
Variable process_stage2_llm : Stage1Result F -> Prog procE (ResultDict F).

#[local] Abbreviation step :=
  (step self w process_stage1_ocr process_stage2_llm).
#[local] Abbreviation exec :=
  (exec self w process_stage1_ocr process_stage2_llm).
#[local] Abbreviation process_batch :=
  (process_batch self w process_stage1_ocr process_stage2_llm).

Lemma exec_split (s s_end : State F) (before after : list Event) :
  exec s (before ++ after) = Some s_end ->
  exists s1, exec s before = Some s1 /\ exec s1 after = Some s_end.
Proof.
  revert s. induction before as [|e rest IH]; intros s Hx; cbn in *.
  - eauto.
  - destruct (step s e) as [s1|]; [apply IH, Hx|discriminate].
Qed.

(** *** Results are only ever appended *)

Lemma stage1_body_frame pdf_path o (s : State F) :
  stage1_done (stage1_body pdf_path o s) = stage1_done s
  /\ stage2_done (stage1_body pdf_path o s) = stage2_done s
  /\ forall r, r ∈ results s -> r ∈ results (stage1_body pdf_path o s).
Proof.
  unfold stage1_body, record_result, set_pc.
  destruct o as [r1|e]; [destruct (decide (s1_status r1 = Success))|];
    cbn; repeat split; auto; intros r Hr; apply elem_of_app; auto.
Qed.

Lemma stage2_body_frame stage1_result o (s : State F) :
  stage1_done (stage2_body stage1_result o s) = stage1_done s
  /\ stage2_done (stage2_body stage1_result o s) = stage2_done s
  /\ forall r, r ∈ results s -> r ∈ results (stage2_body stage1_result o s).
Proof.
  unfold stage2_body, record_result.
  destruct o as [r2|e]; cbn; repeat split; auto;
    intros r Hr; apply elem_of_app; auto.
Qed.

Lemma step_results_grow s e s' r :
  step s e = Some s' -> r ∈ results s -> r ∈ results s'.
Proof.
  intros Hstep Hr.
  destruct e as [| |i| |i|i]; cbn in Hstep.
  - injection Hstep as <-. exact Hr.
  - unfold ocr_start in Hstep. repeat case_match; simplify_eq. exact Hr.
  - unfold ocr_step in Hstep. repeat case_match; simplify_eq; exact Hr.
  - unfold llm_start in Hstep. repeat case_match; simplify_eq. exact Hr.
  - unfold llm_step in Hstep. repeat case_match; simplify_eq; exact Hr.
  - unfold main_step in Hstep.
    repeat case_match; simplify_eq; try exact Hr.
    + apply stage1_body_frame. exact Hr.
    + apply stage2_body_frame. exact Hr.
Qed.

(** *** What each loop appends for the future it takes *)

(** The result the first loop appends for a finished stage-1 future
    that does not go on to stage 2. *)
Definition stage1_appends (pdf_path : Path) (o : outcome (Stage1Result F))
  (r : ResultDict F) : Prop :=
  match o with
  | Return stage1_result =>
      s1_status stage1_result <> Success
      /\ r = stage1_failed_result stage1_result
  | Raise e => r = stage1_exception_result pdf_path e
  end.

(** The result the second loop appends for a finished stage-2 future. *)
Definition stage2_appends (stage1_result : Stage1Result F)
  (o : outcome (ResultDict F)) (r : ResultDict F) : Prop :=
  match o with
  | Return stage2_result => r = stage2_result
  | Raise e => r = stage2_exception_result stage1_result e
  end.

Lemma stage1_body_appends pdf_path o r (s : State F) :
  stage1_appends pdf_path o r -> r ∈ results (stage1_body pdf_path o s).
Proof.
  unfold stage1_appends, stage1_body, record_result.
  destruct o as [r1|e].
  - intros [Hne ->]. destruct (decide (s1_status r1 = Success));
      [contradiction|]. cbn. apply elem_of_app. right. apply list_elem_of_here.
  - intros ->. cbn. apply elem_of_app. right. apply list_elem_of_here.
Qed.

Lemma stage2_body_appends stage1_result o r (s : State F) :
  stage2_appends stage1_result o r ->
  r ∈ results (stage2_body stage1_result o s).
Proof.
  unfold stage2_appends, stage2_body, record_result.
  destruct o as [r2|e]; intros ->; cbn; apply elem_of_app; right;
    apply list_elem_of_here.
Qed.

(** *** A finished future is taken before an unstopped run returns *)

Definition stage1_owed (pdf_path : Path) (o : outcome (Stage1Result F))
  (r : ResultDict F) (s : State F) : Prop :=
  (pdf_path, o) ∈ stage1_done s \/ r ∈ results s.

Definition stage2_owed (stage1_result : Stage1Result F)
  (o : outcome (ResultDict F)) (r : ResultDict F) (s : State F) : Prop :=
  (stage1_result, o) ∈ stage2_done s \/ r ∈ results s.

Lemma step_stage1_owed pdf_path o r s e s' :
  stage1_appends pdf_path o r ->
  e <> ev_stop -> steady s -> step s e = Some s' ->
  stage1_owed pdf_path o r s -> stage1_owed pdf_path o r s'.
Proof.
  intros Happ He Hs Hstep [Hin|Hr];
    [|right; eapply step_results_grow; eassumption].
  unfold stage1_owed.
  destruct e as [| |i| |i|i]; cbn in Hstep; [congruence|..].
  - unfold ocr_start in Hstep. repeat case_match; simplify_eq. auto.
  - unfold ocr_step in Hstep. repeat case_match; simplify_eq; cbn;
      auto; left; apply elem_of_app; auto.
  - unfold llm_start in Hstep. repeat case_match; simplify_eq. auto.
  - unfold llm_step in Hstep. repeat case_match; simplify_eq; auto.
  - unfold main_step in Hstep. unfold steady in Hs.
    destruct (pc s) eqn:Hpc.
    + destruct (stage1_done s !! i) as [[pdf_path' o']|] eqn:Hi.
      * rewrite Hs in Hstep. cbn in Hstep. injection Hstep as <-.
        destruct (elem_of_delete_or _ _ _ _ Hi Hin) as [E|Hrest].
        -- injection E as <- <-. right. apply stage1_body_appends, Happ.
        -- left.
           rewrite (proj1 (stage1_body_frame pdf_path' o'
                             (drop_stage1_done i s))).
           exact Hrest.
      * destruct (stage1_done s); [|repeat case_match; simplify_eq].
        -- apply elem_of_nil in Hin. contradiction.
        -- rewrite !andb_false_r in *. discriminate.
    + injection Hstep as <-. left. exact Hin.
    + destruct Hs as (_ & _ & _ & E). rewrite E in Hin.
      apply elem_of_nil in Hin. contradiction.
    + destruct Hs as (_ & _ & _ & E & _). rewrite E in Hin.
      apply elem_of_nil in Hin. contradiction.
    + discriminate.
Qed.

Lemma step_stage2_owed stage1_result o r s e s' :
  stage2_appends stage1_result o r ->
  e <> ev_stop -> steady s -> step s e = Some s' ->
  stage2_owed stage1_result o r s -> stage2_owed stage1_result o r s'.
Proof.
  intros Happ He Hs Hstep [Hin|Hr];
    [|right; eapply step_results_grow; eassumption].
  unfold stage2_owed.
  destruct e as [| |i| |i|i]; cbn in Hstep; [congruence|..].
  - unfold ocr_start in Hstep. repeat case_match; simplify_eq. auto.
  - unfold ocr_step in Hstep. repeat case_match; simplify_eq; auto.
  - unfold llm_start in Hstep. repeat case_match; simplify_eq. auto.
  - unfold llm_step in Hstep. repeat case_match; simplify_eq; cbn;
      auto; left; apply elem_of_app; auto.
  - unfold main_step in Hstep. unfold steady in Hs.
    destruct (pc s) eqn:Hpc.
    + repeat case_match; simplify_eq; cbn; auto.
      left. rewrite (proj1 (proj2 (stage1_body_frame _ _ _))). exact Hin.
    + injection Hstep as <-. left. exact Hin.
    + destruct Hs as (Hup & _).
      destruct (stage2_done s !! i) as [[stage1_result' o']|] eqn:Hi.
      * rewrite Hup in Hstep. cbn in Hstep. injection Hstep as <-.
        destruct (elem_of_delete_or _ _ _ _ Hi Hin) as [E|Hrest].
        -- injection E as <- <-. right. apply stage2_body_appends, Happ.
        -- left.
           rewrite (proj1 (proj2 (stage2_body_frame stage1_result' o'
                                    (drop_stage2_done i s)))).
           exact Hrest.
      * destruct (stage2_done s); [|repeat case_match; simplify_eq].
        -- apply elem_of_nil in Hin. contradiction.
        -- rewrite !andb_false_r in *. discriminate.
    + destruct Hs as (_ & _ & _ & _ & _ & _ & E). rewrite E in Hin.
      apply elem_of_nil in Hin. contradiction.
    + discriminate.
Qed.

Lemma exec_owed (owed : State F -> Prop) :
  (forall s e s', e <> ev_stop -> steady s -> step s e = Some s' ->
                  owed s -> owed s') ->
  forall schedule s s',
    unstopped schedule -> steady s -> owed s ->
    exec s schedule = Some s' -> steady s' /\ owed s'.
Proof.
  intros Hstep schedule.
  induction schedule as [|e rest IH]; intros s s' Hn Hs Ho Hx; cbn in Hx.
  - injection Hx as <-. auto.
  - apply Forall_cons in Hn as [He Hn].
    destruct (step s e) as [s1|] eqn:E; [|discriminate].
    apply (IH s1 s' Hn); [|eapply Hstep; eassumption|exact Hx].
    eapply step_steady; eassumption.
Qed.

(** In a run that nobody stops and that has returned, the result of
    every stage-1 future that did not go on to stage 2, and of every
    stage-2 future, is among the results. *)
Lemma stage1_taken pdf_files m before after s s_end summary pdf_path o r :
  unstopped (before ++ after) ->
  process_batch pdf_files m before = Some s ->
  process_batch pdf_files m (before ++ after) = Some s_end ->
  pc s_end = Returned summary ->
  (pdf_path, o) ∈ stage1_done s ->
  stage1_appends pdf_path o r ->
  r ∈ results s_end.
Proof.
  unfold process_batch, PipelineBatchProcessor.process_batch.
  intros [Hb Ha]%Forall_app Hs Hend Hpc Hin Happ.
  apply exec_split in Hend as (s1 & Hs1 & Hend).
  rewrite Hs in Hs1. injection Hs1 as <-.
  pose proof (exec_steady self w process_stage1_ocr process_stage2_llm
                before _ s Hb (steady_start pdf_files m) Hs) as St.
  destruct (exec_owed (stage1_owed pdf_path o r)
              (fun s0 e s1 => step_stage1_owed pdf_path o r s0 e s1 Happ)
              after s s_end Ha St (or_introl Hin) Hend) as [St' [Hd|Hr]];
    [|exact Hr].
  unfold steady in St'. rewrite Hpc in St'.
  destruct St' as (_ & _ & E & _). rewrite E in Hd.
  apply elem_of_nil in Hd. contradiction.
Qed.

Lemma stage2_taken pdf_files m before after s s_end summary
    stage1_result o r :
  unstopped (before ++ after) ->
  process_batch pdf_files m before = Some s ->
  process_batch pdf_files m (before ++ after) = Some s_end ->
  pc s_end = Returned summary ->
  (stage1_result, o) ∈ stage2_done s ->
  stage2_appends stage1_result o r ->
  r ∈ results s_end.
Proof.
  unfold process_batch, PipelineBatchProcessor.process_batch.
  intros [Hb Ha]%Forall_app Hs Hend Hpc Hin Happ.
  apply exec_split in Hend as (s1 & Hs1 & Hend).
  rewrite Hs in Hs1. injection Hs1 as <-.
  pose proof (exec_steady self w process_stage1_ocr process_stage2_llm
                before _ s Hb (steady_start pdf_files m) Hs) as St.
  destruct (exec_owed (stage2_owed stage1_result o r)
              (fun s0 e s1 =>
                 step_stage2_owed stage1_result o r s0 e s1 Happ)
              after s s_end Ha St (or_introl Hin) Hend) as [St' [Hd|Hr]];
    [|exact Hr].
  unfold steady in St'. rewrite Hpc in St'.
  destruct St' as (_ & _ & _ & _ & _ & E). rewrite E in Hd.
  apply elem_of_nil in Hd. contradiction.
Qed.

Lemma step_keeps_total s e s' :
  step s e = Some s' -> total_files s' = total_files s.
Proof.
  intros Hstep.
  unfold PipelineBatchProcessor.step, stop, ocr_start, ocr_step, llm_start,
    llm_step, main_step, stage1_body, stage2_body, submit_stage2,
    record_result, drop_stage1_done, drop_stage2_done, set_pc, set_machine
    in Hstep.
  repeat case_match; simplify_eq; reflexivity.
Qed.

(** What an unstopped run that has returned hands back: the results it
    recorded, one for every input file. *)
Lemma returned_in_full pdf_files m schedule s summary :
  unstopped schedule ->
  process_batch pdf_files m schedule = Some s ->
  pc s = Returned summary ->
  sum_results summary = results s
  /\ length (results s) = length pdf_files
  /\ sum_processed summary = sum_total summary.
Proof.
  unfold process_batch, PipelineBatchProcessor.process_batch.
  intros Hn Hrun Hpc.
  pose proof (exec_steady self w process_stage1_ocr process_stage2_llm
                schedule _ s Hn (steady_start pdf_files m) Hrun) as St.
  pose proof (exec_counters_ok self w process_stage1_ocr process_stage2_llm
                _ schedule s (counters_ok_start pdf_files m) Hrun)
    as (_ & C2 & C3 & C4).
  assert (Se : summary_exact s).
  { apply (exec_invariant self w process_stage1_ocr process_stage2_llm
             summary_exact
             (step_summary_exact self w process_stage1_ocr
                process_stage2_llm)
             schedule (start pdf_files m) s); [exact I|exact Hrun]. }
  assert (Ht : total_files s = length pdf_files).
  { apply (exec_invariant self w process_stage1_ocr process_stage2_llm
             (fun s => total_files s = length pdf_files)
             (fun s0 e s1 E Hstep =>
                eq_trans (step_keeps_total s0 e s1 Hstep) E)
             schedule (start pdf_files m) s); [reflexivity|exact Hrun]. }
  rewrite (steady_returned s summary St Hpc) in C2.
  unfold summary_exact in Se. rewrite Hpc in Se. destruct Se as [-> _].
  cbn. repeat split; lia.
Qed.

(** *** Once the flag is down nothing is recorded *)

Lemma step_after_stop s e s' :
  is_running (machine s) = false -> step s e = Some s' ->
  is_running (machine s') = false /\ results s' = results s.
Proof.
  intros Hdown Hstep.
  destruct e as [| |i| |i|i]; cbn in Hstep.
  - injection Hstep as <-. auto.
  - unfold ocr_start in Hstep. repeat case_match; simplify_eq. auto.
  - unfold ocr_step in Hstep. repeat case_match; simplify_eq; cbn; auto.
    match goal with
    | E : do_worker_action _ _ _ _ = _ |- _ =>
        apply do_worker_action_frame in E as [_ E]
    end. split; congruence.
  - unfold llm_start in Hstep. repeat case_match; simplify_eq. auto.
  - unfold llm_step in Hstep. repeat case_match; simplify_eq; cbn; auto.
    match goal with
    | E : do_worker_action _ _ _ _ = _ |- _ =>
        apply do_worker_action_frame in E as [_ E]
    end. split; congruence.
  - split; [|eapply main_step_stopped; eassumption].
    unfold main_step in Hstep. rewrite ?Hdown in Hstep.
    repeat case_match; simplify_eq; cbn; auto.
Qed.

Lemma exec_after_stop schedule s s' :
  is_running (machine s) = false -> exec s schedule = Some s' ->
  results s' = results s.
Proof.
  revert s. induction schedule as [|e rest IH]; intros s Hdown Hx;
    cbn in Hx.
  - injection Hx as <-. reflexivity.
  - destruct (step s e) as [s1|] eqn:E; [|discriminate].
    destruct (step_after_stop s e s1 Hdown E) as [Hdown1 <-].
    apply IH; assumption.
Qed.

End Facts.
End CollectingFacts.

(** ** Stage calls while the flag is set *)

Module FlagFacts.
Import PipelineBatchProcessor PipelineFacts.

(** What an action can answer while [is_running] is set: a read of the
    flag answers [True]; every other action answers as it likes. *)
Definition flag_set_answer {X} (a : procE X) : X -> Prop :=
  match a in procE X return X -> Prop with
  | IsRunning => fun running => running = true
  | _ => fun _ => True
  end.

Definition worker_answer {X} (a : workerE X) : X -> Prop :=
  match a in workerE X return X -> Prop with
  | Stage a => flag_set_answer a
  | _ => fun _ => True
  end.

(** Every way [p] can end, its actions answering within [answer]: a
    returned value satisfies [ok], a raised exception [oke]. *)
Fixpoint ends_in {E : Type -> Type} (answer : forall X, E X -> X -> Prop)
  {R} (ok : R -> Prop) (oke : exn -> Prop) (p : Prog E R) : Prop :=
  match p with
  | Ret r => ok r
  | Throw e => oke e
  | Act a k => forall x, answer _ a x -> ends_in answer ok oke (k x)
  end.

Section Rules.
Context {E : Type -> Type}.
Variable answer : forall X, E X -> X -> Prop.

Lemma ends_in_impl {R} (ok ok' : R -> Prop) (oke oke' : exn -> Prop)
    (p : Prog E R) :
  (forall r, ok r -> ok' r) -> (forall e, oke e -> oke' e) ->
  ends_in answer ok oke p -> ends_in answer ok' oke' p.
Proof.
  intros Hr He. induction p as [r|e|X a k IH]; cbn; auto.
Qed.

Lemma ends_in_anyhow {R} (p : Prog E R) :
  ends_in answer (fun _ => True) (fun _ => True) p.
Proof. induction p as [r|e|X a k IH]; cbn; auto. Qed.

Lemma ends_in_bind {A B} (mid : A -> Prop) (ok : B -> Prop)
    (oke : exn -> Prop) (p : Prog E A) (f : A -> Prog E B) :
  ends_in answer mid oke p ->
  (forall a, mid a -> ends_in answer ok oke (f a)) ->
  ends_in answer ok oke (bind p f).
Proof.
  intros Hp Hf. induction p as [r|e|X a k IH]; cbn in *; auto.
Qed.

Lemma ends_in_try_except {R} (ok : R -> Prop) (mid oke : exn -> Prop)
    (p : Prog E R) (handler : exn -> Prog E R) :
  ends_in answer ok mid p ->
  (forall e, mid e -> ends_in answer ok oke (handler e)) ->
  ends_in answer ok oke (try_except p handler).
Proof.
  intros Hp Hh. induction p as [r|e|X a k IH]; cbn in *; auto.
Qed.

Lemma ends_in_try_finally {R} (ok : R -> Prop) (p : Prog E R)
    (cleanup : Prog E unit) :
  ends_in answer ok (fun _ => True) p ->
  ends_in answer ok (fun _ => True) (try_finally p cleanup).
Proof.
  intros Hp. induction p as [r|e|X a k IH]; cbn in *; auto.
  - apply (ends_in_bind (fun _ => True)); [apply ends_in_anyhow|auto].
  - apply (ends_in_bind (fun _ => True)); [apply ends_in_anyhow|].
    intros _ _. exact I.
Qed.

Lemma ends_in_call {R} (ok : R -> Prop) (oke : exn -> Prop)
    (o : outcome R) :
  (forall r, o = Return r -> ok r) -> (forall e, o = Raise e -> oke e) ->
  ends_in answer ok oke (call o).
Proof. destruct o; cbn; auto. Qed.

End Rules.

Lemma ends_in_stage {R} (ok : R -> Prop) (oke : exn -> Prop)
    (p : Prog procE R) :
  ends_in (@flag_set_answer) ok oke p ->
  ends_in (@worker_answer) ok oke (stage p).
Proof.
  unfold stage. induction p as [r|e|X a k IH]; cbn; auto.
Qed.

Section Facts.
Context {F : Type}.

(** [p] does not answer Stopped while the flag is set. *)
Definition not_stopped (r : Stage1Result F) : Prop := s1_status r <> Stopped.

Definition heeds_flag (p : Prog procE (Stage1Result F)) : Prop :=
  ends_in (@flag_set_answer) not_stopped (fun _ => True) p.

Variable self : Processor.
Variable w : World.
Variable process_stage1_ocr : Path -> Prog procE (Stage1Result F).
Variable process_stage2_llm : Stage1Result F -> Prog procE (ResultDict F).

#[local] Abbreviation step :=
  (step self w process_stage1_ocr process_stage2_llm).

Hypothesis stage1_heeds : forall pdf_path,
  heeds_flag (process_stage1_ocr pdf_path).

Lemma wrapper_heeds_flag pdf_path :
  ends_in (@worker_answer) not_stopped (fun _ => True)
    (_stage1_ocr process_stage1_ocr pdf_path).
Proof.
  unfold _stage1_ocr.
  apply (ends_in_bind _ (fun _ => True)); [apply ends_in_anyhow|].
  intros n _.
  apply (ends_in_bind _ (fun _ => True)); [apply ends_in_anyhow|].
  intros _ _.
  apply ends_in_try_finally, ends_in_stage.
  unfold with_db_context.
  apply (ends_in_bind _ (fun _ => True)); [apply ends_in_anyhow|].
  intros _ _.
  apply (ends_in_bind _ not_stopped); [apply stage1_heeds|].
  intros r Hr.
  apply (ends_in_bind _ (fun _ => True)); [apply ends_in_anyhow|].
  intros _ _. exact Hr.
Qed.

Lemma do_worker_action_answer {X} (a : workerE X) m st m' st' x :
  do_worker_action w a m st = (m', st', x) ->
  is_running m = true -> worker_answer a x.
Proof.
  intros Ha Hup. destruct a as [| | | |X a]; cbn; try exact I.
  destruct a; cbn; try exact I.
  cbn in Ha. injection Ha as _ _ <-. exact Hup.
Qed.

(** While the flag is set, no OCR thread is on its way to a Stopped
    result and no finished stage-1 future holds one. *)
Definition flag_heeded (s : State F) : Prop :=
  is_running (machine s) = true ->
  Forall (fun x => ends_in (@worker_answer) not_stopped (fun _ => True)
                     (snd x)) (ocr_running s)
  /\ Forall (fun x => match snd x with
                      | Return r => not_stopped r
                      | Raise _ => True
                      end) (stage1_done s).

Lemma flag_heeded_start pdf_files m : flag_heeded (start pdf_files m).
Proof. intros _. split; constructor. Qed.

Lemma step_flag_heeded s e s' :
  flag_heeded s -> step s e = Some s' -> flag_heeded s'.
Proof.
  intros Hs Hstep Hup'.
  assert (Hup : is_running (machine s) = true).
  { destruct (is_running (machine s)) eqn:E; [reflexivity|].
    destruct (CollectingFacts.step_after_stop self w process_stage1_ocr
                process_stage2_llm s e s' E Hstep) as [Hdown _].
    congruence. }
  destruct (Hs Hup) as [A B]. clear Hs.
  destruct e as [| |i| |i|i]; cbn in Hstep.
  - injection Hstep as <-. cbn in Hup'. discriminate.
  - unfold ocr_start in Hstep. repeat case_match; simplify_eq. cbn.
    split; [|exact B]. apply Forall_app. split; [exact A|].
    apply Forall_singleton. cbn. apply wrapper_heeds_flag.
  - unfold ocr_step in Hstep.
    destruct (ocr_running s !! i) as [[pdf_path prog]|] eqn:Hi;
      [|discriminate].
    pose proof (Forall_lookup_1 _ _ _ _ A Hi) as Hprog. cbn in Hprog.
    destruct prog as [r|e|X a k].
    + injection Hstep as <-. cbn. split; [apply Forall_delete, A|].
      apply Forall_app. split; [exact B|]. apply Forall_singleton.
      exact Hprog.
    + injection Hstep as <-. cbn. split; [apply Forall_delete, A|].
      apply Forall_app. split; [exact B|]. apply Forall_singleton.
      exact I.
    + destruct (do_worker_action w a (machine s) (stats s))
        as [[m' st'] x] eqn:Ha.
      injection Hstep as <-. cbn. split; [|exact B].
      apply Forall_insert; [exact A|]. cbn. apply Hprog.
      eapply do_worker_action_answer; eassumption.
  - unfold llm_start in Hstep. repeat case_match; simplify_eq. cbn. auto.
  - unfold llm_step in Hstep. repeat case_match; simplify_eq; cbn; auto.
  - unfold main_step, stage1_body, stage2_body, submit_stage2,
      record_result, drop_stage1_done, drop_stage2_done, set_pc,
      set_machine in Hstep.
    repeat case_match; simplify_eq; cbn in *; try discriminate;
      split; auto using Forall_delete.
Qed.

(** A finished stage-1 future holds a Stopped result only once the
    flag is down. *)
Lemma stopped_result_flag_down pdf_files m schedule s pdf_path r :
  process_batch self w process_stage1_ocr process_stage2_llm pdf_files m
    schedule = Some s ->
  (pdf_path, Return r) ∈ stage1_done s -> s1_status r = Stopped ->
  is_running (machine s) = false.
Proof.
  intros Hrun Hin Hst.
  pose proof (exec_invariant self w process_stage1_ocr process_stage2_llm
                flag_heeded step_flag_heeded schedule
                (start pdf_files m) s (flag_heeded_start pdf_files m) Hrun)
    as Inv.
  destruct (is_running (machine s)) eqn:E; [|reflexivity].
  destruct (Inv E) as [_ B].
  rewrite Forall_forall in B. specialize (B _ Hin). cbn in B.
  contradiction.
Qed.

End Facts.

(** *** [process_stage1_ocr] heeds the flag *)

Section Stage1.
Context {F : Type} `{PyFloat F} {ExtractedData : Type}.
Variable self : PDFProcessorV2.Processor F ExtractedData.

(** Any error but the stop exception. *)
Definition plain (e : exn) : Prop :=
  match e with
  | Exception _ => True
  | ProcessingStoppedException _ => False
  end.

Lemma stop_check_while_running message :
  ends_in (@flag_set_answer) (fun _ => True) plain
    (PDFProcessorV2.stop_check self message).
Proof.
  unfold PDFProcessorV2.stop_check, batch_processor_is_running, ask.
  destruct (PDFProcessorV2.batch_processor self); cbn; [|exact I].
  intros running ->. exact I.
Qed.

(** The collaborators of stage 1 raise ordinary errors only. *)
Definition collaborators_plain : Prop :=
  (forall p e,
      PDFProcessorV2.extract (PDFProcessorV2.services self) p = Raise e ->
      plain e)
  /\ (forall p e,
         PDFProcessorV2.get_full_text (PDFProcessorV2.services self) p
         = Raise e -> plain e)
  /\ (forall t e,
         PDFProcessorV2.extract_from_ocr_text (PDFProcessorV2.services self)
           t = Raise e -> plain e).

Lemma stage1_heeds_flag pdf_path :
  collaborators_plain ->
  heeds_flag (PDFProcessorV2.process_stage1_ocr self pdf_path).
Proof.
  intros (Hx & Ht & Ho).
  unfold heeds_flag, PDFProcessorV2.process_stage1_ocr.
  apply (ends_in_try_except _ _ plain).
  - apply (ends_in_bind _ (fun _ => True));
      [apply stop_check_while_running|]. intros _ _.
    apply (ends_in_bind _ (fun _ => True));
      [apply ends_in_call; [auto|apply Hx]|]. intros fee _.
    apply (ends_in_bind _ (fun _ => True));
      [apply stop_check_while_running|]. intros _ _.
    apply (ends_in_bind _ (fun _ => True));
      [apply ends_in_call; [auto|apply Ht]|]. intros text _.
    destruct (_ || _); [exact I|].
    apply (ends_in_bind _ (fun _ => True));
      [apply stop_check_while_running|]. intros _ _.
    apply (ends_in_bind _ (fun _ => True)).
    + destruct (PDFProcessorV2.ENABLE_OCR_REG_FEE_EXTRACTION self);
        [apply ends_in_call; [auto|apply Ho]|exact I].
    + intros fee' _. cbn. unfold not_stopped. cbn. discriminate.
  - intros [message|message] He; [contradiction|].
    cbn. unfold not_stopped. cbn. discriminate.
Qed.

End Stage1.

End FlagFacts.

(** ** Saving the same document again *)

Module DatabaseFacts.
Import PDFProcessorV2.

Section Rows.
Context {A : Type}.
Variable pred : A -> bool.

Definition count (rows : list A) : nat := length (List.filter pred rows).

Lemma count_app rows rows' :
  count (rows ++ rows') = (count rows + count rows')%nat.
Proof. unfold count. rewrite List.filter_app, length_app. reflexivity. Qed.

Lemma first_none_count rows : first pred rows = None -> count rows = 0%nat.
Proof.
  unfold first, count. induction rows as [|r rest IH]; cbn; [reflexivity|].
  destruct (pred r); [discriminate|exact IH].
Qed.

Lemma first_some_count rows r :
  first pred rows = Some r -> (1 <= count rows)%nat.
Proof.
  unfold first, count. induction rows as [|r' rest IH]; cbn; [discriminate|].
  destruct (pred r'); cbn; [lia|exact IH].
Qed.

Lemma first_app_none rows r :
  first pred rows = None -> pred r = true ->
  first pred (rows ++ [r]) = Some r.
Proof.
  unfold first. induction rows as [|r' rest IH]; cbn; intros Hn Hr.
  - rewrite Hr. reflexivity.
  - destruct (pred r'); [discriminate|auto].
Qed.

Variable f : A -> A.
Hypothesis f_keeps : forall r, pred r = true -> pred (f r) = true.

Lemma count_update_first rows :
  count (update_first pred f rows) = count rows.
Proof.
  unfold count. induction rows as [|r rest IH]; cbn; [reflexivity|].
  destruct (pred r) eqn:E; cbn.
  - rewrite (f_keeps r E). reflexivity.
  - rewrite E. exact IH.
Qed.

Lemma length_update_first rows :
  length (update_first pred f rows) = length rows.
Proof.
  induction rows as [|r rest IH]; cbn; [reflexivity|].
  destruct (pred r); cbn; congruence.
Qed.

Lemma first_update_first rows :
  first pred (update_first pred f rows) = f <$> first pred rows.
Proof.
  unfold first. induction rows as [|r rest IH]; cbn; [reflexivity|].
  destruct (pred r) eqn:E; cbn.
  - rewrite (f_keeps r E). reflexivity.
  - rewrite E. exact IH.
Qed.

Lemma filter_delete_where rows :
  List.filter pred (delete_where pred rows) = [].
Proof.
  unfold delete_where. induction rows as [|r rest IH]; cbn; [reflexivity|].
  destruct (pred r) eqn:E; cbn; [exact IH|]. rewrite E. exact IH.
Qed.

End Rows.

Section Facts.
Context {F : Type} `{PyFloat F} {ExtractedData : Type}.

(** The rows written for [id] all carry [id]. *)
Lemma filter_insert_buyers id key buyers :
  List.filter (is_buyer_of id) (insert_buyers id key buyers)
  = insert_buyers id key buyers.
Proof.
  revert key. induction buyers as [|b rest IH]; intros key; cbn;
    [reflexivity|].
  unfold is_buyer_of at 1. cbn. rewrite String.eqb_refl, IH. reflexivity.
Qed.

Lemma filter_insert_sellers id key sellers :
  List.filter (is_seller_of id) (insert_sellers id key sellers)
  = insert_sellers id key sellers.
Proof.
  revert key. induction sellers as [|b rest IH]; intros key; cbn;
    [reflexivity|].
  unfold is_seller_of at 1. cbn. rewrite String.eqb_refl, IH. reflexivity.
Qed.

Lemma insert_buyers_party id key buyers :
  map buyer_party (insert_buyers id key buyers) = buyers.
Proof.
  revert key. induction buyers as [|b rest IH]; intros key; cbn;
    [reflexivity|]. rewrite IH. reflexivity.
Qed.

Definition seller_data (s : SellerDetail) : Party * option string :=
  (seller_party s, property_share s).

Lemma insert_sellers_data id key sellers :
  map seller_data (insert_sellers id key sellers) = sellers.
Proof.
  revert key. induction sellers as [|[p share] rest IH]; intros key; cbn;
    [reflexivity|]. rewrite IH. reflexivity.
Qed.

(** What [document_id] has in the child tables. *)
Definition buyers_of (id : string) (d : DB) : list BuyerDetail :=
  List.filter (is_buyer_of id) (buyer_details d).
Definition sellers_of (id : string) (d : DB) : list SellerDetail :=
  List.filter (is_seller_of id) (seller_details d).

Lemma save_session_buyers now id data (fee : option F) d :
  buyers_of id (save_session now id data fee d)
  = insert_buyers id (buyer_seq d) (cd_buyer_details data).
Proof.
  unfold buyers_of, save_session.
  destruct (first (is_property_of id) (property_details d)); cbn;
    rewrite List.filter_app, filter_delete_where, filter_insert_buyers;
    reflexivity.
Qed.

Lemma save_session_sellers now id data (fee : option F) d :
  sellers_of id (save_session now id data fee d)
  = insert_sellers id (seller_seq d) (cd_seller_details data).
Proof.
  unfold sellers_of, save_session.
  destruct (first (is_property_of id) (property_details d)); cbn;
    rewrite List.filter_app, filter_delete_where, filter_insert_sellers;
    reflexivity.
Qed.

Lemma save_session_document_details now id data (fee : option F) d :
  document_details (save_session now id data fee d)
  = save_document now id (cd_document_details data) (document_details d).
Proof.
  unfold save_session.
  destruct (first (is_property_of id) (property_details d)); reflexivity.
Qed.

(** One document row for [id] afterwards, unless there were several
    before. *)
Lemma save_document_count now id doc_data docs :
  count (is_document id) (save_document now id doc_data docs)
  = Nat.max 1 (count (is_document id) docs).
Proof.
  unfold save_document.
  destruct (first (is_document id) docs) as [doc|] eqn:E.
  - rewrite count_update_first by (intros r Hr; exact Hr).
    apply first_some_count in E. lia.
  - rewrite count_app, (first_none_count _ _ E). unfold count, is_document. cbn.
    rewrite String.eqb_refl. reflexivity.
Qed.

(** The row [first()] finds after a save: the new fields, and the old
    row's [created_at] when there was one. *)
Lemma save_document_first now id doc_data docs :
  first (is_document id) (save_document now id doc_data docs)
  = Some {| document_id := id;
            transaction_date := dd_transaction_date doc_data;
            registration_office := dd_registration_office doc_data;
            created_at :=
              match first (is_document id) docs with
              | Some doc => created_at doc
              | None => now
              end;
            updated_at := now |}.
Proof.
  unfold save_document.
  destruct (first (is_document id) docs) as [doc|] eqn:E.
  - rewrite first_update_first by (intros r Hr; exact Hr). rewrite E. cbn.
    apply List.find_some in E as [_ E]. unfold is_document in E.
    apply String.eqb_eq in E. rewrite E. reflexivity.
  - apply first_app_none; [exact E|]. unfold is_document. cbn.
    apply String.eqb_refl.
Qed.

Lemma save_document_length now id doc_data docs doc :
  first (is_document id) docs = Some doc ->
  length (save_document now id doc_data docs) = length docs.
Proof.
  intros E. unfold save_document. rewrite E. apply length_update_first.
Qed.

Lemma save_session_property_count now id data (fee : option F) d :
  count (is_property_of id) (property_details (save_session now id data fee d))
  = Nat.max 1 (count (is_property_of id) (property_details d)).
Proof.
  unfold save_session.
  destruct (first (is_property_of id) (property_details d)) as [prop|] eqn:E;
    cbn [property_details].
  - rewrite count_update_first by (intros r Hr; exact Hr).
    apply first_some_count in E. lia.
  - rewrite count_app, (first_none_count _ _ E). unfold count, is_property_of. cbn.
    rewrite String.eqb_refl. reflexivity.
Qed.

Lemma save_session_property_first now id data (fee : option F) d :
  first (is_property_of id)
    (property_details (save_session now id data fee d))
  = Some (fill_property (cd_property_details data) fee
            (match first (is_property_of id) (property_details d) with
             | Some prop => prop
             | None => blank_property (property_seq d) id
             end)).
Proof.
  unfold save_session.
  destruct (first (is_property_of id) (property_details d)) as [prop|] eqn:E;
    cbn.
  - rewrite first_update_first by (intros r Hr; exact Hr). rewrite E.
    reflexivity.
  - apply first_app_none; [exact E|]. unfold is_property_of. cbn.
    apply String.eqb_refl.
Qed.

End Facts.
End DatabaseFacts.
(** ** The vision resolver, one image *)

Module VisionFacts.
Import VisionBatchProcessor.

Section Facts.
Context {F : Type} `{PyFloat F}.
Variable w : World.
Variable extract_registration_fee : Path -> outcome (option F).

#[local] Abbreviation _process_single_image :=
  (_process_single_image extract_registration_fee).

Ltac walk := repeat first [run_head | progress cbn beta iota zeta].

Ltac stroll :=
  repeat first
    [ run_head
    | progress cbn beta iota zeta
    | progress cbn [fst snd vision_except] ].

Ltac pass_check Hrun :=
  unfold stop_check at 1; rewrite run_bind, run_is_running;
  cbn [tick fst snd]; rewrite Hrun; cbn [negb]; walk.

(** A single action while no stop request is on its way. *)
Lemma run_perform_calm {R} (a : procE (outcome R)) m :
  run w (perform a) None m
  = (None, fst (do_action w a m), snd (do_action w a m)).
Proof.
  unfold perform. cbn [run tick]. destruct (do_action w a m) as [m1 o].
  apply run_call.
Qed.

Lemma run_ask_calm {R} (a : procE R) m :
  run w (ask a) None m
  = (None, fst (do_action w a m), Return (snd (do_action w a m))).
Proof.
  unfold ask. cbn [run tick]. destruct (do_action w a m) as [m1 o].
  reflexivity.
Qed.

Ltac act :=
  unfold _move_to_failed;
  unfold get_db_context, db_query_property, db_commit, os_remove,
    shutil_move;
  rewrite ?run_try_except, ?run_perform_calm, ?run_ask_calm;
  cbn [do_action fst snd].

Ltac present Hin :=
  match type of Hin with
  | ?p ∈ fs ?m =>
      let Hb := fresh "Hb" in
      destruct (bool_decide (p ∈ fs m)) eqn:Hb;
      [clear Hb|apply bool_decide_eq_false in Hb; contradiction]
  end.

(** Where [_move_to_failed] puts an image. *)
Definition failed_path (image_path : Path) : Path :=
  path_join settings.VISION_FAILED_DIR (path_name image_path).

(** What [_process_single_image] leaves behind when nobody asks it to
    stop and no system call fails, by the fee read and the row found. *)
Definition routed (image_path : Path) (reg_fee : option F) (m m' : Machine)
  (r : Result F) : Prop :=
  let document_id := derive_document_id image_path in
  res_image r = path_name image_path
  /\ res_document_id r = Some document_id
  /\ res_stopped r = false
  /\ match positive_fee reg_fee,
           first (is_property_of document_id) (property_details (db m)) with
     | Some x, Some _ =>
         res_success r = true /\ res_error r = None
         /\ res_registration_fee r = Some x
         /\ db m' = update_fee document_id x (db m)
         /\ fs m' = fs m ∖ {[image_path]}
     | Some x, None =>
         res_success r = false
         /\ res_error r
            = Some ("Document " +:+ document_id +:+ " not found in database")
         /\ db m' = db m
         /\ fs m' = {[failed_path image_path]} ∪ fs m ∖ {[image_path]}
     | None, _ =>
         res_success r = false
         /\ res_error r = Some "Invalid or no registration fee extracted"
         /\ db m' = db m
         /\ fs m' = {[failed_path image_path]} ∪ fs m ∖ {[image_path]}
     end.

Lemma process_single_image_routes image_path reg_fee m :
  is_running m = true ->
  image_path ∈ fs m ->
  extract_registration_fee image_path = Return reg_fee ->
  db_context_fault w (derive_document_id image_path) = None ->
  commit_fault w (db m) = None ->
  remove_fault w image_path = None ->
  move_fault w image_path (failed_path image_path) = None ->
  exists m' r,
    run w (_process_single_image image_path) None m = (None, m', Return r)
    /\ routed image_path reg_fee m m' r.
Proof.
  intros Hrun Hin Hfee Hctx Hcommit Hremove Hmove.
  unfold _process_single_image, VisionBatchProcessor._process_single_image,
    vision_try, routed, failed_path in *.
  walk. pass_check Hrun.
  rewrite run_call, Hfee. walk.
  destruct (positive_fee reg_fee) as [x|] eqn:Hpos.
  - walk. pass_check Hrun.
    act. rewrite Hctx. cbn [fault]. walk.
    act. walk.
    change (first _ (property_details (db m)))
      with (first (is_property_of (derive_document_id image_path))
              (property_details (db m))).
    destruct (first (is_property_of (derive_document_id image_path))
                (property_details (db m))) as [prop|] eqn:Hprop.
    + walk. act. present Hin. rewrite Hremove.
      cbn [fst snd]. walk. act. cbn [set_fs db]. rewrite Hcommit.
      cbn [fst snd]. walk.
      do 2 eexists. split; [reflexivity|]. cbn. auto 10.
    + walk. act. present Hin.
      rewrite Hmove.
      cbn [fst snd]. walk. act. cbn [set_fs db]. rewrite Hcommit.
      cbn [fst snd]. walk.
      do 2 eexists. split; [reflexivity|]. cbn. auto 10.
  - walk. act. present Hin.
    rewrite Hmove.
    cbn [fst snd]. walk.
    do 2 eexists. split; [reflexivity|]. cbn. auto 10.
Qed.


(** A single action, whenever the stop request lands. *)
Lemma run_perform {R} (a : procE (outcome R)) stop_at m :
  run w (perform a) stop_at m
  = (fst (tick stop_at m),
     fst (do_action w a (snd (tick stop_at m))),
     snd (do_action w a (snd (tick stop_at m)))).
Proof.
  unfold perform. cbn [run]. destruct (tick stop_at m) as [s0 m0].
  cbn [fst snd]. destruct (do_action w a m0) as [m1 o]. apply run_call.
Qed.

Lemma run_ask {R} (a : procE R) stop_at m :
  run w (ask a) stop_at m
  = (fst (tick stop_at m),
     fst (do_action w a (snd (tick stop_at m))),
     Return (snd (do_action w a (snd (tick stop_at m))))).
Proof.
  unfold ask. cbn [run]. destruct (tick stop_at m) as [s0 m0].
  cbn [fst snd]. destruct (do_action w a m0) as [m1 o]. reflexivity.
Qed.

(** The stop check of the vision worker. *)
Lemma run_vision_stop_check message stop_at m :
  let m' := snd (tick stop_at m) in
  run w (stop_check message) stop_at m
  = (fst (tick stop_at m), m',
     if is_running m' then Return tt
     else Raise (ProcessingStoppedException message)).
Proof.
  unfold stop_check. rewrite run_bind, run_is_running. cbn zeta.
  destruct (is_running (snd (tick stop_at m))); reflexivity.
Qed.

(** An outcome other than the stop exception. *)
Definition plain {R} (o : outcome R) : Prop :=
  match o with
  | Raise (ProcessingStoppedException _) => False
  | _ => True
  end.

(** What is left of the [try:] block once the second stop check has
    passed: nothing in it raises the stop exception, and the result is not
    marked stopped. *)
Definition after_checks (image_path : Path) (reg_fee : F)
  : Body procE (Result F) unit :=
  (let document_id := derive_document_id image_path in
   lift (get_db_context document_id);;
   prop <- lift (db_query_property document_id);;
   pending <-
     match prop with
     | Some _ =>
         modify (with_success true);;
         lift (try_except (os_remove image_path) (fun e => Ret tt));;
         body_ret (update_fee document_id reg_fee)
     | None =>
         let reason :=
           "Document " +:+ document_id +:+ " not found in database" in
         modify (with_error reason);;
         lift (_move_to_failed image_path reason);;
         body_ret (fun d : DB => d)
     end;;
   lift (db_commit pending))%body.

Lemma run_after_checks image_path reg_fee local stop_at m :
  exists stop_at' m' local' o,
    run w (after_checks image_path reg_fee local) stop_at m
    = (stop_at', m', Return (local', o))
    /\ plain o /\ res_stopped local' = res_stopped local.
Proof.
  unfold after_checks, _move_to_failed, get_db_context, db_query_property,
    db_commit, os_remove, shutil_move.
  repeat first
    [ progress unfold fault
    | run_head
    | progress cbn beta iota zeta
    | rewrite run_perform
    | rewrite run_ask
    | progress cbn [do_action fst snd fault]
    | match goal with
      | |- context [match ?x with _ => _ end] =>
          lazymatch x with
          | tick _ _ => fail
          | run _ _ _ _ => fail
          | context [match _ with _ => _ end] => fail
          | _ => destruct x eqn:?
          end
      end ];
    do 4 eexists; (split; [reflexivity|]); cbn; auto.
Qed.

Lemma vision_try_after_checks image_path local :
  vision_try extract_registration_fee image_path local
  = (lift (stop_check "Vision processing stopped by user");;
     modify (with_document_id (derive_document_id image_path));;
     reg_fee <- lift (call (extract_registration_fee image_path));;
     match positive_fee reg_fee with
     | Some reg_fee =>
         modify (with_registration_fee reg_fee);;
         lift (stop_check "Vision processing stopped before DB update");;
         after_checks image_path reg_fee
     | None =>
         let reason := "Invalid or no registration fee extracted" in
         modify (with_error reason);;
         lift (_move_to_failed image_path reason)
     end)%body local.
Proof. reflexivity. Qed.

(** [_move_to_failed] never raises. *)
Lemma run_move_to_failed image_path reason stop_at m :
  exists stop_at' m',
    run w (_move_to_failed image_path reason) stop_at m
    = (stop_at', m', Return tt).
Proof.
  unfold _move_to_failed, shutil_move. rewrite run_try_except, run_perform.
  destruct (snd (do_action w _ _)) as [[]|e]; do 2 eexists; reflexivity.
Qed.

Lemma tick_running stop_at m :
  is_running (snd (tick stop_at m)) = true -> is_running m = true.
Proof.
  intros Hr. destruct (is_running m) eqn:E; [reflexivity|].
  rewrite (tick_stopped stop_at m E) in Hr. discriminate.
Qed.

(** Every call of [_process_single_image] returns a result.  With the
    flag down at the call the result is marked stopped; and a result
    marked stopped means that no file and no row was touched. *)
Lemma process_single_image_stopped image_path stop_at m :
  exists stop_at' m' r,
    run w (_process_single_image image_path) stop_at m
    = (stop_at', m', Return r)
    /\ (is_running m = false -> res_stopped r = true)
    /\ (res_stopped r = true -> res_success r = false /\ untouched m m').
Proof.
  unfold _process_single_image, VisionBatchProcessor._process_single_image.
  rewrite vision_try_after_checks.
  stroll. rewrite run_vision_stop_check. cbn zeta.
  pose proof (tick_untouched stop_at m) as U1.
  pose proof (tick_running stop_at m) as R1.
  destruct (tick stop_at m) as [s1 m1]. cbn [fst snd] in *.
  destruct (is_running m1) eqn:Hr1; stroll.
  2:{ do 3 eexists. split; [reflexivity|]. cbn. auto. }
  rewrite run_call.
  destruct (extract_registration_fee image_path) as [reg_fee|e]; stroll.
  2:{ destruct e as [message|message]; stroll.
      - do 3 eexists. split; [reflexivity|]. cbn.
        split; [intros E; rewrite R1 in E by reflexivity; discriminate|auto].
      - destruct (run_move_to_failed image_path message s1 m1)
          as (s2 & m2 & E2). rewrite E2. stroll.
        do 3 eexists. split; [reflexivity|]. cbn.
        split; [intros E; rewrite R1 in E by reflexivity|]; discriminate. }
  destruct (positive_fee reg_fee) as [x|]; stroll.
  2:{ match goal with
      | |- context [run w (_move_to_failed ?i ?r) ?s ?m] =>
          destruct (run_move_to_failed i r s m) as (s2 & m2 & E2); rewrite E2
      end. stroll.
      do 3 eexists. split; [reflexivity|]. cbn.
      split; [intros E; rewrite R1 in E by reflexivity|]; discriminate. }
  rewrite run_vision_stop_check. cbn zeta.
  pose proof (tick_untouched s1 m1) as U2.
  destruct (tick s1 m1) as [s2 m2]. cbn [fst snd] in *.
  assert (U : untouched m m2) by (etransitivity; eassumption).
  destruct (is_running m2) eqn:Hr2; stroll.
  2:{ do 3 eexists. split; [reflexivity|]. cbn. auto. }
  match goal with
  | |- context [run w (after_checks image_path x ?l) ?s ?m] =>
      destruct (run_after_checks image_path x l s m)
        as (s3 & m3 & local & o & E3 & Hplain & Hstopped);
      rewrite E3
  end.
  stroll. cbn [fst snd].
  destruct o as [u|[message|message]]; [| destruct Hplain |]; stroll.
  - do 3 eexists. split; [reflexivity|]. rewrite Hstopped. cbn.
    split; [intros E; rewrite R1 in E by reflexivity|]; discriminate.
  - stroll.
    destruct (run_move_to_failed image_path message s3 m3)
      as (s4 & m4 & E4). rewrite E4. stroll.
    do 3 eexists. split; [reflexivity|]. cbn. rewrite Hstopped. cbn.
    split; [intros E; rewrite R1 in E by reflexivity|]; discriminate.
Qed.

(** The statistics of the vision batch: a stopped result is not a
    failure. *)
Lemma count_result_stopped (r : Result F) st :
  res_stopped r = true ->
  failed (count_result r st) = failed st
  /\ stopped (count_result r st) = stopped st + 1.
Proof. intros E. cbn. rewrite E, andb_false_r. lia. Qed.

Lemma count_result_failed (r : Result F) st :
  res_success r = false -> res_stopped r = false ->
  failed (count_result r st) = failed st + 1
  /\ successful (count_result r st) = successful st.
Proof. intros E1 E2. cbn. rewrite E1, E2. cbn. lia. Qed.

Lemma count_result_success (r : Result F) st :
  res_success r = true ->
  successful (count_result r st) = successful st + 1
  /\ failed (count_result r st) = failed st.
Proof. intros E. cbn. rewrite E. cbn. lia. Qed.

End Facts.
End VisionFacts.

(* ===================================================================== *)
(** * Part III: the specification, claim by claim                         *)
(* ===================================================================== *)

(** ** Concrete runs *)

Module Scenarios.
Import PipelineBatchProcessor Demo.

(** The summary, once [process_batch] has returned. *)
Definition returned {F} (s : State F) : option (Summary F) :=
  match pc s with
  | Returned summary => Some summary
  | _ => None
  end.

(** A batch through the two stages of one [PDFProcessorV2], five OCR
    threads and [llm] LLM threads, nothing failing. *)
Definition batch (proc : PDFProcessorV2.Processor Z unit) (llm : nat)
  (files : list Path) (schedule : list Event) : option (State Z) :=
  process_batch (pipeline 5 llm) calm
    (PDFProcessorV2.process_stage1_ocr proc)
    (PDFProcessorV2.process_stage2_llm proc)
    files (machine0 files) schedule.

(** A readable deed with its fee, and a scan OCR reads nothing from. *)
Definition readable : PDFProcessorV2.Processor Z unit :=
  processor long_text (Some 5000).
Definition blank_scan : PDFProcessorV2.Processor Z unit :=
  processor "" None.

Definition deed : Path := uploaded "D1.pdf".
Definition four_deeds : list Path :=
  [uploaded "D1.pdf"; uploaded "D2.pdf"; uploaded "D3.pdf";
   uploaded "D4.pdf"].

(** Four deeds pass OCR while the only LLM thread is busy with the
    first. *)
Definition slow_llm : list Event :=
  (replicate 4 ev_ocr_start ++ replicate 40 (ev_ocr_step 0)
   ++ [ev_main 0; ev_main 0; ev_llm_start]
   ++ concat (replicate 3 [ev_main 0; ev_main 0]))%list.

(** One deed through stage 1, to the point where its result has been
    collected and handed to the LLM pool. *)
Definition through_stage1 : list Event :=
  (ev_ocr_start :: replicate 10 (ev_ocr_step 0)
   ++ [ev_main 0; ev_main 0])%list.

(** [stop()] arrives before stage 2 begins; the pool then runs the item
    and the collecting thread leaves. *)
Definition stop_before_stage2 : list Event :=
  (through_stage1 ++ [ev_stop; ev_llm_start]
   ++ replicate 9 (ev_llm_step 0)
   ++ [ev_main 0; ev_main 0; ev_main 0])%list.

(** The same deed with nobody stopping the run. *)
Definition undisturbed : list Event :=
  (through_stage1 ++ [ev_llm_start] ++ replicate 15 (ev_llm_step 0)
   ++ replicate 4 (ev_main 0))%list.

(** The blank scan: OCR, then the collecting thread to the end. *)
Definition blank_run : list Event :=
  (ev_ocr_start :: replicate 9 (ev_ocr_step 0)
   ++ replicate 4 (ev_main 0))%list.

(** What the pools hold: the flag, the items waiting for an LLM thread,
    the items an LLM thread works on, the finished futures nobody has
    collected, and the bounded queue. *)
Definition pools {F} (s : State F) : bool * nat * nat * nat * nat :=
  (is_running (machine s), length (llm_pending s), length (llm_running s),
   length (stage2_done s), length (stage2_queue s)).

(** No pending, in-flight or queued item is left. *)
Definition drained {F} (s : State F) : bool :=
  is_nil (ocr_pending s) && is_nil (ocr_running s)
  && is_nil (llm_pending s) && is_nil (llm_running s)
  && is_nil (stage2_queue s).

(** [successful + failed + stopped], and [total]. *)
Definition tally {F} (s : State F) : Z * Z :=
  (successful (stats s) + failed (stats s) + stopped (stats s),
   total (stats s)).

#[global] Instance Event_eq_dec : EqDecision Event.
Proof. solve_decision. Defined.

Definition files_of {F} (s : State F) : list Path :=
  elements (fs (machine s)).

(** A stage-1 function that raises for every file, and one that raises
    for [D1.pdf] only. *)
Definition disk_full : Path -> Prog procE (Stage1Result Z) :=
  fun _ => Throw (Exception "disk full").

Definition one_unreadable (pdf_path : Path) : Prog procE (Stage1Result Z) :=
  if String.eqb (path_name pdf_path) "D1.pdf"
  then Throw (Exception "disk full")
  else PDFProcessorV2.process_stage1_ocr readable pdf_path.

Definition two_deeds : list Path := [uploaded "D1.pdf"; uploaded "D2.pdf"].

(** The stage-1 call raises; [stop()] arrives before the collecting
    thread takes the future; the thread then runs to its return. *)
Definition stop_before_collection : list Event :=
  (ev_ocr_start :: replicate 6 (ev_ocr_step 0) ++ [ev_stop]
   ++ replicate 3 (ev_main 0))%list.

(** Two deeds: both stage-1 calls run to their end ... *)
Definition both_through_ocr : list Event :=
  ([ev_ocr_start; ev_ocr_start] ++ replicate 16 (ev_ocr_step 0))%list.

(** ... and the run goes on to its return, nobody stopping it. *)
Definition to_the_end : list Event :=
  (replicate 4 (ev_main 0) ++ [ev_llm_start] ++ replicate 15 (ev_llm_step 0)
   ++ replicate 3 (ev_main 0))%list.

(** [stop()] arrives while stage 1 is between its first two stop checks;
    the call then ends. *)
Definition stop_during_ocr : list Event :=
  (ev_ocr_start :: replicate 4 (ev_ocr_step 0) ++ [ev_stop]
   ++ replicate 5 (ev_ocr_step 0))%list.

(** The blank scan is through stage 1 when [stop()] arrives. *)
Definition stop_after_blank_ocr : list Event :=
  (ev_ocr_start :: replicate 9 (ev_ocr_step 0) ++ [ev_stop])%list.

(** The collecting thread from a standstill to its return. *)
Definition wind_down : list Event := replicate 3 (ev_main 0).

(** The finished stage-1 futures nobody has collected, by what they
    hold. *)
Definition uncollected {F} (s : State F)
  : list (Path * (Status * option string + exn)) :=
  map (fun x => (fst x,
                 match snd x with
                 | Return r => inl (s1_status r, s1_error r)
                 | Raise e => inr e
                 end)) (stage1_done s).

(** Property details with a state, a fee and a guidance value. *)
Definition plot (state : string) (fee : Z) (guidance : string)
  : PDFProcessorV2.PropertyData Z :=
  {| PDFProcessorV2.pd_schedule_b_area := None;
     PDFProcessorV2.pd_schedule_c_property_name := None;
     PDFProcessorV2.pd_schedule_c_property_address := None;
     PDFProcessorV2.pd_schedule_c_property_area := None;
     PDFProcessorV2.pd_paid_in_cash_mode := None;
     PDFProcessorV2.pd_pincode := None;
     PDFProcessorV2.pd_state := Some state;
     PDFProcessorV2.pd_sale_consideration := None;
     PDFProcessorV2.pd_stamp_duty_fee := None;
     PDFProcessorV2.pd_registration_fee := Some (NumFloat fee);
     PDFProcessorV2.pd_guidance_value := Some (NumOther guidance) |}.

Definition cleaned_plot (office : string)
  (prop_data : PDFProcessorV2.PropertyData Z) (buyers : list Party)
  (sellers : list (Party * option string)) : PDFProcessorV2.CleanedData Z :=
  {| PDFProcessorV2.cd_document_details :=
       {| PDFProcessorV2.dd_transaction_date := None;
          PDFProcessorV2.dd_registration_office := Some office |};
     PDFProcessorV2.cd_property_details := prop_data;
     PDFProcessorV2.cd_buyer_details := buyers;
     PDFProcessorV2.cd_seller_details := sellers |}.

End Scenarios.

Import PipelineBatchProcessor.
Import Scenarios.

(** C1. The claim: a Success of stage 1 is handed to stage 2 by a
    blocking put into a channel of capacity STAGE2_QUEUE_SIZE (2), so that
    never more than that many finished stage-1 items wait between the
    stages.  The code allocates that queue and never uses it: with
    capacity 2 and one LLM thread busy, three items wait for stage 2 and
    the queue is empty. *)
Theorem C1_handoff_is_not_bounded :
  STAGE2_QUEUE_SIZE (Demo.pipeline 5 1) = 2%nat
  /\ option_map pools (batch readable 1 four_deeds slow_llm)
     = Some (true, 3%nat, 1%nat, 0%nat, 0%nat).
Proof. split; vm_compute; reflexivity. Qed.

(** C2. The claim: a Failed stage result moves the source file to the
    failure location, also when OCR reads no text.  The code: the deed
    whose OCR text is empty ends Failed and is counted as failed, and its
    file is still where it was uploaded. *)
Theorem C2_failed_ocr_stays_in_upload_directory :
  option_map (fun s => (returned s, files_of s))
    (batch blank_scan 5 [deed] blank_run)
  = Some
      (Some {| sum_total := 1; sum_processed := 1; sum_successful := 0;
               sum_failed := 1; sum_stopped := 0;
               sum_results :=
                 [ {| res_document_id := "D1";
                      res_status := Failed;
                      res_error := Some "OCR returned insufficient text";
                      res_registration_fee := Some None;
                      res_llm_extracted := false;
                      res_saved_to_db := false;
                      res_table_detected := None |} ] |},
       [("data/newly_uploaded", "D1.pdf")]).
Proof. vm_compute. reflexivity. Qed.




(** C4, as stated, fails: the stopped run of one deed has drained, with
    nothing pending, in flight or queued, and its counters add up to 0 of
    1. *)
Lemma C4_drained_run_below_total :
  option_map (fun s => (drained s, returned s, tally s))
    (batch readable 5 [deed] stop_before_stage2)
  = Some (true, Some {| sum_total := 1; sum_processed := 0;
                        sum_successful := 0; sum_failed := 0;
                        sum_stopped := 0; sum_results := [] |},
          (0, 1))
  /\ ~ (forall schedule s,
          batch readable 5 [deed] schedule = Some s ->
          drained s = true -> fst (tally s) = snd (tally s)).
Proof.
  assert (E : option_map (fun s => (drained s, tally s))
                (batch readable 5 [deed] stop_before_stage2)
              = Some (true, (0, 1))) by (vm_compute; reflexivity).
  split; [vm_compute; reflexivity|].
  intros Hc.
  destruct (batch readable 5 [deed] stop_before_stage2) as [s|] eqn:Hs;
    [|discriminate].
  specialize (Hc _ _ Hs). cbn [option_map] in E. injection E as Hd Ht1 Ht2.
  specialize (Hc Hd). unfold tally in Hc. cbn [fst snd] in Hc. lia.
Qed.

(** C4, amended.  At every instant of every run
    [successful + failed + stopped <= total]; the sum equals [total] once
    every item's result has been collected, and that is the case when a
    run nobody stopped returns: its summary adds up to its total. *)
Theorem C4_counters {F} (self : Processor) (w : World)
  (process_stage1_ocr : Path -> Prog procE (Stage1Result F))
  (process_stage2_llm : Stage1Result F -> Prog procE (ResultDict F))
  (pdf_files : list Path) (m : Machine) (schedule : list Event)
  (s : State F) :
  process_batch self w process_stage1_ocr process_stage2_llm pdf_files m
    schedule = Some s ->
  successful (stats s) + failed (stats s) + stopped (stats s)
  <= total (stats s)
  /\ (PipelineFacts.outstanding s = 0%nat ->
      successful (stats s) + failed (stats s) + stopped (stats s)
      = total (stats s))
  /\ (PipelineFacts.unstopped schedule ->
      forall summary, pc s = Returned summary ->
        sum_successful summary + sum_failed summary + sum_stopped summary
        = sum_total summary
        /\ sum_processed summary = sum_total summary
        /\ length (sum_results summary) = total_files s).
Proof.
  intros Hrun. unfold process_batch in Hrun.
  pose proof (PipelineFacts.exec_counters_ok _ _ _ _ _ _ _
                (PipelineFacts.counters_ok_start pdf_files m) Hrun)
    as (A & B & C & D).
  repeat apply conj; [lia|lia|].
  intros Hn summary Hpc.
  pose proof (PipelineFacts.exec_steady _ _ _ _ _ _ _ Hn
                (PipelineFacts.steady_start pdf_files m) Hrun) as Hs.
  pose proof (PipelineFacts.steady_returned _ _ Hs Hpc) as Hout.
  pose proof (PipelineFacts.exec_invariant self w process_stage1_ocr
                process_stage2_llm PipelineFacts.summary_exact
                (PipelineFacts.step_summary_exact _ _ _ _)
                schedule (start pdf_files m) s I Hrun) as Hx.
  unfold PipelineFacts.summary_exact in Hx. rewrite Hpc in Hx.
  destruct Hx as [-> _]. cbn. repeat split; lia.
Qed.

Lemma C4_counters_witness :
  exists s summary,
    process_batch (Demo.pipeline 5 5) Demo.calm
      (PDFProcessorV2.process_stage1_ocr readable)
      (PDFProcessorV2.process_stage2_llm readable)
      [deed] (Demo.machine0 [deed]) undisturbed = Some s
    /\ pc s = Returned summary
    /\ sum_successful summary + sum_failed summary + sum_stopped summary
       = sum_total summary.
Proof.
  assert (V : from_option (fun s => bool_decide (is_Some (returned s)))
                false
                (process_batch (Demo.pipeline 5 5) Demo.calm
                   (PDFProcessorV2.process_stage1_ocr readable)
                   (PDFProcessorV2.process_stage2_llm readable)
                   [deed] (Demo.machine0 [deed]) undisturbed) = true)
    by (vm_compute; reflexivity).
  assert (Hn : PipelineFacts.unstopped undisturbed)
    by (unfold PipelineFacts.unstopped; apply (bool_decide_unpack _);
        vm_compute; exact I).
  pose proof (C4_counters (Demo.pipeline 5 5) Demo.calm
                (PDFProcessorV2.process_stage1_ocr readable)
                (PDFProcessorV2.process_stage2_llm readable)
                [deed] (Demo.machine0 [deed]) undisturbed) as T.
  destruct (process_batch _ _ _ _ _ _ _) as [s|]; [|discriminate].
  cbn [from_option] in V. apply bool_decide_eq_true in V.
  destruct V as [summary K].
  assert (Hpc : pc s = Returned summary)
    by (unfold returned in K; destruct (pc s); congruence).
  exists s, summary.
  split; [reflexivity|]. split; [exact Hpc|].
  exact (proj1 (proj2 (proj2 (T s eq_refl)) Hn summary Hpc)).
Defined.

(** C5, as stated, fails: the stage-1 call of the only deed raises, and
    [stop()] arrives before the collecting thread takes the future.  The
    thread leaves its loop at the guard, [process_batch] returns, and the
    exception is still in its future: no result was recorded for the
    item. *)
Lemma C5_stop_leaves_the_exception_uncollected :
  option_map (fun s => (returned s, uncollected s))
    (process_batch (Demo.pipeline 5 5) Demo.calm disk_full
       (PDFProcessorV2.process_stage2_llm readable)
       [deed] (Demo.machine0 [deed]) stop_before_collection)
  = Some (Some {| sum_total := 1; sum_processed := 0; sum_successful := 0;
                  sum_failed := 0; sum_stopped := 0; sum_results := [] |},
          [(deed, inr (Exception "disk full"))]).
Proof. vm_compute. reflexivity. Qed.

(** C5, amended.  A collecting loop of [process_batch] that takes a
    future whose stage function raised (the flag being set, which is the
    loop's guard) appends a Failed result carrying the exception's text,
    counts it as failed, and stays in its loop with every other item where
    it was.  In a run that nobody stops, every such future is taken before
    [process_batch] returns: the summary holds that Failed result for each
    stage call that raised, and one result for every input file. *)
Theorem C5_exception_is_recorded {F} (self : Processor) (w : World)
  (process_stage1_ocr : Path -> Prog procE (Stage1Result F))
  (process_stage2_llm : Stage1Result F -> Prog procE (ResultDict F))
  (pdf_files : list Path) (m : Machine) (before after : list Event)
  (s s_end : State F) :
  process_batch self w process_stage1_ocr process_stage2_llm pdf_files m
    before = Some s ->
  process_batch self w process_stage1_ocr process_stage2_llm pdf_files m
    (before ++ after) = Some s_end ->
  (forall i pdf_path e,
     pc s = Loop1 -> is_running (machine s) = true ->
     stage1_done s !! i = Some (pdf_path, Raise e) ->
     exists s' r,
       main_step i s = Some s'
       /\ results s' = (results s ++ [r])%list
       /\ res_document_id r = path_stem pdf_path
       /\ res_status r = Failed
       /\ res_error r = Some ("Stage 1 exception: " +:+ str e)
       /\ failed (stats s') = failed (stats s) + 1
       /\ processed (stats s') = processed (stats s) + 1
       /\ pc s' = Loop1
       /\ machine s' = machine s
       /\ stage1_done s' = delete i (stage1_done s)
       /\ (ocr_pending s', ocr_running s')
          = (ocr_pending s, ocr_running s)
       /\ (llm_pending s', llm_running s', stage2_done s')
          = (llm_pending s, llm_running s, stage2_done s))
  /\ (forall i stage1_result e,
        pc s = Loop2 -> is_running (machine s) = true ->
        stage2_done s !! i = Some (stage1_result, Raise e) ->
        exists s' r,
          main_step i s = Some s'
          /\ results s' = (results s ++ [r])%list
          /\ res_document_id r = s1_document_id stage1_result
          /\ res_status r = Failed
          /\ res_error r = Some ("Stage 2 exception: " +:+ str e)
          /\ failed (stats s') = failed (stats s) + 1
          /\ processed (stats s') = processed (stats s) + 1
          /\ pc s' = Loop2
          /\ machine s' = machine s
          /\ stage2_done s' = delete i (stage2_done s)
          /\ (ocr_pending s', ocr_running s', stage1_done s')
             = (ocr_pending s, ocr_running s, stage1_done s)
          /\ (llm_pending s', llm_running s')
             = (llm_pending s, llm_running s))
  /\ (PipelineFacts.unstopped (before ++ after) ->
      forall summary, pc s_end = Returned summary ->
        (forall pdf_path e,
           (pdf_path, Raise e) ∈ stage1_done s ->
           exists r,
             r ∈ sum_results summary
             /\ res_document_id r = path_stem pdf_path
             /\ res_status r = Failed
             /\ res_error r = Some ("Stage 1 exception: " +:+ str e))
        /\ (forall stage1_result e,
              (stage1_result, Raise e) ∈ stage2_done s ->
              exists r,
                r ∈ sum_results summary
                /\ res_document_id r = s1_document_id stage1_result
                /\ res_status r = Failed
                /\ res_error r = Some ("Stage 2 exception: " +:+ str e))
        /\ length (sum_results summary) = length pdf_files
        /\ sum_processed summary = sum_total summary).
Proof.
  intros Hs Hend. repeat apply conj.
  - intros i pdf_path e Hpc Hr Hi.
    rewrite (PipelineFacts.main_step_stage1 s i pdf_path _ Hpc Hr Hi).
    do 2 eexists. split; [reflexivity|]. cbn. rewrite Hpc.
    repeat split; lia.
  - intros i stage1_result e Hpc Hr Hi.
    rewrite (PipelineFacts.main_step_stage2 s i stage1_result _ Hpc Hr Hi).
    do 2 eexists. split; [reflexivity|]. cbn. rewrite Hpc.
    repeat split; lia.
  - intros Hn summary Hpc.
    destruct (CollectingFacts.returned_in_full self w process_stage1_ocr
                process_stage2_llm pdf_files m (before ++ after) s_end
                summary Hn Hend Hpc) as (Hres & Hlen & Hall).
    rewrite Hres. repeat apply conj.
    + intros pdf_path e Hin.
      exists (stage1_exception_result pdf_path e).
      split; [|repeat split].
      eapply CollectingFacts.stage1_taken; try eassumption. reflexivity.
    + intros stage1_result e Hin.
      exists (stage2_exception_result stage1_result e).
      split; [|repeat split].
      eapply CollectingFacts.stage2_taken; try eassumption. reflexivity.
    + exact Hlen.
    + exact Hall.
Qed.

(** The run of the witness: two deeds, the stage-1 call of the first
    raising, nobody stopping the run. *)
Lemma one_unreadable_through_ocr :
  exists s,
    process_batch (Demo.pipeline 5 5) Demo.calm one_unreadable
      (PDFProcessorV2.process_stage2_llm readable)
      two_deeds (Demo.machine0 two_deeds) both_through_ocr = Some s
    /\ (Demo.uploaded "D1.pdf", Raise (Exception "disk full"))
       ∈ stage1_done s.
Proof.
  assert (V : from_option
                (fun s : State Z =>
                   match stage1_done s with
                   | (pdf_path, Raise (Exception message)) :: _ =>
                       Some (pdf_path, message)
                   | _ => None
                   end)
                None
                (process_batch (Demo.pipeline 5 5) Demo.calm one_unreadable
                   (PDFProcessorV2.process_stage2_llm readable)
                   two_deeds (Demo.machine0 two_deeds) both_through_ocr)
              = Some (Demo.uploaded "D1.pdf", "disk full"))
    by (vm_compute; reflexivity).
  destruct (process_batch _ _ _ _ _ _ _) as [s|]; [|discriminate].
  cbn [from_option] in V. exists s. split; [reflexivity|].
  destruct (stage1_done s) as [|[p [r|[msg|msg]]] rest]; try discriminate.
  injection V as -> ->. apply list_elem_of_here.
Qed.

Lemma one_unreadable_to_the_end :
  exists s_end summary,
    process_batch (Demo.pipeline 5 5) Demo.calm one_unreadable
      (PDFProcessorV2.process_stage2_llm readable)
      two_deeds (Demo.machine0 two_deeds) (both_through_ocr ++ to_the_end)
    = Some s_end
    /\ pc s_end = Returned summary.
Proof.
  assert (V : from_option (fun s => bool_decide (is_Some (returned s)))
                false
                (process_batch (Demo.pipeline 5 5) Demo.calm one_unreadable
                   (PDFProcessorV2.process_stage2_llm readable)
                   two_deeds (Demo.machine0 two_deeds)
                   (both_through_ocr ++ to_the_end)) = true)
    by (vm_compute; reflexivity).
  destruct (process_batch _ _ _ _ _ _ _) as [s_end|]; [|discriminate].
  cbn [from_option] in V. apply bool_decide_eq_true in V.
  destruct V as [summary K]. exists s_end, summary.
  split; [reflexivity|].
  unfold returned in K. destruct (pc s_end); congruence.
Qed.

(** The summary of that run has the Failed result with the exception's
    text, and a result for each of the two deeds. *)
Lemma C5_exception_is_recorded_witness :
  exists s_end summary,
    process_batch (Demo.pipeline 5 5) Demo.calm one_unreadable
      (PDFProcessorV2.process_stage2_llm readable)
      two_deeds (Demo.machine0 two_deeds) (both_through_ocr ++ to_the_end)
    = Some s_end
    /\ pc s_end = Returned summary
    /\ (exists r,
          r ∈ sum_results summary
          /\ res_document_id r = "D1"
          /\ res_status r = Failed
          /\ res_error r = Some "Stage 1 exception: disk full")
    /\ length (sum_results summary) = 2%nat.
Proof.
  destruct one_unreadable_through_ocr as (s & E1 & Hin).
  destruct one_unreadable_to_the_end as (s_end & summary & E2 & Hpc).
  assert (Hn : PipelineFacts.unstopped (both_through_ocr ++ to_the_end))
    by (unfold PipelineFacts.unstopped; apply (bool_decide_unpack _);
        vm_compute; exact I).
  destruct (C5_exception_is_recorded (Demo.pipeline 5 5) Demo.calm
              one_unreadable (PDFProcessorV2.process_stage2_llm readable)
              two_deeds (Demo.machine0 two_deeds)
              both_through_ocr to_the_end s s_end E1 E2)
    as (_ & _ & Whole).
  destruct (Whole Hn summary Hpc) as (Raised & _ & Hlen & _).
  destruct (Raised _ _ Hin) as (r & Hr & Hid & Hst & Herr).
  exists s_end, summary.
  split; [exact E2|]. split; [exact Hpc|].
  split; [|exact Hlen].
  exists r. split; [exact Hr|]. split; [exact Hid|].
  split; [exact Hst|exact Herr].
Defined.



(** The run of the witness: [stop()] arrives during the stage-1 call of
    the only deed. *)
Lemma stop_during_ocr_run :
  exists s,
    process_batch (Demo.pipeline 5 5) Demo.calm
      (PDFProcessorV2.process_stage1_ocr readable)
      (PDFProcessorV2.process_stage2_llm readable)
      [deed] (Demo.machine0 [deed]) stop_during_ocr = Some s
    /\ uncollected s = [(deed, inl (Stopped, Some "Stopped before OCR"))]
    /\ llm_pending s = [].
Proof.
  assert (V : from_option
                (fun s : State Z => (uncollected s, length (llm_pending s)))
                ([], 1%nat)
                (process_batch (Demo.pipeline 5 5) Demo.calm
                   (PDFProcessorV2.process_stage1_ocr readable)
                   (PDFProcessorV2.process_stage2_llm readable)
                   [deed] (Demo.machine0 [deed]) stop_during_ocr)
              = ([(deed, inl (Stopped, Some "Stopped before OCR"))], 0%nat))
    by (vm_compute; reflexivity).
  destruct (process_batch _ _ _ _ _ _ _) as [s|]; [|discriminate].
  cbn [from_option] in V. injection V as Hd Hq.
  exists s. split; [reflexivity|]. split; [exact Hd|].
  destruct (llm_pending s); [reflexivity|discriminate].
Qed.

Lemma stop_during_ocr_wind_down :
  exists s_end,
    process_batch (Demo.pipeline 5 5) Demo.calm
      (PDFProcessorV2.process_stage1_ocr readable)
      (PDFProcessorV2.process_stage2_llm readable)
      [deed] (Demo.machine0 [deed]) (stop_during_ocr ++ wind_down)
    = Some s_end.
Proof.
  assert (V : from_option (fun s : State Z => true) false
                (process_batch (Demo.pipeline 5 5) Demo.calm
                   (PDFProcessorV2.process_stage1_ocr readable)
                   (PDFProcessorV2.process_stage2_llm readable)
                   [deed] (Demo.machine0 [deed])
                   (stop_during_ocr ++ wind_down)) = true)
    by (vm_compute; reflexivity).
  destruct (process_batch _ _ _ _ _ _ _) as [s_end|]; [|discriminate].
  exists s_end. reflexivity.
Qed.


(** C7.  A stage call that answers Stopped has left every file where it
    was: the set of files after the call is the set before it, also when
    the stop request lands in the middle of the call. *)
Theorem C7_stopped_leaves_the_file {F} `{PyFloat F} {ExtractedData}
  (self : PDFProcessorV2.Processor F ExtractedData) (w : World)
  (pdf_path : Path) (stage1_result : Stage1Result F)
  (stop_at : option nat) (m : Machine) :
  (forall stop_at' m' r,
     run w (PDFProcessorV2.process_stage1_ocr self pdf_path) stop_at m
     = (stop_at', m', Return r) ->
     s1_status r = Stopped -> fs m' = fs m)
  /\ (forall stop_at' m' r,
        run w (PDFProcessorV2.process_stage2_llm self stage1_result)
          stop_at m = (stop_at', m', Return r) ->
        res_status r = Stopped -> fs m' = fs m).
Proof.
  split.
  - intros stop_at' m' r E _.
    destruct (PDFProcessorV2Facts.stage1_spec self w pdf_path stop_at m)
      as (s1 & m1 & r1 & E1 & [Uf _] & _).
    rewrite E in E1. injection E1 as _ <- _. exact Uf.
  - intros stop_at' m' r E Hst.
    pose proof (PDFProcessorV2Facts.stage2_spec self w stage1_result stop_at
                  m) as Post.
    rewrite E in Post. destruct Post as (r2 & E2 & _ & Keep & _).
    cbn in E2, Keep. injection E2 as <-. apply Keep, Hst.
Qed.

(** A stop request that lands after the rows were saved: stage 2 answers
    Stopped and the deed is still in the upload directory. *)
Lemma C7_stopped_leaves_the_file_witness :
  let stage1_result : Stage1Result Z :=
    {| pdf_path := deed; s1_document_id := "D1";
       s1_registration_fee := Some 5000; s1_new_ocr_reg_fee := None;
       ocr_text := Demo.long_text; s1_status := Success;
       s1_error := None |} in
  let m := Demo.machine0 [deed] in
  exists stop_at' m' r,
    run Demo.calm (PDFProcessorV2.process_stage2_llm readable stage1_result)
      (Some 3%nat) m = (stop_at', m', Return r)
    /\ res_status r = Stopped
    /\ fs m' = fs m.
Proof.
  intros stage1_result m.
  pose proof (C7_stopped_leaves_the_file readable Demo.calm deed
                stage1_result (Some 3%nat) m) as [_ T].
  assert (V : match run Demo.calm
                      (PDFProcessorV2.process_stage2_llm readable
                         stage1_result) (Some 3%nat) m with
              | (_, _, Return r) => Some (res_status r)
              | _ => None
              end = Some Stopped) by (vm_compute; reflexivity).
  destruct (run Demo.calm _ (Some 3%nat) m) as [[stop_at' m'] [r|e]];
    [|discriminate].
  injection V as Hst. exists stop_at', m', r.
  split; [reflexivity|]. split; [exact Hst|].
  exact (T stop_at' m' r eq_refl Hst).
Defined.

(** C8.  [_save_to_database] run twice for the same document, with the
    commits going through: where [document_id] is the key of the document
    and property tables, there is exactly one document row and one
    property row for it afterwards, every field of both is the one the
    second run assigns (the document row keeps its [created_at], the
    property row its key; an absent value of the second run overwrites
    what the first stored), and the buyers and sellers of the document are
    exactly those of the second run, in order. *)
Theorem C8_reprocessing_replaces {F} `{PyFloat F} {ExtractedData}
  (self : PDFProcessorV2.Processor F ExtractedData) (w : World)
  (id : string) (data1 data2 : PDFProcessorV2.CleanedData F)
  (fee1 fee2 : option F) (m : Machine) :
  (forall d, commit_fault w d = None) ->
  (DatabaseFacts.count (PDFProcessorV2.is_document id)
     (document_details (db m)) <= 1)%nat ->
  (DatabaseFacts.count (PDFProcessorV2.is_property_of id)
     (property_details (db m)) <= 1)%nat ->
  let prop_data := PDFProcessorV2.cd_property_details data2 in
  let as_text := fun value : option (PyNum F) =>
    match value with
    | Some (NumFloat x) =>
        Some (if float_is_integral x then float_str_int x
              else float_fmt_2f x)
    | Some (NumOther repr) => Some repr
    | None => None
    end in
  exists stop1 m1 stop2 m2 doc1 prop1,
    run w (PDFProcessorV2._save_to_database self id data1 fee1) None m
    = (stop1, m1, Return tt)
    /\ run w (PDFProcessorV2._save_to_database self id data2 fee2) stop1 m1
       = (stop2, m2, Return tt)
    /\ first (PDFProcessorV2.is_document id) (document_details (db m1))
       = Some doc1
    /\ first (PDFProcessorV2.is_property_of id) (property_details (db m1))
       = Some prop1
    /\ DatabaseFacts.count (PDFProcessorV2.is_document id)
         (document_details (db m2)) = 1%nat
    /\ DatabaseFacts.count (PDFProcessorV2.is_property_of id)
         (property_details (db m2)) = 1%nat
    /\ length (document_details (db m2)) = length (document_details (db m1))
    /\ length (property_details (db m2)) = length (property_details (db m1))
    /\ first (PDFProcessorV2.is_document id) (document_details (db m2))
       = Some {| document_id := id;
                 transaction_date :=
                   PDFProcessorV2.dd_transaction_date
                     (PDFProcessorV2.cd_document_details data2);
                 registration_office :=
                   PDFProcessorV2.dd_registration_office
                     (PDFProcessorV2.cd_document_details data2);
                 created_at := created_at doc1;
                 updated_at :=
                   PDFProcessorV2.utcnow (PDFProcessorV2.services self) |}
    /\ first (PDFProcessorV2.is_property_of id) (property_details (db m2))
       = Some {| prop_id := prop_id prop1;
                 prop_document_id := id;
                 schedule_b_area :=
                   PDFProcessorV2.pd_schedule_b_area prop_data;
                 schedule_c_property_name :=
                   PDFProcessorV2.pd_schedule_c_property_name prop_data;
                 schedule_c_property_address :=
                   PDFProcessorV2.pd_schedule_c_property_address prop_data;
                 schedule_c_property_area :=
                   PDFProcessorV2.pd_schedule_c_property_area prop_data;
                 paid_in_cash_mode :=
                   PDFProcessorV2.pd_paid_in_cash_mode prop_data;
                 prop_pincode := PDFProcessorV2.pd_pincode prop_data;
                 prop_state := PDFProcessorV2.pd_state prop_data;
                 sale_consideration :=
                   PDFProcessorV2.pd_sale_consideration prop_data;
                 stamp_duty_fee := PDFProcessorV2.pd_stamp_duty_fee prop_data;
                 registration_fee :=
                   as_text (PDFProcessorV2.pd_registration_fee prop_data);
                 new_ocr_reg_fee := as_text (NumFloat <$> fee2);
                 guidance_value :=
                   as_text (PDFProcessorV2.pd_guidance_value prop_data) |}
    /\ map buyer_party (DatabaseFacts.buyers_of id (db m2))
       = PDFProcessorV2.cd_buyer_details data2
    /\ map DatabaseFacts.seller_data (DatabaseFacts.sellers_of id (db m2))
       = PDFProcessorV2.cd_seller_details data2.
Proof.
  intros Hcommit Hdoc Hprop prop_data as_text.
  destruct (PDFProcessorV2Facts.run_save_to_database self w id data1 fee1
              None m) as (stop1 & m1 & o1 & E1 & _ & _ & C1).
  rewrite Hcommit in C1. destruct C1 as [-> D1].
  destruct (PDFProcessorV2Facts.run_save_to_database self w id data2 fee2
              stop1 m1) as (stop2 & m2 & o2 & E2 & _ & _ & C2).
  rewrite Hcommit in C2. destruct C2 as [-> D2].
  set (now := PDFProcessorV2.utcnow (PDFProcessorV2.services self)) in *.
  pose proof (DatabaseFacts.save_document_first now id
                (PDFProcessorV2.cd_document_details data1)
                (document_details (db m))) as Fd1.
  rewrite <- (DatabaseFacts.save_session_document_details now id data1 fee1)
    in Fd1. rewrite <- D1 in Fd1.
  pose proof (DatabaseFacts.save_session_property_first now id data1 fee1
                (db m)) as Fp1. rewrite <- D1 in Fp1.
  do 6 eexists.
  split; [exact E1|]. split; [exact E2|].
  split; [exact Fd1|]. split; [exact Fp1|].
  assert (Hkey : PDFProcessorV2.is_property_of id
                   (PDFProcessorV2.fill_property
                      (PDFProcessorV2.cd_property_details data1) fee1
                      match
                        first (PDFProcessorV2.is_property_of id)
                          (property_details (db m))
                      with
                      | Some prop => prop
                      | None =>
                          PDFProcessorV2.blank_property
                            (property_seq (db m)) id
                      end) = true).
  { unfold first in Fp1. apply find_some in Fp1. apply Fp1. }
  assert (Hlen : length (property_details (db m2))
                 = length (property_details (db m1))).
  { rewrite D2. unfold PDFProcessorV2.save_session. rewrite Fp1.
    cbn [property_details]. apply DatabaseFacts.length_update_first. }
  rewrite Hlen. clear Hlen.
  rewrite D2.
  rewrite !DatabaseFacts.save_session_document_details,
    DatabaseFacts.save_document_count,
    DatabaseFacts.save_session_property_count,
    DatabaseFacts.save_document_first,
    DatabaseFacts.save_session_property_first,
    DatabaseFacts.save_session_buyers, DatabaseFacts.save_session_sellers,
    DatabaseFacts.insert_buyers_party, DatabaseFacts.insert_sellers_data.
  rewrite (DatabaseFacts.save_document_length now id _ _ _ Fd1).
  rewrite Fd1, Fp1. cbn [created_at].
  assert (K1 : DatabaseFacts.count (PDFProcessorV2.is_document id)
                 (document_details (db m1)) = 1%nat).
  { rewrite D1, DatabaseFacts.save_session_document_details,
      DatabaseFacts.save_document_count. lia. }
  assert (K2 : DatabaseFacts.count (PDFProcessorV2.is_property_of id)
                 (property_details (db m1)) = 1%nat).
  { rewrite D1, DatabaseFacts.save_session_property_count. lia. }
  rewrite K1, K2.
  unfold PDFProcessorV2.is_property_of in Hkey.
  apply String.eqb_eq in Hkey.
  repeat split; try reflexivity.
  apply (f_equal Some). unfold PDFProcessorV2.fill_property at 1.
  f_equal; first [exact Hkey|destruct fee2; reflexivity].
Qed.

(** A first run with two buyers, a fee read by OCR and a property in one
    state, a second with one buyer, no OCR fee and other property details:
    one document, one buyer, and the property row of the second run. *)
Lemma C8_reprocessing_replaces_witness :
  let data1 :=
    cleaned_plot "Office A" (plot "Kerala" 5000 "500000")
      [Demo.party "B1"; Demo.party "B2"] [(Demo.party "S1", None)] in
  let data2 :=
    cleaned_plot "Office B" (plot "Karnataka" 6000 "600000")
      [Demo.party "B3"] [(Demo.party "S2", None)] in
  exists m1 m2,
    snd (fst (run Demo.calm
                (PDFProcessorV2._save_to_database readable "D1" data1
                   (Some 5000))
                None (Demo.machine0 []))) = m1
    /\ snd (fst (run Demo.calm
                   (PDFProcessorV2._save_to_database readable "D1" data2 None)
                   None m1)) = m2
    /\ map new_ocr_reg_fee (property_details (db m1)) = [Some "5000"]
    /\ length (document_details (db m2)) = 1%nat
    /\ map buyer_party (buyer_details (db m2)) = [Demo.party "B3"]
    /\ property_details (db m2)
       = [ {| prop_id := 1; prop_document_id := "D1";
              schedule_b_area := None; schedule_c_property_name := None;
              schedule_c_property_address := None;
              schedule_c_property_area := None;
              paid_in_cash_mode := None; prop_pincode := None;
              prop_state := Some "Karnataka";
              sale_consideration := None; stamp_duty_fee := None;
              registration_fee := Some "6000";
              new_ocr_reg_fee := None;
              guidance_value := Some "600000" |} ].
Proof.
  intros data1 data2.
  destruct (C8_reprocessing_replaces readable Demo.calm "D1" data1 data2
              (Some 5000) None (Demo.machine0 []))
    as (stop1 & m1 & stop2 & m2 & doc1 & prop1 & E1 & E2 & _ & Fp1 & _ & K2
        & _ & Hlen & _ & Fp2 & _);
    [reflexivity|cbn; lia|cbn; lia|].
  exists m1, m2. rewrite E1. cbn [fst snd].
  assert (stop1 = None) as -> by (vm_compute in E1; congruence).
  rewrite E2. cbn [fst snd].
  split; [reflexivity|]. split; [reflexivity|].
  vm_compute in E1. injection E1 as <-.
  vm_compute in Fp1. injection Fp1 as <-.
  vm_compute in E2. injection E2 as _ <-.
  repeat split; reflexivity.
Defined.



(** C10.  [FileHandler.move_file] answers for every source, directory and
    environment, with the new path when the file was moved and with
    [None], the files as they were, otherwise; it never raises.  And the
    result [process_stage2_llm] returns is the same whatever [mkdir] and
    [shutil.move] do. *)
Theorem C10_move_file_never_raises {F} `{PyFloat F} {ExtractedData}
  (w : World) (source : Path) (destination_dir : string)
  (filename : option string) (stop_at : option nat) (m : Machine)
  (self : PDFProcessorV2.Processor F ExtractedData)
  (stage1_result : Stage1Result F)
  (mk : string -> option string) (mv : Path -> Path -> option string) :
  (exists stop_at' m' r,
     run w (FileHandler.move_file source destination_dir filename) stop_at m
     = (stop_at', m', Return r)
     /\ db m' = db m
     /\ match r with
        | Some dest_path =>
            dest_path = dest_of source destination_dir filename
            /\ source ∈ fs m
            /\ fs m' = {[dest_path]} ∪ fs m ∖ {[source]}
        | None => fs m' = fs m
        end)
  /\ snd (run (with_relocation_faults mk mv w)
            (PDFProcessorV2.process_stage2_llm self stage1_result) stop_at m)
     = snd (run w (PDFProcessorV2.process_stage2_llm self stage1_result)
              stop_at m).
Proof.
  split.
  - destruct (run_move_file w source destination_dir filename stop_at m)
      as (stop_at' & m' & r & E & Hdb & _ & Hr).
    exists stop_at', m', r. split; [exact E|]. split; [exact Hdb|].
    destruct r as [dest_path|]; [|exact Hr].
    destruct Hr as (Hd & Hin & _ & _ & Hfs). auto.
  - apply PDFProcessorV2Facts.stage2_relocation_blind.
Qed.
(* ===================================================================== *)
(** * Part IV: further properties of the code                             *)
(* ===================================================================== *)

(** ** [process_batch]: more that every interleaving keeps *)

Module PipelineMore.
Import PipelineBatchProcessor.

Section Facts.
Context {F : Type}.
Variable self : Processor.
Variable w : World.
Variable process_stage1_ocr : Path -> Prog procE (Stage1Result F).
Variable process_stage2_llm : Stage1Result F -> Prog procE (ResultDict F).

#[local] Abbreviation step :=
  (step self w process_stage1_ocr process_stage2_llm).
#[local] Abbreviation exec :=
  (exec self w process_stage1_ocr process_stage2_llm).

Ltac cases H :=
  unfold PipelineBatchProcessor.step, stop, ocr_start, ocr_step, llm_start,
    llm_step, main_step, stage1_body, stage2_body, submit_stage2,
    record_result, drop_stage1_done, drop_stage2_done, set_pc, set_machine
    in H;
  repeat case_match; simplify_eq.

Ltac frame_workers :=
  repeat match goal with
         | E : do_worker_action _ _ _ _ = _ |- _ =>
             apply PipelineFacts.do_worker_action_frame in E as [_ E]
         end.

(** Nothing in a run sets the flag again once it is down. *)
Lemma step_stays_stopped s e s' :
  is_running (machine s) = false -> step s e = Some s' ->
  is_running (machine s') = false.
Proof.
  intros Hdown Hstep.
  cases Hstep; cbn in *; frame_workers; congruence.
Qed.

(** The number of input files is fixed at the start. *)
Lemma step_total_files s e s' :
  step s e = Some s' -> total_files s' = total_files s.
Proof. intros Hstep. cases Hstep; reflexivity. Qed.

(** No pool runs more calls than it has threads. *)
Definition within_pools (s : State F) : Prop :=
  (length (ocr_running s) <= max_ocr_workers self)%nat
  /\ (length (llm_running s) <= max_llm_workers self)%nat.

Lemma step_within_pools s e s' :
  within_pools s -> step s e = Some s' -> within_pools s'.
Proof.
  unfold within_pools. intros [Ho Hl] Hstep.
  cases Hstep;
    repeat match goal with
           | E : (_ <? _)%nat = true |- _ => apply Nat.ltb_lt in E
           end;
    cbn in *;
    repeat match goal with
           | E : ?l !! ?i = Some _ |- _ =>
               let L := fresh "L" in
               assert (L : (i < length l)%nat)
                 by (eapply lookup_lt_Some; exact E);
               clear E
           end;
    rewrite ?length_app, ?length_insert; cbn;
    rewrite ?length_delete by (apply lookup_lt_is_Some; assumption);
    split; lia.
Qed.

(** [process_batch] returns with the flag cleared. *)
Definition returns_stopped (s : State F) : Prop :=
  match pc s with
  | Returned _ => is_running (machine s) = false
  | _ => True
  end.

Lemma step_returns_stopped s e s' :
  returns_stopped s -> step s e = Some s' -> returns_stopped s'.
Proof.
  unfold returns_stopped. intros Hs Hstep.
  cases Hstep; cbn in *; frame_workers;
    repeat match goal with
           | E : pc _ = _ |- _ => rewrite E in *
           end;
    try exact I; try congruence.
Qed.

End Facts.
End PipelineMore.

Import PipelineBatchProcessor.
Import Scenarios.

Lemma exec_app {F} self w
  (process_stage1_ocr : Path -> Prog procE (Stage1Result F))
  (process_stage2_llm : Stage1Result F -> Prog procE (ResultDict F))
  (s : State F) (before after : list Event) :
  exec self w process_stage1_ocr process_stage2_llm s (before ++ after)
  = exec self w process_stage1_ocr process_stage2_llm s before
    ≫= fun s1 =>
        exec self w process_stage1_ocr process_stage2_llm s1 after.
Proof.
  revert s. induction before as [|e rest IH]; intros s; cbn; [reflexivity|].
  destruct (step self w process_stage1_ocr process_stage2_llm s e);
    [apply IH|reflexivity].
Qed.

(** The number of input files, at any point of a run. *)
Lemma total_files_fixed {F} (self : Processor) (w : World)
  (process_stage1_ocr : Path -> Prog procE (Stage1Result F))
  (process_stage2_llm : Stage1Result F -> Prog procE (ResultDict F))
  (pdf_files : list Path) (m : Machine) (schedule : list Event)
  (s : State F) :
  process_batch self w process_stage1_ocr process_stage2_llm pdf_files m
    schedule = Some s ->
  total_files s = length pdf_files.
Proof.
  intros Hrun. unfold process_batch in Hrun.
  apply (PipelineFacts.exec_invariant self w process_stage1_ocr
           process_stage2_llm
           (fun s => total_files s = length pdf_files)
           (fun s0 e s1 E Hstep =>
              eq_trans (PipelineMore.step_total_files _ _ _ _ _ _ _ Hstep)
                E)
           schedule (start pdf_files m) s eq_refl Hrun).
Qed.

(** X1.  At every instant of every run of [process_batch], stopped or
    not, the [processed] counter is the number of results recorded so far,
    the completion counters add up to it, and [total] is the number of
    input files. *)
Theorem X1_processed_counts_results {F} (self : Processor) (w : World)
  (process_stage1_ocr : Path -> Prog procE (Stage1Result F))
  (process_stage2_llm : Stage1Result F -> Prog procE (ResultDict F))
  (pdf_files : list Path) (m : Machine) (schedule : list Event)
  (s : State F) :
  process_batch self w process_stage1_ocr process_stage2_llm pdf_files m
    schedule = Some s ->
  processed (stats s) = Z.of_nat (length (results s))
  /\ successful (stats s) + failed (stats s) + stopped (stats s)
     = processed (stats s)
  /\ total (stats s) = Z.of_nat (length pdf_files)
  /\ total_files s = length pdf_files.
Proof.
  intros Hrun.
  pose proof (total_files_fixed _ _ _ _ _ _ _ _ Hrun) as T.
  unfold process_batch in Hrun.
  pose proof (PipelineFacts.exec_counters_ok _ _ _ _ _ _ _
                (PipelineFacts.counters_ok_start pdf_files m) Hrun)
    as (A & B & C & D).
  repeat split; [lia|exact A| |exact T]. rewrite C, T. reflexivity.
Qed.

Lemma X1_processed_counts_results_witness :
  exists s,
    process_batch (Demo.pipeline 5 5) Demo.calm
      (PDFProcessorV2.process_stage1_ocr readable)
      (PDFProcessorV2.process_stage2_llm readable)
      [deed] (Demo.machine0 [deed]) stop_before_stage2 = Some s
    /\ processed (stats s) = Z.of_nat (length (results s))
    /\ total (stats s) = 1.
Proof.
  pose proof (X1_processed_counts_results (Demo.pipeline 5 5) Demo.calm
                (PDFProcessorV2.process_stage1_ocr readable)
                (PDFProcessorV2.process_stage2_llm readable)
                [deed] (Demo.machine0 [deed]) stop_before_stage2) as T.
  assert (V : is_Some
                (process_batch (Demo.pipeline 5 5) Demo.calm
                   (PDFProcessorV2.process_stage1_ocr readable)
                   (PDFProcessorV2.process_stage2_llm readable)
                   [deed] (Demo.machine0 [deed]) stop_before_stage2)).
  { apply (bool_decide_unpack _). vm_compute. exact I. }
  destruct (process_batch _ _ _ _ _ _ _) as [s|]; [|destruct V; discriminate].
  exists s. destruct (T s eq_refl) as (A & _ & C & _).
  split; [reflexivity|]. split; [exact A|exact C].
Defined.

(** X2.  [stop()] is final for a run: whatever the threads do after it,
    in whatever order, the flag stays down, also when the run goes on to
    return. *)
Theorem X2_stop_is_final {F} (self : Processor) (w : World)
  (process_stage1_ocr : Path -> Prog procE (Stage1Result F))
  (process_stage2_llm : Stage1Result F -> Prog procE (ResultDict F))
  (pdf_files : list Path) (m : Machine) (before after : list Event)
  (s : State F) :
  process_batch self w process_stage1_ocr process_stage2_llm pdf_files m
    (before ++ ev_stop :: after) = Some s ->
  is_running (machine s) = false.
Proof.
  unfold process_batch. rewrite exec_app. intros Hrun.
  destruct (exec self w process_stage1_ocr process_stage2_llm
              (start pdf_files m) before) as [s1|]; [|discriminate].
  cbn in Hrun.
  apply (PipelineFacts.exec_invariant self w process_stage1_ocr
           process_stage2_llm (fun s => is_running (machine s) = false)
           (PipelineMore.step_stays_stopped self w process_stage1_ocr
              process_stage2_llm)
           after (stop s1) s eq_refl Hrun).
Qed.

Lemma X2_stop_is_final_witness :
  exists s,
    process_batch (Demo.pipeline 5 5) Demo.calm
      (PDFProcessorV2.process_stage1_ocr readable)
      (PDFProcessorV2.process_stage2_llm readable)
      [deed] (Demo.machine0 [deed])
      (through_stage1 ++ ev_stop :: [ev_llm_start; ev_llm_step 0])
    = Some s
    /\ is_running (machine s) = false.
Proof.
  pose proof (X2_stop_is_final (Demo.pipeline 5 5) Demo.calm
                (PDFProcessorV2.process_stage1_ocr readable)
                (PDFProcessorV2.process_stage2_llm readable)
                [deed] (Demo.machine0 [deed]) through_stage1
                [ev_llm_start; ev_llm_step 0]) as T.
  assert (V : is_Some
                (process_batch (Demo.pipeline 5 5) Demo.calm
                   (PDFProcessorV2.process_stage1_ocr readable)
                   (PDFProcessorV2.process_stage2_llm readable)
                   [deed] (Demo.machine0 [deed])
                   (through_stage1
                    ++ ev_stop :: [ev_llm_start; ev_llm_step 0]))).
  { apply (bool_decide_unpack _). vm_compute. exact I. }
  destruct (process_batch _ _ _ _ _ _ _) as [s|]; [|destruct V; discriminate].
  exists s. split; [reflexivity|exact (T s eq_refl)].
Defined.

(** X3.  When [process_batch] returns, in a stopped run as in any other,
    the flag is cleared, and the summary is consistent: [processed] is
    the number of results it lists and the sum of [successful], [failed]
    and [stopped]; [total] is the number of input files. *)
Theorem X3_summary_is_consistent {F} (self : Processor) (w : World)
  (process_stage1_ocr : Path -> Prog procE (Stage1Result F))
  (process_stage2_llm : Stage1Result F -> Prog procE (ResultDict F))
  (pdf_files : list Path) (m : Machine) (schedule : list Event)
  (s : State F) (summary : Summary F) :
  process_batch self w process_stage1_ocr process_stage2_llm pdf_files m
    schedule = Some s ->
  pc s = Returned summary ->
  is_running (machine s) = false
  /\ sum_processed summary = Z.of_nat (length (sum_results summary))
  /\ sum_successful summary + sum_failed summary + sum_stopped summary
     = sum_processed summary
  /\ sum_total summary = Z.of_nat (length pdf_files)
  /\ sum_processed summary <= sum_total summary.
Proof.
  intros Hrun Hpc.
  pose proof (total_files_fixed _ _ _ _ _ _ _ _ Hrun) as T.
  unfold process_batch in Hrun.
  pose proof (PipelineFacts.exec_counters_ok _ _ _ _ _ _ _
                (PipelineFacts.counters_ok_start pdf_files m) Hrun)
    as (A & Out & C & D).
  pose proof (PipelineFacts.exec_invariant self w process_stage1_ocr
                process_stage2_llm PipelineFacts.summary_exact
                (PipelineFacts.step_summary_exact _ _ _ _)
                schedule (start pdf_files m) s I Hrun) as Hx.
  pose proof (PipelineFacts.exec_invariant self w process_stage1_ocr
                process_stage2_llm PipelineMore.returns_stopped
                (PipelineMore.step_returns_stopped _ _ _ _)
                schedule (start pdf_files m) s I Hrun) as Hf.
  unfold PipelineFacts.summary_exact in Hx.
  unfold PipelineMore.returns_stopped in Hf. rewrite Hpc in Hx, Hf.
  destruct Hx as [-> _]. cbn. rewrite T.
  repeat split; [exact Hf|lia|exact A|lia].
Qed.

Lemma X3_summary_is_consistent_witness :
  exists s summary,
    process_batch (Demo.pipeline 5 5) Demo.calm
      (PDFProcessorV2.process_stage1_ocr readable)
      (PDFProcessorV2.process_stage2_llm readable)
      [deed] (Demo.machine0 [deed]) stop_before_stage2 = Some s
    /\ pc s = Returned summary
    /\ is_running (machine s) = false
    /\ sum_processed summary = Z.of_nat (length (sum_results summary)).
Proof.
  pose proof (X3_summary_is_consistent (Demo.pipeline 5 5) Demo.calm
                (PDFProcessorV2.process_stage1_ocr readable)
                (PDFProcessorV2.process_stage2_llm readable)
                [deed] (Demo.machine0 [deed]) stop_before_stage2) as T.
  assert (V : from_option (fun s => bool_decide (is_Some (returned s)))
                false
                (process_batch (Demo.pipeline 5 5) Demo.calm
                   (PDFProcessorV2.process_stage1_ocr readable)
                   (PDFProcessorV2.process_stage2_llm readable)
                   [deed] (Demo.machine0 [deed]) stop_before_stage2) = true)
    by (vm_compute; reflexivity).
  destruct (process_batch _ _ _ _ _ _ _) as [s|]; [|discriminate].
  cbn [from_option] in V. apply bool_decide_eq_true in V.
  destruct V as [summary K].
  assert (Hpc : pc s = Returned summary)
    by (unfold returned in K; destruct (pc s); congruence).
  exists s, summary. destruct (T s summary eq_refl Hpc) as (A & B & _).
  auto.
Defined.

(** X4.  At every instant of every run at most [max_ocr_workers] calls
    of stage 1 and at most [max_llm_workers] calls of stage 2 are
    running. *)
Theorem X4_pools_respect_their_size {F} (self : Processor) (w : World)
  (process_stage1_ocr : Path -> Prog procE (Stage1Result F))
  (process_stage2_llm : Stage1Result F -> Prog procE (ResultDict F))
  (pdf_files : list Path) (m : Machine) (schedule : list Event)
  (s : State F) :
  process_batch self w process_stage1_ocr process_stage2_llm pdf_files m
    schedule = Some s ->
  (length (ocr_running s) <= max_ocr_workers self)%nat
  /\ (length (llm_running s) <= max_llm_workers self)%nat.
Proof.
  intros Hrun. unfold process_batch in Hrun.
  apply (PipelineFacts.exec_invariant self w process_stage1_ocr
           process_stage2_llm (PipelineMore.within_pools self)
           (PipelineMore.step_within_pools self w process_stage1_ocr
              process_stage2_llm)
           schedule (start pdf_files m) s); [|exact Hrun].
  split; cbn; lia.
Qed.

Lemma X4_pools_respect_their_size_witness :
  exists s,
    process_batch (Demo.pipeline 5 1) Demo.calm
      (PDFProcessorV2.process_stage1_ocr readable)
      (PDFProcessorV2.process_stage2_llm readable)
      four_deeds (Demo.machine0 four_deeds) slow_llm = Some s
    /\ (length (llm_running s) <= 1)%nat.
Proof.
  pose proof (X4_pools_respect_their_size (Demo.pipeline 5 1) Demo.calm
                (PDFProcessorV2.process_stage1_ocr readable)
                (PDFProcessorV2.process_stage2_llm readable)
                four_deeds (Demo.machine0 four_deeds) slow_llm) as T.
  assert (V : is_Some
                (process_batch (Demo.pipeline 5 1) Demo.calm
                   (PDFProcessorV2.process_stage1_ocr readable)
                   (PDFProcessorV2.process_stage2_llm readable)
                   four_deeds (Demo.machine0 four_deeds) slow_llm)).
  { apply (bool_decide_unpack _). vm_compute. exact I. }
  destruct (process_batch _ _ _ _ _ _ _) as [s|]; [|destruct V; discriminate].
  exists s. split; [reflexivity|exact (proj2 (T s eq_refl))].
Defined.

(** ** The stage functions: what a result says about the call *)

Module StageMore.
Import PDFProcessorV2.

Section Facts.
Context {F : Type} `{PyFloat F} {ExtractedData : Type}.
Variable self : Processor F ExtractedData.
Variable w : World.

Ltac check_step s' m' U R K B :=
  match goal with
  | |- context [run w (stop_check self ?msg) ?s ?m] =>
      destruct (PDFProcessorV2Facts.run_stop_check self w msg s m)
        as [s' m' U R K | s' m' U B R];
      cbn beta iota
  end.

(** What a [Stage1Result] says: a Success carries the text OCR read, at
    least a hundred characters of it, and the fee pdfplumber found; any
    other result carries no text and no fee, and says why. *)
Definition stage1_shape (pdf : Path) (r : Stage1Result F) : Prop :=
  pdf_path r = pdf
  /\ s1_document_id r = FileHandler.extract_document_id (path_name pdf)
  /\ match s1_status r with
     | Success =>
         s1_error r = None
         /\ (100 <= String.length (ocr_text r))%nat
         /\ get_full_text (services self) pdf = Return (ocr_text r)
         /\ extract (services self) pdf = Return (s1_registration_fee r)
         /\ (ENABLE_OCR_REG_FEE_EXTRACTION self = false ->
             s1_new_ocr_reg_fee r = None)
     | _ =>
         ocr_text r = "" /\ s1_registration_fee r = None
         /\ s1_new_ocr_reg_fee r = None /\ is_Some (s1_error r)
     end.

Lemma run_stage1_shape pdf stop_at m :
  exists stop_at' m' r,
    run w (process_stage1_ocr self pdf) stop_at m = (stop_at', m', Return r)
    /\ stage1_shape pdf r.
Proof.
  unfold process_stage1_ocr. cbv zeta.
  assert (Fin : forall (e : exn) sx mx,
    exists sy my (r : Stage1Result F),
      run w (stage1_except pdf
               (FileHandler.extract_document_id (path_name pdf)) e) sx mx
      = (sy, my, Return r)
      /\ stage1_shape pdf r).
  { intros e sx mx. destruct e; do 3 eexists;
      (split; [reflexivity|]); unfold stage1_shape; cbn; eauto 10. }
  repeat run_head.
  check_step s1 m1 U1 R1 K1 B1; [|apply Fin].
  run_head. run_call_step; [|apply Fin].
  run_head. check_step s2 m2 U2 R2 K2 B2; [|apply Fin].
  run_head. run_call_step; [|apply Fin].
  match goal with
  | |- context [if ?b then _ else _] => destruct b eqn:Hshort
  end; [apply Fin|].
  apply orb_false_elim in Hshort as [_ Hlen]. apply Nat.ltb_ge in Hlen.
  run_head. check_step s3 m3 U3 R3 K3 B3; [|apply Fin].
  run_head.
  destruct (ENABLE_OCR_REG_FEE_EXTRACTION self) eqn:Hocr.
  - run_call_step; [|apply Fin].
    do 3 eexists. split; [reflexivity|].
    unfold stage1_shape. cbn. repeat split; auto. congruence.
  - do 3 eexists. split; [reflexivity|].
    unfold stage1_shape. cbn. repeat split; auto.
Qed.

(** [move_file] with the file there and nothing failing. *)
Lemma run_move_file_moves source destination_dir filename stop_at m :
  source ∈ fs m ->
  mkdir_fault w destination_dir = None ->
  move_fault w source (dest_of source destination_dir filename) = None ->
  exists stop_at' m',
    run w (FileHandler.move_file source destination_dir filename) stop_at m
    = (stop_at', m', Return (Some (dest_of source destination_dir filename)))
    /\ fs m' = {[dest_of source destination_dir filename]}
               ∪ fs m ∖ {[source]}
    /\ db m' = db m.
Proof.
  intros Hin Hmk Hmv.
  destruct (run_move_file w source destination_dir filename stop_at m)
    as (s' & m' & r & E & Hdb & _ & Hr).
  assert (Hsome : r = Some (dest_of source destination_dir filename)).
  { unfold FileHandler.move_file, mkdir, shutil_move, perform in E.
    cbn [bind try_except run] in E.
    pose proof (tick_fs stop_at m) as F0.
    destruct (tick stop_at m) as [s0 m0]. cbn [snd] in F0.
    cbn [do_action] in E. rewrite Hmk in E. cbn in E.
    pose proof (tick_fs s0 m0) as F1.
    destruct (tick s0 m0) as [s1 m1]. cbn [snd] in F1.
    fold (dest_of source destination_dir filename) in E.
    assert (Hin1 : source ∈ fs m1) by (rewrite F1, F0; exact Hin).
    destruct (bool_decide (source ∈ fs m1)) eqn:Hb;
      [|apply bool_decide_eq_false in Hb; contradiction].
    rewrite Hmv in E. cbn in E. congruence. }
  subst r. exists s', m'. split; [exact E|].
  destruct Hr as (_ & _ & _ & _ & Hfs). split; [exact Hfs|exact Hdb].
Qed.

(** Where a PDF is after [move_file] took it to [dir]. *)
Definition moved_to (dir : string) (pdf : Path) (m m' : Machine) : Prop :=
  fs m' = {[dest_of pdf dir None]} ∪ fs m ∖ {[pdf]}.

(** The PDF is there, and neither [mkdir] nor [shutil.move] fails. *)
Definition can_move (dir : string) (pdf : Path) (m : Machine) : Prop :=
  pdf ∈ fs m
  /\ mkdir_fault w dir = None
  /\ move_fault w pdf (dest_of pdf dir None) = None.

(** The rows are those [_save_to_database] writes for what the model
    extracted and validation cleaned, with the pdfplumber fee put in. *)
Definition saved (stage1_result : Stage1Result F) (m m' : Machine) : Prop :=
  exists extracted cleaned,
    extract_structured_data (services self) (ocr_text stage1_result)
    = Return (Some extracted)
    /\ validate_and_clean_data (services self) extracted = Return cleaned
    /\ db m'
       = save_session (utcnow (services self))
           (s1_document_id stage1_result)
           (with_registration_fee (s1_registration_fee stage1_result)
              cleaned)
           (s1_new_ocr_reg_fee stage1_result) (db m).

Definition stage2_shape (stage1_result : Stage1Result F) (m m' : Machine)
  (r : ResultDict F) : Prop :=
  let pdf := pdf_path stage1_result in
  res_document_id r = s1_document_id stage1_result
  /\ res_registration_fee r = Some (s1_registration_fee stage1_result)
  /\ (if res_saved_to_db r
      then res_llm_extracted r = true /\ saved stage1_result m m'
      else db m' = db m)
  /\ match res_status r with
     | Success =>
         res_saved_to_db r = true /\ res_error r = None
         /\ (fee_truthy (s1_registration_fee stage1_result) = true ->
             can_move settings.PROCESSED_DIR pdf m ->
             moved_to settings.PROCESSED_DIR pdf m m')
     | Failed =>
         res_saved_to_db r = false /\ is_Some (res_error r)
         /\ (fs m' = fs m \/ moved_to settings.FAILED_DIR pdf m m')
         /\ (can_move settings.FAILED_DIR pdf m ->
             moved_to settings.FAILED_DIR pdf m m')
         /\ (pdf ∉ fs m -> fs m' = fs m)
     | Stopped => is_Some (res_error r) /\ fs m' = fs m
     end.

Lemma run_stage2_except stage1_result local e sx mx m :
  res_document_id local = s1_document_id stage1_result ->
  res_registration_fee local = Some (s1_registration_fee stage1_result) ->
  res_saved_to_db local = false ->
  untouched m mx ->
  exists sy my r,
    run w (stage2_except stage1_result local e) sx mx
    = (sy, my, Return r)
    /\ stage2_shape stage1_result m my r.
Proof.
  intros Hid Hfee Hsaved [Uf Ud]. unfold same_files, same_rows in *.
  destruct e as [message|message].
  - do 3 eexists. split; [reflexivity|]. unfold stage2_shape. cbn.
    rewrite Hsaved. eauto 10.
  - unfold stage2_except. cbv zeta. repeat run_head.
    rewrite run_path_exists.
    pose proof (tick_fs sx mx) as F1. pose proof (tick_db sx mx) as D1.
    destruct (tick sx mx) as [sy my]. cbn [fst snd] in *.
    case_bool_decide as Hin; cbn beta iota.
    + repeat run_head.
      destruct (run_move_file w (pdf_path stage1_result)
                  settings.FAILED_DIR None sy my)
        as (sz & mz & r0 & E & Hdb & _ & Hr0).
      rewrite E. cbn beta iota. repeat run_head.
      do 3 eexists. split; [reflexivity|]. unfold stage2_shape. cbn.
      rewrite Hsaved.
      split; [exact Hid|]. split; [exact Hfee|].
      split; [congruence|].
      split; [reflexivity|]. split; [eauto|].
      split; [|split].
      * destruct r0 as [dest|].
        -- right. destruct Hr0 as (-> & _ & _ & _ & Hfs).
           unfold moved_to. rewrite Hfs, F1, Uf. reflexivity.
        -- left. congruence.
      * intros (Hpdf & Hmk & Hmv).
        assert (Hpdf' : pdf_path stage1_result ∈ fs my)
          by (rewrite F1, Uf; exact Hpdf).
        destruct (run_move_file_moves (pdf_path stage1_result)
                    settings.FAILED_DIR None sy my Hpdf' Hmk Hmv)
          as (sz' & mz' & E' & Hfs & _).
        rewrite E in E'. injection E' as _ <- _.
        unfold moved_to. rewrite Hfs, F1, Uf. reflexivity.
      * intros Hout. exfalso. apply Hout. rewrite <- Uf, <- F1. exact Hin.
    + repeat run_head.
      do 3 eexists. split; [reflexivity|]. unfold stage2_shape. cbn.
      rewrite Hsaved.
      split; [exact Hid|]. split; [exact Hfee|].
      split; [congruence|].
      split; [reflexivity|]. split; [eauto|].
      split; [left; congruence|]. split; [|intros _; congruence].
      intros (Hpdf & _). exfalso. apply Hin. rewrite F1, Uf. exact Hpdf.
Qed.

Lemma run_stage2_shape stage1_result stop_at m :
  exists stop_at' m' r,
    run w (process_stage2_llm self stage1_result) stop_at m
    = (stop_at', m', Return r)
    /\ stage2_shape stage1_result m m' r.
Proof.
  unfold process_stage2_llm, stage2_try. cbv zeta.
  assert (Exit : forall local e sx mx,
    res_document_id local = s1_document_id stage1_result ->
    res_registration_fee local
    = Some (s1_registration_fee stage1_result) ->
    res_saved_to_db local = false ->
    untouched m mx ->
    exists sy my r,
      run w (stage2_except stage1_result local e) sx mx = (sy, my, Return r)
      /\ stage2_shape stage1_result m my r)
    by (intros; apply run_stage2_except; assumption).
  repeat run_head.
  check_step s1 m1 U1 R1 K1 B1;
    [|cbn [fst snd]; cbn beta iota; apply Exit; auto].
  repeat run_head. run_call_step;
    [|cbn [fst snd]; cbn beta iota; apply Exit; auto].
  match goal with
  | |- context [match ?x with Some _ => _ | None => _ end] =>
      destruct x as [extracted_data|]
  end.
  2: { repeat run_head. cbn [fst snd]. cbn beta iota. apply Exit; auto. }
  repeat run_head. cbn beta iota. repeat run_head.
  check_step s2 m2 U2 R2 K2 B2;
    [|cbn [fst snd]; cbn beta iota; apply Exit; auto;
      etransitivity; eassumption].
  assert (U12 : untouched m m2) by (etransitivity; eassumption).
  repeat run_head. run_call_step;
    [|cbn [fst snd]; cbn beta iota; apply Exit; auto].
  repeat run_head.
  check_step s3 m3 U3 R3 K3 B3;
    [|cbn [fst snd]; cbn beta iota; apply Exit; auto;
      etransitivity; eassumption].
  assert (U13 : untouched m m3) by (etransitivity; eassumption).
  repeat run_head.
  match goal with
  | |- context [run w (_save_to_database self ?i ?d ?f) ?s ?m] =>
      destruct (PDFProcessorV2Facts.run_save_to_database self w i d f s m)
        as (s4 & m4 & o4 & E4 & F4 & K4 & C4); rewrite E4
  end.
  destruct U13 as [F13 D13]. unfold same_files, same_rows in *.
  destruct (commit_fault w (db m3)) as [message|]; destruct C4 as [-> D4];
    cbn [fst snd]; cbn beta iota.
  { repeat run_head. cbn [fst snd]; cbn beta iota.
    apply Exit; auto. split; unfold same_files, same_rows; congruence. }
  assert (Saved : forall mx, db mx = db m4 -> saved stage1_result m mx).
  { intros mx Hx. do 2 eexists. split; [eassumption|].
    split; [eassumption|]. rewrite Hx, D4, D13. reflexivity. }
  repeat run_head. cbn beta iota. repeat run_head.
  check_step s5 m5 U5 R5 K5 B5.
  2:{ cbn [fst snd]; cbn beta iota. do 3 eexists. split; [reflexivity|].
      destruct U5 as [F5 D5]. unfold same_files, same_rows in *.
      unfold stage2_shape. cbn. repeat split; eauto; congruence. }
  destruct U5 as [F5 D5]. unfold same_files, same_rows in *.
  repeat run_head.
  destruct (fee_truthy (s1_registration_fee stage1_result)) eqn:Hfee;
    cbn [negb].
  - repeat (repeat run_head; cbn beta iota).
    match goal with
    | |- context [run w (FileHandler.move_file ?a ?b ?c) ?s ?m] =>
        destruct (run_move_file w a b c s m)
          as (sz & mz & r0 & E & Hdb & _ & Hr0);
        rewrite E
    end.
    repeat (repeat run_head; cbn beta iota). cbn [fst snd].
    do 3 eexists. split; [reflexivity|]. unfold stage2_shape. cbn.
    repeat split; auto.
    + apply Saved. congruence.
    + intros _ (Hpdf & Hmk & Hmv).
      assert (Hpdf' : pdf_path stage1_result ∈ fs m5) by congruence.
      destruct (run_move_file_moves (pdf_path stage1_result)
                  settings.PROCESSED_DIR None s5 m5 Hpdf' Hmk Hmv)
        as (sz' & mz' & E' & Hfs & _).
      rewrite E in E'. injection E' as _ <- _.
      unfold moved_to. rewrite Hfs. congruence.
  - repeat run_head.
    match goal with
    | |- context [run w (_detect_and_save_table self ?p ?i) ?s ?m] =>
        pose proof (run_same_rows w (_detect_and_save_table self p i) s m
                      (PDFProcessorV2Facts.detect_and_save_table_no_rows
                         self p i)) as D6;
        destruct (PDFProcessorV2Facts.run_detect_and_save_table self w
                    p i s m)
          as (s6 & m6 & found & E6); rewrite E6 in *
    end.
    cbn [fst snd] in D6. unfold same_rows in D6.
    repeat (repeat run_head; cbn beta iota).
    match goal with
    | |- context [run w (FileHandler.move_file ?a ?b ?c) ?s ?m] =>
        destruct (run_move_file w a b c s m)
          as (sz & mz & r0 & E & Hdb & _ & Hr0);
        rewrite E
    end.
    repeat (repeat run_head; cbn beta iota). cbn [fst snd].
    do 3 eexists. split; [reflexivity|]. unfold stage2_shape. cbn.
    repeat split; auto.
    + apply Saved. congruence.
    + intros Habs. unfold fee_truthy in *. congruence.
Qed.

End Facts.
End StageMore.

Import PDFProcessorV2.

(** X5.  [process_stage1_ocr] always returns a [Stage1Result] for the
    PDF it was given, with the document id [extract_document_id] derives
    from the file name.  A Success carries no error, the text OCR
    returned, which is at least 100 characters long, and the fee
    pdfplumber found; a Failed or Stopped result carries the empty text,
    no fee, and an error message. *)
Theorem X5_stage1_result_shape {F} `{PyFloat F} {ExtractedData}
  (self : Processor F ExtractedData) (w : World) (pdf : Path)
  (stop_at : option nat) (m : Machine) :
  exists stop_at' m' r,
    run w (process_stage1_ocr self pdf) stop_at m = (stop_at', m', Return r)
    /\ pdf_path r = pdf
    /\ s1_document_id r = FileHandler.extract_document_id (path_name pdf)
    /\ match s1_status r with
       | Success =>
           s1_error r = None
           /\ (100 <= String.length (ocr_text r))%nat
           /\ get_full_text (services self) pdf = Return (ocr_text r)
           /\ extract (services self) pdf = Return (s1_registration_fee r)
       | _ =>
           ocr_text r = "" /\ s1_registration_fee r = None
           /\ s1_new_ocr_reg_fee r = None /\ is_Some (s1_error r)
       end.
Proof.
  destruct (StageMore.run_stage1_shape self w pdf stop_at m)
    as (stop_at' & m' & r & E & Hp & Hid & Hs).
  exists stop_at', m', r. split; [exact E|]. split; [exact Hp|].
  split; [exact Hid|].
  destruct (s1_status r); [|exact Hs|exact Hs].
  destruct Hs as (A & B & C & D & _). auto.
Qed.


(** X7.  A Failed result of [process_stage2_llm] says why, comes with no
    row changed, and the PDF was moved to the failed directory under its
    own name, provided it was there and neither [mkdir] nor [shutil.move]
    failed. *)
Theorem X7_stage2_failure_is_quarantined {F} `{PyFloat F} {ExtractedData}
  (self : Processor F ExtractedData) (w : World)
  (stage1_result : Stage1Result F) (stop_at stop_at' : option nat)
  (m m' : Machine) (r : ResultDict F) :
  run w (process_stage2_llm self stage1_result) stop_at m
  = (stop_at', m', Return r) ->
  res_status r = Failed ->
  pdf_path stage1_result ∈ fs m ->
  mkdir_fault w settings.FAILED_DIR = None ->
  move_fault w (pdf_path stage1_result)
    (path_join settings.FAILED_DIR (path_name (pdf_path stage1_result)))
  = None ->
  fs m' = {[path_join settings.FAILED_DIR
              (path_name (pdf_path stage1_result))]}
          ∪ fs m ∖ {[pdf_path stage1_result]}
  /\ db m' = db m
  /\ res_saved_to_db r = false
  /\ is_Some (res_error r).
Proof.
  intros E Hst Hin Hmk Hmv.
  destruct (StageMore.run_stage2_shape self w stage1_result stop_at m)
    as (s1 & m1 & r1 & E1 & _ & _ & Hrows & Hs).
  rewrite E in E1. injection E1 as <- <- <-.
  rewrite Hst in Hs. destruct Hs as (Hsaved & Herr & _ & Hmove & _).
  rewrite Hsaved in Hrows.
  split; [|auto]. apply Hmove. repeat split; assumption.
Qed.

(** A deed the model extracts nothing from. *)
Lemma X7_stage2_failure_is_quarantined_witness :
  let mute : Processor Z unit :=
    {| batch_processor := true;
       services :=
         {| extract := fun _ => Return (Some 5000);
            extract_from_ocr_text := fun _ => Return None;
            get_full_text := fun _ => Return Demo.long_text;
            pdf_to_images := fun _ => Return 1%nat;
            extract_structured_data := fun _ => Return None;
            validate_and_clean_data :=
              fun _ => Return (Demo.cleaned "Office" [] []);
            utcnow := 7%nat |};
       ENABLE_OCR_REG_FEE_EXTRACTION := false |} in
  let stage1_result : Stage1Result Z :=
    {| pdf_path := Scenarios.deed; s1_document_id := "D1";
       s1_registration_fee := Some 5000; s1_new_ocr_reg_fee := None;
       ocr_text := Demo.long_text; s1_status := Success;
       s1_error := None |} in
  exists stop_at' m' r,
    run Demo.calm (process_stage2_llm mute stage1_result) None
      (Demo.machine0 [Scenarios.deed]) = (stop_at', m', Return r)
    /\ res_error r = Some "LLM failed to extract structured data"
    /\ fs m' = {[path_join settings.FAILED_DIR "D1.pdf"]}
               ∪ fs (Demo.machine0 [Scenarios.deed]) ∖ {[Scenarios.deed]}.
Proof.
  intros mute stage1_result.
  pose proof (fun stop_at' m' r =>
                X7_stage2_failure_is_quarantined mute Demo.calm
                  stage1_result None stop_at'
                  (Demo.machine0 [Scenarios.deed]) m' r) as T.
  assert (V : match run Demo.calm (process_stage2_llm mute stage1_result)
                      None (Demo.machine0 [Scenarios.deed]) with
              | (_, _, Return r) => Some (res_status r, res_error r)
              | _ => None
              end
              = Some (Failed, Some "LLM failed to extract structured data"))
    by (vm_compute; reflexivity).
  destruct (run Demo.calm _ None _) as [[stop_at' m'] [r|e]];
    [|discriminate].
  injection V as Hst Herr. exists stop_at', m', r.
  split; [reflexivity|]. split; [exact Herr|].
  apply (T stop_at' m' r eq_refl Hst);
    [cbn; set_solver|reflexivity|reflexivity].
Defined.

(** X8.  A Success of [process_stage2_llm] means that the rows were saved
    (the result says so, and carries no error); and, the fee having been
    found in stage 1, that the PDF was moved to the processed directory
    under its own name, provided it was there and neither [mkdir] nor
    [shutil.move] failed. *)
Theorem X8_stage2_success_is_filed {F} `{PyFloat F} {ExtractedData}
  (self : Processor F ExtractedData) (w : World)
  (stage1_result : Stage1Result F) (stop_at stop_at' : option nat)
  (m m' : Machine) (r : ResultDict F) :
  run w (process_stage2_llm self stage1_result) stop_at m
  = (stop_at', m', Return r) ->
  res_status r = Success ->
  fee_truthy (s1_registration_fee stage1_result) = true ->
  pdf_path stage1_result ∈ fs m ->
  mkdir_fault w settings.PROCESSED_DIR = None ->
  move_fault w (pdf_path stage1_result)
    (path_join settings.PROCESSED_DIR (path_name (pdf_path stage1_result)))
  = None ->
  fs m' = {[path_join settings.PROCESSED_DIR
              (path_name (pdf_path stage1_result))]}
          ∪ fs m ∖ {[pdf_path stage1_result]}
  /\ res_saved_to_db r = true
  /\ res_llm_extracted r = true
  /\ res_error r = None
  /\ StageMore.saved self stage1_result m m'.
Proof.
  intros E Hst Hfee Hin Hmk Hmv.
  destruct (StageMore.run_stage2_shape self w stage1_result stop_at m)
    as (s1 & m1 & r1 & E1 & _ & _ & Hrows & Hs).
  rewrite E in E1. injection E1 as <- <- <-.
  rewrite Hst in Hs. destruct Hs as (Hsaved & Herr & Hmove).
  rewrite Hsaved in Hrows. destruct Hrows as [Hllm Hrows].
  split; [|auto]. apply Hmove; [exact Hfee|]. repeat split; assumption.
Qed.

Lemma X8_stage2_success_is_filed_witness :
  let stage1_result : Stage1Result Z :=
    {| pdf_path := Scenarios.deed; s1_document_id := "D1";
       s1_registration_fee := Some 5000; s1_new_ocr_reg_fee := None;
       ocr_text := Demo.long_text; s1_status := Success;
       s1_error := None |} in
  exists stop_at' m' r,
    run Demo.calm (process_stage2_llm Scenarios.readable stage1_result) None
      (Demo.machine0 [Scenarios.deed]) = (stop_at', m', Return r)
    /\ res_saved_to_db r = true
    /\ fs m' = {[path_join settings.PROCESSED_DIR "D1.pdf"]}
               ∪ fs (Demo.machine0 [Scenarios.deed]) ∖ {[Scenarios.deed]}.
Proof.
  intros stage1_result.
  pose proof (fun stop_at' m' r =>
                X8_stage2_success_is_filed Scenarios.readable Demo.calm
                  stage1_result None stop_at'
                  (Demo.machine0 [Scenarios.deed]) m' r) as T.
  assert (V : match run Demo.calm
                      (process_stage2_llm Scenarios.readable stage1_result)
                      None (Demo.machine0 [Scenarios.deed]) with
              | (_, _, Return r) => Some (res_status r)
              | _ => None
              end = Some Success) by (vm_compute; reflexivity).
  destruct (run Demo.calm _ None _) as [[stop_at' m'] [r|e]];
    [|discriminate].
  injection V as Hst. exists stop_at', m', r.
  split; [reflexivity|].
  destruct (T stop_at' m' r eq_refl Hst)
    as (Hfs & Hsaved & _); [reflexivity|cbn; set_solver|reflexivity
                            |reflexivity|].
  split; [exact Hsaved|exact Hfs].
Defined.

(** ** [_save_to_database]: the other documents *)

Module DatabaseMore.
Import PDFProcessorV2.

Section Rows.
Context {A : Type}.
Variables other pred : A -> bool.
Hypothesis apart : forall r, pred r = true -> other r = false.

Lemma filter_other_delete_where rows :
  List.filter other (delete_where pred rows) = List.filter other rows.
Proof.
  unfold delete_where. induction rows as [|r rest IH]; cbn; [reflexivity|].
  destruct (pred r) eqn:E; cbn.
  - rewrite (apart r E). exact IH.
  - destruct (other r); [f_equal|]; exact IH.
Qed.

Variable f : A -> A.
Hypothesis f_apart : forall r, pred r = true -> other (f r) = false.

Lemma filter_other_update_first rows :
  List.filter other (update_first pred f rows) = List.filter other rows.
Proof.
  induction rows as [|r rest IH]; cbn; [reflexivity|].
  destruct (pred r) eqn:E; cbn.
  - rewrite (apart r E), (f_apart r E). reflexivity.
  - destruct (other r); [f_equal|]; exact IH.
Qed.

End Rows.

Section Facts.
Context {F : Type} `{PyFloat F}.

Lemma eqb_apart (id id' x : string) :
  id' <> id -> String.eqb x id = true -> String.eqb x id' = false.
Proof.
  intros Hne E. apply String.eqb_eq in E. subst x.
  apply String.eqb_neq. congruence.
Qed.

Lemma filter_other_insert_buyers id id' key buyers :
  id' <> id ->
  List.filter (is_buyer_of id') (insert_buyers id key buyers) = [].
Proof.
  intros Hne. revert key.
  induction buyers as [|b rest IH]; intros key; cbn; [reflexivity|].
  unfold is_buyer_of at 1. cbn.
  rewrite (proj2 (String.eqb_neq id id')) by congruence. apply IH.
Qed.

Lemma filter_other_insert_sellers id id' key sellers :
  id' <> id ->
  List.filter (is_seller_of id') (insert_sellers id key sellers) = [].
Proof.
  intros Hne. revert key.
  induction sellers as [|b rest IH]; intros key; cbn; [reflexivity|].
  unfold is_seller_of at 1. cbn.
  rewrite (proj2 (String.eqb_neq id id')) by congruence. apply IH.
Qed.

(** The rows of document [id'] in the four tables. *)
Definition rows_of (id' : string) (d : DB)
  : list DocumentDetail * list PropertyDetail * list BuyerDetail
    * list SellerDetail :=
  (List.filter (is_document id') (document_details d),
   List.filter (is_property_of id') (property_details d),
   List.filter (is_buyer_of id') (buyer_details d),
   List.filter (is_seller_of id') (seller_details d)).

Lemma save_session_rows_of now id id' data (fee : option F) d :
  id' <> id ->
  rows_of id' (save_session now id data fee d) = rows_of id' d.
Proof.
  intros Hne. unfold rows_of.
  rewrite DatabaseFacts.save_session_document_details.
  assert (Hdocs :
    List.filter (is_document id')
      (save_document now id (cd_document_details data) (document_details d))
    = List.filter (is_document id') (document_details d)).
  { unfold save_document.
    destruct (first (is_document id) (document_details d)).
    - apply filter_other_update_first; intros r E;
        unfold is_document in *; cbn; eapply eqb_apart; eassumption.
    - rewrite List.filter_app. cbn. unfold is_document at 2. cbn.
      rewrite (proj2 (String.eqb_neq id id')) by congruence.
      apply app_nil_r. }
  rewrite Hdocs. unfold save_session.
  destruct (first (is_property_of id) (property_details d));
    cbn [property_details buyer_details seller_details];
    rewrite !List.filter_app, !filter_other_delete_where,
      filter_other_insert_buyers, filter_other_insert_sellers, !app_nil_r
      by (try assumption; intros r E;
          unfold is_buyer_of, is_seller_of in *;
          eapply eqb_apart; eassumption).
  - rewrite filter_other_update_first; [reflexivity| |];
      intros r E; unfold is_property_of in *; cbn;
      eapply eqb_apart; eassumption.
  - cbn. unfold is_property_of at 2. cbn.
    rewrite (proj2 (String.eqb_neq id id')) by congruence.
    rewrite app_nil_r. reflexivity.
Qed.

End Facts.
End DatabaseMore.

Import PDFProcessorV2.

(** X9.  [_save_to_database] for one document leaves the rows of every
    other document as they are, in all four tables, whether the commit
    goes through or fails. *)
Theorem X9_save_leaves_other_documents {F} `{PyFloat F} {ExtractedData}
  (self : Processor F ExtractedData) (w : World) (id id' : string)
  (data : CleanedData F) (fee : option F) (stop_at : option nat)
  (m : Machine) :
  id' <> id ->
  DatabaseMore.rows_of id'
    (db (snd (fst (run w (_save_to_database self id data fee) stop_at m))))
  = DatabaseMore.rows_of id' (db m).
Proof.
  intros Hne.
  destruct (PDFProcessorV2Facts.run_save_to_database self w id data fee
              stop_at m) as (stop_at' & m' & o & E & _ & _ & C).
  rewrite E. cbn [fst snd].
  destruct (commit_fault w (db m)); destruct C as [_ ->]; [reflexivity|].
  apply DatabaseMore.save_session_rows_of, Hne.
Qed.

Lemma X9_save_leaves_other_documents_witness :
  let data1 := Demo.cleaned "Office A" [Demo.party "B1"] [] in
  let data2 := Demo.cleaned "Office B" [Demo.party "B2"] [] in
  let m1 :=
    snd (fst (run Demo.calm
                (_save_to_database Scenarios.readable "D1" data1 None) None
                (Demo.machine0 []))) in
  let m2 :=
    snd (fst (run Demo.calm
                (_save_to_database Scenarios.readable "D2" data2 None) None
                m1)) in
  DatabaseMore.rows_of "D1" (db m2) = DatabaseMore.rows_of "D1" (db m1)
  /\ length (buyer_details (db m2)) = 2%nat.
Proof.
  intros data1 data2 m1 m2. split.
  - apply (X9_save_leaves_other_documents Scenarios.readable Demo.calm
             "D2" "D1" data2 None None m1). discriminate.
  - reflexivity.
Defined.

(** X10.  Every call of [_process_single_image] returns a result that
    the batch counts exactly once: never both as a success and as
    stopped, so that [processed] and the sum of [successful], [failed] and
    [stopped] each grow by one. *)
Theorem X10_vision_result_counts_once {F} `{PyFloat F} (w : World)
  (extract_registration_fee : Path -> outcome (option F))
  (image_path : Path) (stop_at : option nat) (m : Machine) :
  exists stop_at' m' r,
    run w (VisionBatchProcessor._process_single_image
             extract_registration_fee image_path) stop_at m
    = (stop_at', m', Return r)
    /\ VisionBatchProcessor.res_success r
       && VisionBatchProcessor.res_stopped r = false
    /\ forall st,
         let st' := VisionBatchProcessor.count_result r st in
         VisionBatchProcessor.processed st'
         = VisionBatchProcessor.processed st + 1
         /\ VisionBatchProcessor.successful st'
            + VisionBatchProcessor.failed st'
            + VisionBatchProcessor.stopped st'
            = VisionBatchProcessor.successful st
              + VisionBatchProcessor.failed st
              + VisionBatchProcessor.stopped st + 1
         /\ VisionBatchProcessor.total st' = VisionBatchProcessor.total st.
Proof.
  destruct (VisionFacts.process_single_image_stopped w
              extract_registration_fee image_path stop_at m)
    as (stop_at' & m' & r & E & _ & Hs).
  exists stop_at', m', r. split; [exact E|].
  assert (Hx : VisionBatchProcessor.res_success r
               && VisionBatchProcessor.res_stopped r = false).
  { destruct (VisionBatchProcessor.res_stopped r) eqn:St.
    - destruct (Hs eq_refl) as [-> _]. reflexivity.
    - apply andb_false_r. }
  split; [exact Hx|]. intros st. cbn.
  destruct (VisionBatchProcessor.res_success r),
    (VisionBatchProcessor.res_stopped r); cbn in *;
    try discriminate; repeat split; lia.
Qed.

(** ** File names and document ids *)

Module NameFacts.

Lemma app_nil (b : string) : "" +:+ b = b.
Proof. reflexivity. Qed.

Lemma app_cons (x : ascii) (a b : string) :
  String x a +:+ b = String x (a +:+ b).
Proof. reflexivity. Qed.

Lemma length_app (a b : string) :
  String.length (a +:+ b) = (String.length a + String.length b)%nat.
Proof.
  induction a as [|x a IH]; [reflexivity|].
  rewrite app_cons. cbn. rewrite IH. reflexivity.
Qed.

Lemma app_assoc (a b c : string) : (a +:+ b) +:+ c = a +:+ (b +:+ c).
Proof.
  induction a as [|x a IH]; [reflexivity|].
  rewrite !app_cons, IH. reflexivity.
Qed.

Lemma app_empty_r (a : string) : a +:+ "" = a.
Proof.
  induction a as [|x a IH]; [reflexivity|]. rewrite app_cons, IH. reflexivity.
Qed.

Lemma substring_all (a : string) : String.substring 0 (String.length a) a = a.
Proof. induction a as [|x a IH]; cbn; [reflexivity|]. rewrite IH. reflexivity. Qed.

(** [(a + b)[:len(a)] == a] *)
Lemma substring_app_l (a b : string) :
  String.substring 0 (String.length a) (a +:+ b) = a.
Proof.
  induction a as [|x a IH].
  - rewrite app_nil. destruct b; reflexivity.
  - rewrite app_cons. cbn. rewrite IH. reflexivity.
Qed.

(** [(a + b)[len(a):len(a)+n] == b[:n]] *)
Lemma substring_app_r (a b : string) (n : nat) :
  String.substring (String.length a) n (a +:+ b) = String.substring 0 n b.
Proof.
  induction a as [|x a IH]; [reflexivity|].
  rewrite app_cons. cbn. exact IH.
Qed.

(** [rfind] looks in the right part first. *)
Lemma rfind_char_app (c : ascii) (a b : string) :
  PyStr.rfind_char c (a +:+ b)
  = match PyStr.rfind_char c b with
    | Some i => Some (String.length a + i)%nat
    | None => PyStr.rfind_char c a
    end.
Proof.
  induction a as [|x a IH].
  - rewrite app_nil. destruct (PyStr.rfind_char c b); reflexivity.
  - rewrite app_cons. cbn. rewrite IH.
    destruct (PyStr.rfind_char c b); reflexivity.
Qed.

(** [PurePath.stem] cuts a last suffix off a name that does not start
    with the dot. *)
Lemma stem_suffix (base ext : string) :
  base <> "" -> ext <> "" -> PyStr.rfind_char "." ext = None ->
  PyStr.stem (base +:+ "." +:+ ext) = base.
Proof.
  intros Hb He Hdot. unfold PyStr.stem.
  rewrite rfind_char_app, app_cons, app_nil. cbn [PyStr.rfind_char].
  rewrite Hdot. cbn [Ascii.eqb Bool.eqb]. rewrite Nat.add_0_r.
  rewrite length_app. cbn [String.length].
  assert (0 < String.length base)%nat
    by (destruct base; [contradiction|cbn; lia]).
  assert (0 < String.length ext)%nat
    by (destruct ext; [contradiction|cbn; lia]).
  destruct (0 <? String.length base)%nat eqn:E1;
    [|apply Nat.ltb_ge in E1; lia].
  destruct (String.length base
            <? String.length base + S (String.length ext) - 1)%nat eqn:E2;
    [|apply Nat.ltb_ge in E2; lia].
  cbn [andb]. apply substring_app_l.
Qed.

Lemma endswith_app (a suffix : string) :
  PyStr.endswith (a +:+ suffix) suffix = true.
Proof.
  unfold PyStr.endswith. rewrite length_app.
  replace (String.length a + String.length suffix - String.length suffix)%nat
    with (String.length a) by lia.
  rewrite substring_app_r, substring_all, String.eqb_refl.
  destruct (String.length suffix <=? String.length a + String.length suffix)%nat
    eqn:E; [reflexivity|apply Nat.leb_gt in E; lia].
Qed.

Lemma drop_last_app (a suffix : string) :
  PyStr.drop_last (String.length suffix) (a +:+ suffix) = a.
Proof.
  unfold PyStr.drop_last. rewrite length_app.
  replace (String.length a + String.length suffix - String.length suffix)%nat
    with (String.length a) by lia.
  apply substring_app_l.
Qed.

End NameFacts.

(** X11.  [FileHandler.extract_document_id] recovers the document id from
    the name of its PDF: from [<id>_ocred.pdf] for every id, and from
    [<id>.pdf] for every non-empty id that does not itself end in
    [_ocred]. *)
Theorem X11_extract_document_id_inverts_naming (id : string) :
  FileHandler.extract_document_id (id +:+ "_ocred.pdf") = id
  /\ (id <> "" -> PyStr.endswith id "_ocred" = false ->
      FileHandler.extract_document_id (id +:+ ".pdf") = id).
Proof.
  split.
  - unfold FileHandler.extract_document_id.
    change (id +:+ "_ocred.pdf") with (id +:+ ("_ocred" +:+ "." +:+ "pdf")).
    rewrite <- NameFacts.app_assoc.
    rewrite NameFacts.stem_suffix;
      [|destruct id; discriminate|discriminate|reflexivity].
    rewrite NameFacts.endswith_app.
    apply (NameFacts.drop_last_app id "_ocred").
  - intros Hne Hend. unfold FileHandler.extract_document_id.
    change (id +:+ ".pdf") with (id +:+ "." +:+ "pdf").
    rewrite NameFacts.stem_suffix;
      [|exact Hne|discriminate|reflexivity].
    rewrite Hend. reflexivity.
Qed.

Lemma X11_extract_document_id_inverts_naming_witness :
  FileHandler.extract_document_id ("1234_2021" +:+ ".pdf") = "1234_2021".
Proof.
  apply (proj2 (X11_extract_document_id_inverts_naming "1234_2021"));
    [discriminate|reflexivity].
Defined.

(** ** The id the vision batch derives from an image name *)

Module DeriveFacts.
Import NameFacts.

(** [sep in s] *)
Definition occurs (sep s : string) : Prop :=
  exists a b, s = a +:+ sep +:+ b.

Lemma prefix_app (a s : string) :
  String.prefix a s = true -> exists b, s = a +:+ b.
Proof.
  revert s. induction a as [|x a IH]; intros s Hp.
  - exists s. reflexivity.
  - destruct s as [|y s]; [discriminate|]. cbn in Hp.
    destruct (ascii_dec x y) as [->|]; [|discriminate].
    destruct (IH s Hp) as [b ->]. exists b. reflexivity.
Qed.

Lemma rev_app_app (cur acc rest : string) :
  String.rev_app cur acc +:+ rest = String.rev_app cur (acc +:+ rest).
Proof.
  revert acc. induction cur as [|x cur IH]; intros acc; [reflexivity|].
  cbn. rewrite IH. reflexivity.
Qed.

Lemma rev_cons_app (c : ascii) (cur rest : string) :
  String.rev (String c cur) +:+ rest = String.rev cur +:+ String c rest.
Proof. unfold String.rev. cbn. rewrite !rev_app_app. reflexivity. Qed.

(** Without the separator in it, a string splits into itself. *)
Lemma split_go_whole (sep cur s : string) :
  ~ occurs sep s ->
  PyStr.split_go sep 0 cur s = [String.rev cur +:+ s].
Proof.
  revert cur. induction s as [|c s IH]; intros cur Hno.
  - cbn. rewrite app_empty_r. reflexivity.
  - cbn [PyStr.split_go].
    destruct (String.prefix sep (String c s)) eqn:Hp.
    + exfalso. apply Hno. apply prefix_app in Hp as [b Hb].
      exists "", b. exact Hb.
    + rewrite IH, rev_cons_app; [reflexivity|].
      intros (a & b & ->). apply Hno. exists (String c a), b. reflexivity.
Qed.

Lemma split_whole (s sep : string) :
  ~ occurs sep s -> PyStr.split s sep = [s].
Proof. intros Hno. unfold PyStr.split. rewrite split_go_whole by exact Hno. reflexivity. Qed.

(** Characters being skipped are dropped. *)
Lemma replace_go_skip (old new s : string) :
  PyStr.replace_go old new (String.length s) s = "".
Proof. induction s as [|c s IH]; [reflexivity|exact IH]. Qed.

(** [old] at the end of the string and nowhere before. *)
Definition only_at_end (old a : string) : Prop :=
  forall x y, a +:+ old = x +:+ old +:+ y -> y = "".

Lemma replace_go_at_end (old new a : string) (c : ascii) (rest : string) :
  old = String c rest ->
  only_at_end old a ->
  PyStr.replace_go old new 0 (a +:+ old) = a +:+ new.
Proof.
  intros Hold. induction a as [|x a IH]; intros Honly.
  - rewrite !app_nil. subst old. cbn [PyStr.replace_go].
    assert (Hp : String.prefix (String c rest) (String c rest) = true).
    { clear. generalize (String c rest). intros s.
      induction s as [|y s IH]; [reflexivity|]. cbn.
      destruct (ascii_dec y y); [exact IH|contradiction]. }
    rewrite Hp.
    replace (String.length (String c rest) - 1)%nat
      with (String.length rest) by (cbn; lia).
    rewrite replace_go_skip. apply app_empty_r.
  - rewrite !app_cons. cbn [PyStr.replace_go].
    rewrite <- app_cons.
    destruct (String.prefix old (String x a +:+ old)) eqn:Hp.
    + exfalso. apply prefix_app in Hp as [b Hb].
      assert (Hy : b = "") by (apply (Honly "" b); exact Hb).
      subst b. rewrite app_empty_r in Hb.
      apply (f_equal String.length) in Hb. rewrite length_app in Hb.
      cbn in Hb. lia.
    + rewrite IH; [reflexivity|].
      intros p q Hpq. apply (Honly (String x p) q).
      rewrite !app_cons, Hpq. reflexivity.
Qed.

Lemma app_eq_app (a b c d : string) :
  a +:+ b = c +:+ d ->
  (String.length c <= String.length a)%nat ->
  exists z, a = c +:+ z /\ d = z +:+ b.
Proof.
  revert a. induction c as [|x c IH]; intros a E Hlen.
  - exists a. rewrite app_nil in E. auto.
  - destruct a as [|y a]; [cbn in Hlen; lia|].
    rewrite !app_cons in E. injection E as -> E.
    destruct (IH a E) as (z & -> & ->); [cbn in Hlen; lia|].
    exists z. auto.
Qed.

(** [_table] does not overlap itself: after an id that does not contain
    it, it occurs at the end only. *)
Lemma table_only_at_end (id : string) :
  ~ occurs "_table" id -> only_at_end "_table" id.
Proof.
  intros Hno x y E.
  assert (Hlen : (String.length x <= String.length id)%nat).
  { apply (f_equal String.length) in E.
    rewrite !length_app in E. lia. }
  destruct (app_eq_app _ _ _ _ E Hlen) as (z & -> & Hz).
  destruct z as [|z1 [|z2 [|z3 [|z4 [|z5 [|z6 z]]]]]];
    cbv [append] in Hz; try discriminate Hz.
  - destruct y; [reflexivity|discriminate Hz].
  - exfalso. apply Hno. injection Hz as <- <- <- <- <- <- _.
    exists x, z. reflexivity.
Qed.

(** [sep in s], computed. *)
Fixpoint contains (sep s : string) : bool :=
  String.prefix sep s
  || match s with
     | EmptyString => false
     | String _ rest => contains sep rest
     end.

Lemma prefix_of_app (a b : string) : String.prefix a (a +:+ b) = true.
Proof.
  induction a as [|x a IH]; [destruct b; reflexivity|].
  rewrite app_cons. cbn. destruct (ascii_dec x x); [exact IH|contradiction].
Qed.

Lemma occurs_contains (sep s : string) :
  occurs sep s -> contains sep s = true.
Proof.
  intros (a & b & ->). induction a as [|x a IH].
  - rewrite app_nil. destruct (sep +:+ b) eqn:E; cbn [contains];
      rewrite <- E, prefix_of_app; reflexivity.
  - rewrite app_cons. cbn [contains]. rewrite IH. apply orb_true_r.
Qed.

Lemma not_contains (sep s : string) :
  contains sep s = false -> ~ occurs sep s.
Proof. intros E Ho. apply occurs_contains in Ho. congruence. Qed.

End DeriveFacts.

(** X12.  The table image [_detect_and_save_table] writes for a document
    is resolved by the vision batch to that same document: from
    [<id>_table.png], [derive_document_id] answers [id], for every id
    that does not contain [_table] and whose image stem [<id>_table] does
    not contain [_page_]. *)
Theorem X12_table_image_names_its_document (id : string) :
  DeriveFacts.contains "_table" id = false ->
  DeriveFacts.contains "_page_" (id +:+ "_table") = false ->
  VisionBatchProcessor.derive_document_id
    (PDFProcessorV2.table_image_path id) = id.
Proof.
  intros Htable Hpage.
  apply DeriveFacts.not_contains in Htable, Hpage.
  unfold VisionBatchProcessor.derive_document_id,
    PDFProcessorV2.table_image_path, path_stem, path_join. cbn [snd].
  assert (Hstem : PyStr.stem (id +:+ "_table.png") = id +:+ "_table").
  { change (id +:+ "_table.png") with (id +:+ ("_table" +:+ "." +:+ "png")).
    rewrite <- NameFacts.app_assoc.
    apply NameFacts.stem_suffix;
      [destruct id; discriminate|discriminate|reflexivity]. }
  rewrite Hstem, (DeriveFacts.split_whole _ _ Hpage). cbn [length Nat.eqb negb].
  unfold PyStr.replace.
  rewrite (DeriveFacts.replace_go_at_end "_table" "" id "_" "table" eq_refl
             (DeriveFacts.table_only_at_end id Htable)).
  apply NameFacts.app_empty_r.
Qed.

Lemma X12_table_image_names_its_document_witness :
  VisionBatchProcessor.derive_document_id
    (PDFProcessorV2.table_image_path "1234_2021") = "1234_2021".
Proof.
  apply (X12_table_image_names_its_document "1234_2021"); reflexivity.
Defined.

(** ** [_detect_and_save_table]: what it leaves on disk *)

Module DetectMore.
Import PDFProcessorV2.

Section Facts.
Variable w : World.

(** The detector finds a table on this page image. *)
Definition hit (image : Path) : bool :=
  match yolo_detect w image with
  | Return true => true
  | _ => false
  end.

(** Saving and deleting images works, and the detector answers. *)
Definition imaging_works : Prop :=
  (forall p, save_fault w p = None)
  /\ (forall p, remove_fault w p = None)
  /\ (forall p, exists b, yolo_detect w p = Return b).

Lemma temp_is_not_table id page_num :
  temp_image_path id page_num <> table_image_path id.
Proof.
  unfold temp_image_path, table_image_path, path_join. intros E.
  injection E as E. apply (f_equal String.length) in E.
  rewrite !NameFacts.length_app in E. cbn in E. lia.
Qed.

Lemma run_detect_pages id page_nums stop_at m :
  imaging_works ->
  (forall page_num, temp_image_path id page_num ∉ fs m) ->
  exists stop_at' m',
    run w (detect_pages id page_nums) stop_at m
    = (stop_at', m',
       Return (existsb (fun k => hit (temp_image_path id k)) page_nums))
    /\ db m' = db m
    /\ fs m' = if existsb (fun k => hit (temp_image_path id k)) page_nums
              then {[table_image_path id]} ∪ fs m
              else fs m.
Proof.
  intros (Hsave & Hremove & Hyolo).
  revert stop_at m.
  induction page_nums as [|page_num rest IH]; intros stop_at m Hclean.
  { do 2 eexists. split; [reflexivity|]. auto. }
  cbn [detect_pages existsb]. cbv zeta.
  unfold image_save, detect_and_crop.
  set (temp := temp_image_path id page_num).
  set (table := table_image_path id).
  assert (Hne : temp <> table) by apply temp_is_not_table.
  rewrite run_bind, VisionFacts.run_perform. cbn [fst snd do_action].
  rewrite Hsave. cbn [fst snd].
  pose proof (tick_fs stop_at m) as F0. pose proof (tick_db stop_at m) as D0.
  destruct (tick stop_at m) as [s0 m0]. cbn [fst snd] in *.
  rewrite run_bind, VisionFacts.run_perform. cbn [fst snd do_action set_fs].
  match goal with
  | |- context [tick ?s ?m] =>
      pose proof (tick_fs s m) as F1; pose proof (tick_db s m) as D1;
      destruct (tick s m) as [s1 m1]
  end. cbn [fst snd fs db set_fs] in *.
  unfold hit. fold temp.
  destruct (Hyolo temp) as [cropped Hc]. rewrite Hc.
  assert (Step : forall s2 m2,
    fs m2 = (if cropped then {[table]} ∪ ({[temp]} ∪ fs m)
             else {[temp]} ∪ fs m) ->
    db m2 = db m ->
    exists stop_at' m',
      run w
        (bind (path_exists temp)
           (fun temp_exists =>
              bind (if temp_exists then os_remove temp else Ret tt)
                (fun _ =>
                   if cropped then Ret true else detect_pages id rest)))
        s2 m2
      = (stop_at', m',
         Return (cropped
                 || existsb (fun k => hit (temp_image_path id k)) rest))
      /\ db m' = db m
      /\ fs m' = if cropped
                    || existsb (fun k => hit (temp_image_path id k)) rest
                then {[table]} ∪ fs m
                else fs m).
  { intros s2 m2 F2 D2.
    rewrite run_bind, run_path_exists.
    pose proof (tick_fs s2 m2) as F3. pose proof (tick_db s2 m2) as D3.
    destruct (tick s2 m2) as [s3 m3]. cbn [fst snd] in *.
    assert (Hin : temp ∈ fs m3)
      by (rewrite F3, F2; destruct cropped; set_solver).
    destruct (bool_decide (temp ∈ fs m3)) eqn:Hb;
      [|apply bool_decide_eq_false in Hb; contradiction].
    unfold os_remove.
    rewrite run_bind, VisionFacts.run_perform. cbn [fst snd do_action].
    pose proof (tick_fs s3 m3) as F4. pose proof (tick_db s3 m3) as D4.
    destruct (tick s3 m3) as [s4 m4]. cbn [fst snd] in *.
    assert (Hin4 : temp ∈ fs m4) by (rewrite F4; exact Hin).
    destruct (bool_decide (temp ∈ fs m4)) eqn:Hb4;
      [|apply bool_decide_eq_false in Hb4; contradiction].
    rewrite Hremove. cbn [fst snd].
    assert (Hfs : fs (set_fs (fs m4 ∖ {[temp]}) m4)
                  = if cropped then {[table]} ∪ fs m else fs m).
    { cbn. rewrite F4, F3, F2. specialize (Hclean page_num). fold temp in Hclean.
      destruct cropped; set_solver. }
    destruct cropped; cbn [orb].
    - do 2 eexists. split; [reflexivity|]. split; [|exact Hfs].
      cbn. congruence.
    - destruct (IH s4 (set_fs (fs m4 ∖ {[temp]}) m4))
        as (s5 & m5 & E5 & D5 & F5).
      { intros k. rewrite Hfs. apply Hclean. }
      rewrite E5. do 2 eexists. split; [reflexivity|].
      split; [rewrite D5; cbn; congruence|]. rewrite F5, Hfs. reflexivity. }
  destruct cropped; cbn [fst snd].
  - apply Step; cbn; [rewrite F1; cbn; rewrite F0; reflexivity|congruence].
  - apply Step; cbn; [rewrite F1; cbn; rewrite F0; reflexivity|congruence].
Qed.

End Facts.
End DetectMore.

Import PDFProcessorV2.

(** X13.  [_detect_and_save_table], when saving and deleting images works
    and the detector answers for every page: it answers whether the
    detector found a table on some page, leaves the rows alone, removes
    every temporary page image it wrote, and adds to the files at most the
    table image [<id>_table.png], exactly when it answers [True]. *)
Theorem X13_table_detection_cleans_up {F ExtractedData}
  (self : Processor F ExtractedData) (w : World) (pdf : Path) (id : string)
  (images : nat) (stop_at : option nat) (m : Machine) :
  pdf_to_images (services self) pdf = Return images ->
  (forall p, save_fault w p = None) ->
  (forall p, remove_fault w p = None) ->
  (forall p, exists b, yolo_detect w p = Return b) ->
  (forall page_num, temp_image_path id page_num ∉ fs m) ->
  let found :=
    existsb (fun page_num => DetectMore.hit w (temp_image_path id page_num))
      (seq 1 images) in
  exists stop_at' m',
    run w (_detect_and_save_table self pdf id) stop_at m
    = (stop_at', m', Return found)
    /\ db m' = db m
    /\ fs m' = if found then {[table_image_path id]} ∪ fs m else fs m.
Proof.
  intros Himages Hsave Hremove Hyolo Hclean found.
  unfold _detect_and_save_table.
  rewrite run_try_except, run_bind, run_call, Himages.
  destruct (DetectMore.run_detect_pages w id (seq 1 images) stop_at m)
    as (stop_at' & m' & E & Hdb & Hfs); [repeat split; assumption|exact Hclean|].
  rewrite E. eauto.
Qed.

(** Three pages, a table on the second. *)
Lemma X13_table_detection_cleans_up_witness :
  let w :=
    {| mkdir_fault := fun _ => None; move_fault := fun _ _ => None;
       remove_fault := fun _ => None; save_fault := fun _ => None;
       commit_fault := fun _ => None; db_context_fault := fun _ => None;
       yolo_detect :=
         fun image =>
           Return (bool_decide (image = temp_image_path "D1" 2)) |} in
  let three_pages : Processor Z unit :=
    {| batch_processor := true;
       services :=
         {| extract := fun _ => Return None;
            extract_from_ocr_text := fun _ => Return None;
            get_full_text := fun _ => Return Demo.long_text;
            pdf_to_images := fun _ => Return 3%nat;
            extract_structured_data := fun _ => Return (Some tt);
            validate_and_clean_data :=
              fun _ => Return (Demo.cleaned "Office" [] []);
            utcnow := 7%nat |};
       ENABLE_OCR_REG_FEE_EXTRACTION := false |} in
  let m := Demo.machine0 [Scenarios.deed] in
  exists stop_at' m',
    run w (_detect_and_save_table three_pages Scenarios.deed "D1") None m
    = (stop_at', m', Return true)
    /\ fs m' = {[table_image_path "D1"]} ∪ fs m.
Proof.
  intros w three_pages m.
  destruct (X13_table_detection_cleans_up three_pages w Scenarios.deed "D1"
              3 None m eq_refl)
    as (stop_at' & m' & E & _ & Hfs).
  - reflexivity.
  - reflexivity.
  - intros p. eexists. reflexivity.
  - intros page_num Hin. cbn in Hin.
    apply elem_of_union in Hin as [Hin|Hin]; [|set_solver].
    apply elem_of_singleton in Hin. discriminate Hin.
  - exists stop_at', m'. split; [exact E|exact Hfs].
Defined.

(** ** [validation_service.py]: the regular expressions on cleaned strings *)

Module ValidationFacts.
Import ValidationService.

Section Chars.
Context {C : Type} `{EqDecision C}.
Variables space digit is_AZ is_09 : C -> bool.
Variables hyphen newline : C.

(** What is used of Python's characters: a line feed is white space, and
    a decimal digit is neither white space nor the hyphen. *)

Hypothesis newline_is_space : space newline = true.
Hypothesis digit_is_plain :
  forall c, digit c = true -> space c = false /\ c <> hyphen.

Lemma last_filter (keep : C -> bool) (s : list C) (c : C) :
  last (List.filter keep s) = Some c -> keep c = true.
Proof.
  intros Hlast. apply last_Some in Hlast as [front Hfront].
  assert (Hin : In c (List.filter keep s)).
  { rewrite Hfront. apply in_or_app. right. left. reflexivity. }
  apply filter_In in Hin as [_ Hkeep]. exact Hkeep.
Qed.

(** Once the white space is gone, [$] can only match at the very end. *)
Lemma at_end_filter (body : list C -> bool) (keep : C -> bool) (s : list C) :
  keep newline = false ->
  at_end newline body (List.filter keep s) = body (List.filter keep s).
Proof.
  intros Hnl. unfold at_end.
  destruct (last (List.filter keep s)) as [c|] eqn:Hlast.
  - apply last_filter in Hlast.
    case_bool_decide as Hc; [congruence|].
    cbn. apply orb_false_r.
  - apply orb_false_r.
Qed.

Lemma filter_all (keep : C -> bool) (s : list C) :
  forallb keep s = true -> List.filter keep s = s.
Proof.
  induction s as [|c s IH]; cbn; [reflexivity|].
  intros [Hc Hs]%andb_true_iff. rewrite Hc, (IH Hs). reflexivity.
Qed.

Lemma forallb_impl (f g : C -> bool) (s : list C) :
  (forall c, f c = true -> g c = true) ->
  forallb f s = true -> forallb g s = true.
Proof.
  intros Hfg. rewrite !forallb_forall. intros Hf c Hc. apply Hfg, Hf, Hc.
Qed.

Lemma at_end_drop_separators (body : list C -> bool) (s : list C) :
  at_end newline body (drop_separators space hyphen s) = body (drop_separators space hyphen s).
Proof.
  apply at_end_filter. rewrite newline_is_space. reflexivity.
Qed.

Lemma at_end_drop_spaces (body : list C -> bool) (s : list C) :
  at_end newline body (drop_spaces space s) = body (drop_spaces space s).
Proof.
  apply at_end_filter. rewrite newline_is_space. reflexivity.
Qed.

Lemma digits_nonempty (n : nat) (s : list C) :
  digits digit (S n) s = true -> exists c rest, s = c :: rest.
Proof.
  unfold digits. intros [Hlen _]%andb_true_iff. apply Nat.eqb_eq in Hlen.
  destruct s as [|c rest]; [discriminate|eauto].
Qed.

Lemma drop_separators_digits (s : list C) :
  forallb digit s = true -> drop_separators space hyphen s = s.
Proof.
  intros Hs. apply filter_all. revert Hs. apply forallb_impl.
  intros c [Hsp Hhy]%digit_is_plain. rewrite Hsp.
  case_bool_decide; [contradiction|reflexivity].
Qed.

Lemma drop_spaces_digits (s : list C) :
  forallb digit s = true -> drop_spaces space s = s.
Proof.
  intros Hs. apply filter_all. revert Hs. apply forallb_impl.
  intros c [Hsp _]%digit_is_plain. rewrite Hsp. reflexivity.
Qed.

Lemma head_lstrip (s : list C) (c : C) :
  head (lstrip space s) = Some c -> space c = false.
Proof.
  induction s as [|c0 s IH]; cbn; [discriminate|].
  destruct (space c0) eqn:Hc0; [exact IH|].
  cbn. intros [= <-]. exact Hc0.
Qed.

Lemma last_strip (s : list C) (c : C) :
  last (strip space s) = Some c -> space c = false.
Proof.
  unfold strip. destruct (lstrip space (rev (lstrip space s))) as [|c1 l] eqn:Hl.
  - discriminate.
  - cbn [rev]. rewrite last_snoc. intros [= <-].
    apply (head_lstrip (rev (lstrip space s))). rewrite Hl. reflexivity.
Qed.

Lemma at_end_strip (body : list C -> bool) (s : list C) :
  at_end newline body (strip space s) = body (strip space s).
Proof.
  unfold at_end. destruct (last (strip space s)) as [c|] eqn:Hlast.
  - apply last_strip in Hlast.
    case_bool_decide as Hc; [congruence|].
    cbn. apply orb_false_r.
  - apply orb_false_r.
Qed.

Lemma lstrip_plain (s : list C) :
  forallb (fun c => negb (space c)) s = true -> lstrip space s = s.
Proof.
  destruct s as [|c s]; cbn; [reflexivity|].
  intros [Hc _]%andb_true_iff. apply negb_true_iff in Hc.
  rewrite Hc. reflexivity.
Qed.

Lemma strip_plain (s : list C) :
  forallb (fun c => negb (space c)) s = true -> strip space s = s.
Proof.
  intros Hs. unfold strip. rewrite (lstrip_plain _ Hs).
  rewrite lstrip_plain; [apply rev_involutive|].
  rewrite forallb_forall in *. intros c Hc. apply Hs, in_rev, Hc.
Qed.

Lemma pan_shape_chars (s : list C) :
  pan_shape is_AZ is_09 s = true ->
  length s = 10%nat /\ forallb (fun c => is_AZ c || is_09 c) s = true.
Proof.
  unfold pan_shape.
  intros [[[Hlen H5]%andb_true_iff H4]%andb_true_iff H1]%andb_true_iff.
  apply Nat.eqb_eq in Hlen. split; [exact Hlen|].
  do 10 (destruct s as [|? s]; [discriminate|]).
  destruct s; [|discriminate].
  cbn in *.
  repeat match goal with
         | H : _ && _ = true |- _ => apply andb_true_iff in H as [? ?]
         end.
  repeat match goal with
         | H : ?f ?c = true |- _ => rewrite H; clear H
         end.
  rewrite ?orb_true_r. reflexivity.
Qed.

End Chars.
End ValidationFacts.

Import ValidationService ValidationFacts.

(** ** What the cleaners of [validation_service.py] return *)

Section Cleaners.
Context {C : Type} `{EqDecision C}.
Variables space digit is_AZ is_09 : C -> bool.
Variables hyphen newline : C.
Variable upper : list C -> list C.

(** The two character facts every Python [str] satisfies: a line feed is
    white space, and a decimal digit is neither white space nor the
    hyphen. *)

Hypothesis newline_is_space : space newline = true.
Hypothesis digit_is_plain :
  forall c, digit c = true -> space c = false /\ c <> hyphen.

(** ** X14 -- [clean_aadhaar] returns twelve digits and nothing else:
    the value has the separators of the input removed, has exactly twelve
    characters, all of them digits (the line feed that [$] would allow
    never survives the substitution), passes [validate_aadhaar], as the
    input did, and is left as it is when cleaned again. *)
Theorem X14_clean_aadhaar_gives_twelve_digits
    (aadhaar : option (list C)) (cleaned : list C) :
  clean_aadhaar space digit hyphen newline aadhaar = Some cleaned ->
  (exists raw,
      aadhaar = Some raw /\ cleaned = drop_separators space hyphen raw)
  /\ length cleaned = 12%nat
  /\ forallb digit cleaned = true
  /\ validate_aadhaar space digit hyphen newline aadhaar = true
  /\ validate_aadhaar space digit hyphen newline (Some cleaned) = true
  /\ clean_aadhaar space digit hyphen newline (Some cleaned) = Some cleaned.
Proof.
  intros Hclean. unfold clean_aadhaar in Hclean.
  destruct aadhaar as [[|c0 raw]|]; try discriminate.
  cbv zeta in Hclean.
  assert (Hvalid :
            validate_aadhaar space digit hyphen newline (Some (c0 :: raw))
            = true).
  { change (at_end newline (digits digit 12)
              (drop_separators space hyphen (c0 :: raw)) = true).
    destruct (at_end newline (digits digit 12)
                (drop_separators space hyphen (c0 :: raw)));
      [reflexivity|discriminate]. }
  remember (drop_separators space hyphen (c0 :: raw)) as s eqn:Hs.
  destruct (at_end newline (digits digit 12) s) eqn:Hmatch; [|discriminate].
  injection Hclean as <-.
  pose proof Hmatch as Hdigits.
  rewrite Hs, (at_end_drop_separators _ hyphen _ newline_is_space), <- Hs
    in Hdigits.
  pose proof Hdigits as [Hlen Hall]%andb_true_iff.
  apply Nat.eqb_eq in Hlen.
  pose proof (drop_separators_digits _ _ _ digit_is_plain _ Hall) as Hfix.
  assert (Hagain : at_end newline (digits digit 12)
                     (drop_separators space hyphen s) = true).
  { rewrite Hfix. exact Hmatch. }
  split; [exists (c0 :: raw); split; [reflexivity|exact Hs]|].
  split; [exact Hlen|]. split; [exact Hall|]. split; [exact Hvalid|].
  destruct s as [|c rest]; [discriminate|].
  split; [exact Hagain|].
  unfold clean_aadhaar. cbv zeta. rewrite Hagain, Hfix. reflexivity.
Qed.

(** ** X15 -- [clean_pincode] returns six digits and nothing else: the
    value is the input without its white space, has exactly six
    characters, all of them digits, passes [validate_pincode], as the
    input did, and is left as it is when cleaned again. *)
Theorem X15_clean_pincode_gives_six_digits
    (pincode : option (list C)) (cleaned : list C) :
  clean_pincode space digit newline pincode = Some cleaned ->
  (exists raw, pincode = Some raw /\ cleaned = drop_spaces space raw)
  /\ length cleaned = 6%nat
  /\ forallb digit cleaned = true
  /\ validate_pincode space digit newline pincode = true
  /\ validate_pincode space digit newline (Some cleaned) = true
  /\ clean_pincode space digit newline (Some cleaned) = Some cleaned.
Proof.
  intros Hclean. unfold clean_pincode in Hclean.
  destruct pincode as [[|c0 raw]|]; try discriminate.
  cbv zeta in Hclean.
  assert (Hvalid :
            validate_pincode space digit newline (Some (c0 :: raw)) = true).
  { change (at_end newline (digits digit 6)
              (drop_spaces space (c0 :: raw)) = true).
    destruct (at_end newline (digits digit 6)
                (drop_spaces space (c0 :: raw)));
      [reflexivity|discriminate]. }
  remember (drop_spaces space (c0 :: raw)) as s eqn:Hs.
  destruct (at_end newline (digits digit 6) s) eqn:Hmatch; [|discriminate].
  injection Hclean as <-.
  pose proof Hmatch as Hdigits.
  rewrite Hs, (at_end_drop_spaces _ _ newline_is_space), <- Hs in Hdigits.
  pose proof Hdigits as [Hlen Hall]%andb_true_iff.
  apply Nat.eqb_eq in Hlen.
  pose proof (drop_spaces_digits _ _ _ digit_is_plain _ Hall) as Hfix.
  assert (Hagain : at_end newline (digits digit 6) (drop_spaces space s)
                   = true).
  { rewrite Hfix. exact Hmatch. }
  split; [exists (c0 :: raw); split; [reflexivity|exact Hs]|].
  split; [exact Hlen|]. split; [exact Hall|]. split; [exact Hvalid|].
  destruct s as [|c rest]; [discriminate|].
  split; [exact Hagain|].
  unfold clean_pincode. cbv zeta. rewrite Hagain, Hfix. reflexivity.
Qed.

(** For the PAN: the letters and digits of the pattern are not white
    space, and [str.upper] leaves a string made of them as it is. *)

Hypothesis letter_is_plain : forall c, is_AZ c = true -> space c = false.
Hypothesis figure_is_plain : forall c, is_09 c = true -> space c = false.
Hypothesis upper_keeps :
  forall s, forallb (fun c => is_AZ c || is_09 c) s = true -> upper s = s.

(** ** X16 -- [clean_pan] returns a well-formed PAN and nothing else:
    the value is the upper-cased, stripped input, has exactly ten
    characters in the shape five letters, four digits, one letter (no
    line feed after it, although [$] alone would allow one), passes
    [validate_pan], as the input did, and is left as it is when cleaned
    again. *)
Theorem X16_clean_pan_gives_a_pan
    (pan : option (list C)) (cleaned : list C) :
  clean_pan space is_AZ is_09 newline upper pan = Some cleaned ->
  (exists raw, pan = Some raw /\ cleaned = strip space (upper raw))
  /\ length cleaned = 10%nat
  /\ pan_shape is_AZ is_09 cleaned = true
  /\ validate_pan space is_AZ is_09 newline upper pan = true
  /\ validate_pan space is_AZ is_09 newline upper (Some cleaned) = true
  /\ clean_pan space is_AZ is_09 newline upper (Some cleaned) = Some cleaned.
Proof.
  intros Hclean. unfold clean_pan in Hclean.
  destruct pan as [[|c0 raw]|]; try discriminate.
  cbv zeta in Hclean.
  assert (Hvalid :
            validate_pan space is_AZ is_09 newline upper (Some (c0 :: raw))
            = true).
  { change (at_end newline (pan_shape is_AZ is_09)
              (strip space (upper (c0 :: raw))) = true).
    destruct (at_end newline (pan_shape is_AZ is_09)
                (strip space (upper (c0 :: raw))));
      [reflexivity|discriminate]. }
  remember (strip space (upper (c0 :: raw))) as s eqn:Hs.
  destruct (at_end newline (pan_shape is_AZ is_09) s) eqn:Hmatch;
    [|discriminate].
  injection Hclean as <-.
  pose proof Hmatch as Hshape.
  rewrite Hs, (at_end_strip _ _ newline_is_space), <- Hs in Hshape.
  pose proof (pan_shape_chars _ _ _ Hshape) as [Hlen Hchars].
  pose proof (upper_keeps _ Hchars) as Hupper.
  assert (Hplain : forallb (fun c => negb (space c)) s = true).
  { revert Hchars. apply forallb_impl.
    intros c [Hc|Hc]%orb_true_iff; apply negb_true_iff;
      [apply letter_is_plain|apply figure_is_plain]; exact Hc. }
  pose proof (strip_plain _ _ Hplain) as Hfix.
  assert (Hagain : at_end newline (pan_shape is_AZ is_09)
                     (strip space (upper s)) = true).
  { rewrite Hupper, Hfix. exact Hmatch. }
  split; [exists (c0 :: raw); split; [reflexivity|exact Hs]|].
  split; [exact Hlen|]. split; [exact Hshape|]. split; [exact Hvalid|].
  destruct s as [|c rest]; [discriminate|].
  split; [exact Hagain|].
  unfold clean_pan. cbv zeta. rewrite Hagain, Hupper, Hfix. reflexivity.
Qed.

End Cleaners.

(** The characters of the witnesses: ASCII, where [\s] matches the
    characters 9 to 13, 28 to 32, [\d] and [[0-9]] the ten digits,
    [[A-Z]] the capital letters, and [str.upper] maps [a]..[z] to
    [A]..[Z]. *)

Module AsciiChars.

Definition code (c : ascii) : nat := nat_of_ascii c.

Definition between (lo hi : nat) (c : ascii) : bool :=
  ((lo <=? code c) && (code c <=? hi))%nat.

Definition space (c : ascii) : bool :=
  between 9 13 c || between 28 32 c.

Definition digit : ascii -> bool := between 48 57.

Definition is_AZ : ascii -> bool := between 65 90.

Definition hyphen : ascii := "-"%char.

Definition newline : ascii := "010"%char.

Definition upper (s : list ascii) : list ascii :=
  map (fun c => if between 97 122 c then ascii_of_nat (code c - 32) else c) s.

Lemma newline_is_space : space newline = true.
Proof. reflexivity. Qed.

Lemma digit_is_plain (c : ascii) :
  digit c = true -> space c = false /\ c <> hyphen.
Proof.
  destruct c as [[] [] [] [] [] [] [] []]; vm_compute;
    intros; try discriminate; (split; [reflexivity|discriminate]).
Qed.

Lemma letter_is_plain (c : ascii) : is_AZ c = true -> space c = false.
Proof.
  destruct c as [[] [] [] [] [] [] [] []]; vm_compute;
    intros; try discriminate; reflexivity.
Qed.

Lemma figure_is_plain (c : ascii) : digit c = true -> space c = false.
Proof. intros Hc. apply digit_is_plain, Hc. Qed.

Lemma upper_keeps (s : list ascii) :
  forallb (fun c => is_AZ c || digit c) s = true -> upper s = s.
Proof.
  induction s as [|c s IH]; cbn [forallb upper map]; [reflexivity|].
  intros [Hc Hs]%andb_true_iff. fold (upper s). rewrite (IH Hs). f_equal.
  revert Hc. clear.
  destruct c as [[] [] [] [] [] [] [] []]; vm_compute;
    intros; try discriminate; reflexivity.
Qed.

End AsciiChars.

Lemma X14_clean_aadhaar_gives_twelve_digits_witness :
  let cleaned := list_ascii_of_string "123456789012" in
  let aadhaar := Some (list_ascii_of_string "1234 5678-9012") in
  ValidationService.clean_aadhaar
    AsciiChars.space AsciiChars.digit AsciiChars.hyphen AsciiChars.newline
    aadhaar = Some cleaned
  /\ length cleaned = 12%nat
  /\ ValidationService.clean_aadhaar
       AsciiChars.space AsciiChars.digit AsciiChars.hyphen AsciiChars.newline
       (Some cleaned) = Some cleaned.
Proof.
  cbv zeta.
  pose proof (X14_clean_aadhaar_gives_twelve_digits
                AsciiChars.space AsciiChars.digit
                AsciiChars.hyphen AsciiChars.newline
                AsciiChars.newline_is_space AsciiChars.digit_is_plain
                (Some (list_ascii_of_string "1234 5678-9012"))
                (list_ascii_of_string "123456789012")
                eq_refl) as (_ & Hlen & _ & _ & _ & Hfix).
  split; [reflexivity|]. split; [exact Hlen|exact Hfix].
Defined.

Lemma X15_clean_pincode_gives_six_digits_witness :
  let cleaned := list_ascii_of_string "560001" in
  let pincode := Some (list_ascii_of_string "560 001") in
  ValidationService.clean_pincode
    AsciiChars.space AsciiChars.digit AsciiChars.newline pincode
  = Some cleaned
  /\ length cleaned = 6%nat
  /\ ValidationService.clean_pincode
       AsciiChars.space AsciiChars.digit AsciiChars.newline (Some cleaned)
     = Some cleaned.
Proof.
  cbv zeta.
  pose proof (X15_clean_pincode_gives_six_digits
                AsciiChars.space AsciiChars.digit
                AsciiChars.hyphen AsciiChars.newline
                AsciiChars.newline_is_space AsciiChars.digit_is_plain
                (Some (list_ascii_of_string "560 001"))
                (list_ascii_of_string "560001")
                eq_refl) as (_ & Hlen & _ & _ & _ & Hfix).
  split; [reflexivity|]. split; [exact Hlen|exact Hfix].
Defined.

Lemma X16_clean_pan_gives_a_pan_witness :
  let cleaned := list_ascii_of_string "ABCDE1234F" in
  let pan := Some (list_ascii_of_string " abcde1234f ") in
  ValidationService.clean_pan
    AsciiChars.space AsciiChars.is_AZ AsciiChars.digit AsciiChars.newline
    AsciiChars.upper pan = Some cleaned
  /\ length cleaned = 10%nat
  /\ ValidationService.clean_pan
       AsciiChars.space AsciiChars.is_AZ AsciiChars.digit AsciiChars.newline
       AsciiChars.upper (Some cleaned) = Some cleaned.
Proof.
  cbv zeta.
  pose proof (X16_clean_pan_gives_a_pan
                AsciiChars.space AsciiChars.is_AZ AsciiChars.digit
                AsciiChars.newline AsciiChars.upper
                AsciiChars.newline_is_space
                AsciiChars.letter_is_plain AsciiChars.figure_is_plain
                AsciiChars.upper_keeps
                (Some (list_ascii_of_string " abcde1234f "))
                (list_ascii_of_string "ABCDE1234F")
                eq_refl) as (_ & Hlen & _ & _ & _ & Hfix).
  split; [reflexivity|]. split; [exact Hlen|exact Hfix].
Defined.
